(** * paired_dataset.py: aligned multi-protocol MRI volume slices

    A shallow embedding of [center_crop], [VolumeDataset],
    [DummyVolumeDataset] and [AlignedVolumesDataset] from
    [models/jCAN/paired_dataset.py], and the properties of the data-loading
    core that follow from the code.

    Conventions of the embedding:
    - Python exceptions are values of [exn]; a call that may raise returns a
      [result], and [AlignedVolumesDataset.__init__], which also draws from
      the random source, runs in the state-and-exception monad [M].
    - a numpy array is a record of its dtype, its shape and a nested list of
      scalars ([nd]); sizes are [nat], Python integers are [Z].
    - the files on disk are an argument of every call that opens one, so a
      file may differ between construction and access.
    - floating-point values are elements of a type [R] with the operations
      of the class [FloatOps]; nothing is assumed about them.
    - the quantile [q] and the draws of the random source are exact
      rationals ([Q]), and [length * q] is the exact product; [round] is
      Python's round-half-to-even. The module [Binary64] recomputes the
      products of the examples in IEEE doubles.
    - [fftshift2], [ifft2] and [ifftshift2] come from the module [utils],
      which is not among the sources: they are the parameters [KspaceOps]. *)

From Stdlib Require Import Ascii String.
From Stdlib Require Import ZArith QArith Bool Lia Arith PeanoNat List.
From Stdlib Require Import SpecFloat.
Import ListNotations.

Set Implicit Arguments.
Set Warnings "-register-all".
Local Close Scope Q_scope.
Local Open Scope nat_scope.

(** ** Exceptions and fallible results *)

Inductive exn : Type :=
| AssertionError
| IndexError
| KeyError
| OSError
| UnboundLocalError
| ZeroDivisionError
| StopIteration.

Inductive result (A : Type) : Type :=
| Ok (a : A)
| Raise (e : exn).

Arguments Ok {A} a.
Arguments Raise {A} e.

Definition rbind {A B : Type} (m : result A) (k : A -> result B) : result B :=
  match m with
  | Ok a => k a
  | Raise e => Raise e
  end.

Declare Scope result_scope.
Delimit Scope result_scope with result.
Notation "x <- m ;; k" := (rbind m (fun x => k))
  (at level 61, m at next level, right associativity) : result_scope.

Definition py_assert (b : bool) : result unit :=
  if b then Ok tt else Raise AssertionError.

(** ** List helpers: Python slices and constant padding along one axis *)

(** [xs[from:to]] for non-negative bounds. *)
Definition slice_list {A : Type} (from to : nat) (xs : list A) : list A :=
  firstn (to - from) (skipn from xs).

(** [np.pad(xs, (before, after), constant_values=z)] on one axis. *)
Definition pad_list {A : Type} (z : A) (before after : nat) (xs : list A) : list A :=
  repeat z before ++ xs ++ repeat z after.

(** [l] with its entry [i] replaced by [v] (no change out of range). *)
Fixpoint set_dim (i : nat) (v : nat) (l : list nat) : list nat :=
  match l, i with
  | [], _ => []
  | _ :: t, 0 => v :: t
  | h :: t, S i' => h :: set_dim i' v t
  end.

(** ** Arrays *)

Inductive dtype : Type := float32 | float64 | complex64 | complex128.

(** Floating-point arithmetic of numpy, left abstract: the value [0.0],
    subtraction, division, and the rounding to single precision done by
    [astype(np.complex64)]. *)
Class FloatOps (R : Type) : Type := {
  rzero : R;
  rsub : R -> R -> R;
  rdiv : R -> R -> R;
  f32 : R -> R
}.

Section Arrays.

Context {R : Type} `{FloatOps R}.

(** A numpy scalar: real or complex floating point. *)
Inductive scalar : Type :=
| SReal (x : R)
| SCplx (re im : R).

Definition zero_of (dt : dtype) : scalar :=
  match dt with
  | float32 | float64 => SReal rzero
  | complex64 | complex128 => SCplx rzero rzero
  end.

(** The contents of an array, one nesting level per axis. *)
Inductive nd : Type :=
| Sca (x : scalar)
| Arr (xs : list nd).

Record ndarray : Type := mk_ndarray {
  arr_dtype : dtype;
  shape : list nat;
  body : nd
}.

Definition ndim (a : ndarray) : nat := length (shape a).

(** [has_shape sh a]: the nesting of [a] is exactly the shape [sh]. *)
Fixpoint has_shape (sh : list nat) (a : nd) : bool :=
  match sh, a with
  | [], Sca _ => true
  | n :: sh', Arr xs => (length xs =? n) && forallb (has_shape sh') xs
  | _, _ => false
  end.

Definition wf (a : ndarray) : Prop := has_shape (shape a) (body a) = true.

(** [np.full(sh, v)]. *)
Fixpoint full (v : scalar) (sh : list nat) : nd :=
  match sh with
  | [] => Sca v
  | n :: sh' => Arr (repeat (full v sh') n)
  end.

(** Apply [f] to every list found at nesting depth [d] (axis [d]). *)
Fixpoint on_axis (d : nat) (f : list nd -> list nd) (a : nd) {struct d} : nd :=
  match a with
  | Sca x => Sca x
  | Arr xs =>
      match d with
      | 0 => Arr (f xs)
      | S d' => Arr (map (on_axis d' f) xs)
      end
  end.

(** Element-wise map. *)
Fixpoint nd_map (f : scalar -> scalar) (a : nd) : nd :=
  match a with
  | Sca x => Sca (f x)
  | Arr xs => Arr (map (nd_map f) xs)
  end.

(** The element at a full multi-index, if it exists. *)
Fixpoint get_px (idx : list nat) (a : nd) : option scalar :=
  match idx, a with
  | [], Sca x => Some x
  | i :: idx', Arr xs =>
      match nth_error xs i with
      | Some c => get_px idx' c
      | None => None
      end
  | _, _ => None
  end.

(** [data.shape[-k]] for [k >= 1]; IndexError when the tuple is too short. *)
Definition shape_from_end (a : ndarray) (k : nat) : result nat :=
  if k <=? ndim a then Ok (nth (ndim a - k) (shape a) 0) else Raise IndexError.

(** [data[..., from:to, ...]] on axis [ax]. *)
Definition slice_axis (ax from to : nat) (a : ndarray) : ndarray :=
  {| arr_dtype := arr_dtype a;
     shape := set_dim ax (Nat.min (to - from) (nth ax (shape a) 0 - from)) (shape a);
     body := on_axis ax (slice_list from to) (body a) |}.

(** [np.pad] with [(before, after)] on axis [ax], [(0, 0)] elsewhere,
    [mode='constant', constant_values=0]. *)
Definition pad_axis (ax before after : nat) (a : ndarray) : ndarray :=
  {| arr_dtype := arr_dtype a;
     shape := set_dim ax (before + nth ax (shape a) 0 + after) (shape a);
     body := on_axis ax
               (pad_list (full (zero_of (arr_dtype a)) (skipn (S ax) (shape a)))
                         before after)
               (body a) |}.

(** ** [center_crop] *)

Open Scope result_scope.

Definition center_crop (data : ndarray) (shape_ : nat * nat) : result ndarray :=
  s0 <- shape_from_end data 2 ;;
  let data :=
    if fst shape_ <=? s0 then
      let w_from := (s0 - fst shape_) / 2 in
      let w_to := w_from + fst shape_ in
      slice_axis (ndim data - 2) w_from w_to data
    else
      let w_before := (fst shape_ - s0) / 2 in
      let w_after := fst shape_ - s0 - w_before in
      pad_axis (ndim data - 2) w_before w_after data in
  s1 <- shape_from_end data 1 ;;
  let data :=
    if snd shape_ <=? s1 then
      let h_from := (s1 - snd shape_) / 2 in
      let h_to := h_from + snd shape_ in
      slice_axis (ndim data - 1) h_from h_to data
    else
      let h_before := (snd shape_ - s1) / 2 in
      let h_after := snd shape_ - s1 - h_before in
      pad_axis (ndim data - 1) h_before h_after data in
  Ok data.

(** Source coordinate read by output coordinate [i] on one axis of
    [center_crop], [None] where the output holds padding. *)
Definition src_coord (source target i : nat) : option nat :=
  if target <=? source then Some (i + (source - target) / 2)
  else
    let before := (target - source) / 2 in
    if (before <=? i) && (i <? before + source) then Some (i - before) else None.

(** ** Indexing and reshaping used by the accessors *)

(** [a[k]] for a Python integer [k]: negative indices count from the end. *)
Definition getitem_int (a : ndarray) (k : Z) : result ndarray :=
  match shape a with
  | [] => Raise IndexError
  | n :: sh =>
      let k' := if (k <? 0)%Z then (k + Z.of_nat n)%Z else k in
      if ((0 <=? k') && (k' <? Z.of_nat n))%Z then
        match body a with
        | Arr xs =>
            match nth_error xs (Z.to_nat k') with
            | Some c => Ok {| arr_dtype := arr_dtype a; shape := sh; body := c |}
            | None => Raise IndexError
            end
        | Sca _ => Raise IndexError
        end
      else Raise IndexError
  end.

(** [a[None, ...]]: a new leading axis of size 1. *)
Definition expand_dims0 (a : ndarray) : ndarray :=
  {| arr_dtype := arr_dtype a; shape := 1 :: shape a; body := Arr [body a] |}.

(** [np.zeros(sh, dtype=dt)]. *)
Definition np_zeros (sh : list nat) (dt : dtype) : ndarray :=
  {| arr_dtype := dt; shape := sh; body := full (zero_of dt) sh |}.

Definition map_array (f : scalar -> scalar) (a : ndarray) : ndarray :=
  {| arr_dtype := arr_dtype a; shape := shape a; body := nd_map f (body a) |}.

(** [x - m] and [x / m] for an array element [x] and a real scalar [m].
    numpy promotes [m] to [m + 0j] against a complex [x]: the imaginary part
    is left as it is by the subtraction and divided by [m] by the division
    (as numpy's complex division computes it for finite operands). *)
Definition scalar_sub (x : scalar) (m : R) : scalar :=
  match x with
  | SReal a => SReal (rsub a m)
  | SCplx a b => SCplx (rsub a m) b
  end.

Definition scalar_div (x : scalar) (m : R) : scalar :=
  match x with
  | SReal a => SReal (rdiv a m)
  | SCplx a b => SCplx (rdiv a m) (rdiv b m)
  end.

Definition to_complex64 (x : scalar) : scalar :=
  match x with
  | SReal a => SCplx (f32 a) rzero
  | SCplx a b => SCplx (f32 a) (f32 b)
  end.

(** [i.astype(np.complex64)]. *)
Definition astype_complex64 (a : ndarray) : ndarray :=
  {| arr_dtype := complex64; shape := shape a; body := nd_map to_complex64 (body a) |}.

End Arrays.

Arguments scalar R : clear implicits.
Arguments nd R : clear implicits.
Arguments ndarray R : clear implicits.

(** ** Python numbers *)

(** Python's [round(x)] on an exact rational: nearest integer, ties to even. *)
Definition py_round (x : Q) : Z :=
  let n := Qnum x in
  let d := Zpos (Qden x) in
  let f := (n / d)%Z in
  match (2 * (n mod d) ?= d)%Z with
  | Lt => f
  | Gt => (f + 1)%Z
  | Eq => if Z.even f then f else (f + 1)%Z
  end.

(** [a // b] and [a % b] on integers. *)
Definition py_floordiv (a b : Z) : result Z :=
  if (b =? 0)%Z then Raise ZeroDivisionError else Ok (a / b)%Z.

Definition py_mod (a b : Z) : result Z :=
  if (b =? 0)%Z then Raise ZeroDivisionError else Ok (a mod b)%Z.

(** [len({f(x) for x in xs})]: the number of distinct values. *)
Definition distinct {A : Type} (eq_dec : forall x y : A, {x = y} + {x <> y})
    (xs : list A) : nat :=
  length (nodup eq_dec xs).

(** A list comprehension whose body may raise. *)
Fixpoint mapM {A B : Type} (f : A -> result B) (xs : list A) : result (list B) :=
  match xs with
  | [] => Ok []
  | x :: xs' =>
      (y <- f x ;; ys <- mapM f xs' ;; Ok (y :: ys))%result
  end.

(** ** Python dicts keyed by strings, in insertion order *)

Definition dict (V : Type) : Type := list (string * V).

Fixpoint dict_set {V : Type} (k : string) (v : V) (d : dict V) : dict V :=
  match d with
  | [] => [(k, v)]
  | (k', v') :: t =>
      if String.eqb k k' then (k', v) :: t else (k', v') :: dict_set k v t
  end.

Fixpoint dict_get {V : Type} (k : string) (d : dict V) : result V :=
  match d with
  | [] => Raise KeyError
  | (k', v') :: t => if String.eqb k k' then Ok v' else dict_get k t
  end.

Definition dict_mem {V : Type} (k : string) (d : dict V) : bool :=
  existsb (fun kv => String.eqb k (fst kv)) d.

(** [next(iter(d.values()))]. *)
Definition dict_first_value {V : Type} (d : dict V) : result V :=
  match d with
  | [] => Raise StopIteration
  | (_, v) :: _ => Ok v
  end.

(** ** Volume files *)

Section Volumes.

Context {R : Type} `{FloatOps R}.

(** What the code reads of an HDF5 volume file: the datasets [image] and
    [kspace] and the attributes [acquisition] and [max]. *)
Record h5file : Type := mk_h5file {
  h5_image : option (ndarray R);
  h5_kspace : option (ndarray R);
  attr_acquisition : option string;
  attr_max : option R
}.

(** The files on disk, by path. *)
Definition filesystem : Type := string -> option h5file.

(** [h5py.File(path, 'r')]. *)
Definition h5_open (fs : filesystem) (path : string) : result h5file :=
  match fs path with
  | Some h5 => Ok h5
  | None => Raise OSError
  end.

Definition h5_attr {A : Type} (a : option A) : result A :=
  match a with
  | Some v => Ok v
  | None => Raise KeyError
  end.

(** The functions [fftshift2], [ifft2] and [ifftshift2] of the module
    [utils], which is not part of the sources at hand: parameters. *)
Class KspaceOps : Type := {
  fftshift2 : ndarray R -> ndarray R;
  ifft2 : ndarray R -> ndarray R;
  ifftshift2 : ndarray R -> ndarray R
}.

Context `{KspaceOps}.

(** [h5['image']] if the file has it, else [h5['kspace']]; with neither,
    the variable [data] is unbound when it is first read. *)
Definition raw_dataset (h5 : h5file) : result (ndarray R) :=
  match h5_image h5 with
  | Some d => Ok d
  | None =>
      match h5_kspace h5 with
      | Some d => Ok d
      | None => Raise UnboundLocalError
      end
  end.

(** ** [VolumeDataset] *)

Record VolumeDataset : Type := mk_VolumeDataset {
  volume : string;
  flatten_channels : bool;
  crop : option nat;
  channels : nat;
  protocal : string;
  start : Z;
  stop : Z
}.

Open Scope result_scope.

(** [VolumeDataset.__init__]. *)
Definition VolumeDataset_init (fs : filesystem) (volume_ : string)
    (crop_ : option nat) (q : Q) (flatten_channels_ : bool)
    : result VolumeDataset :=
  _ <- py_assert (negb (Qle_bool (1 # 2) q)) ;;
  h5 <- h5_open fs volume_ ;;
  data <- raw_dataset h5 ;;
  lc <- (if ndim data =? 3 then
           _ <- py_assert (negb flatten_channels_) ;;
           Ok (nth 0 (shape data) 0, 1)
         else if ndim data =? 4 then
           Ok (nth 0 (shape data) 0, nth 1 (shape data) 0)
         else Raise AssertionError) ;;
  let length := Z.of_nat (fst lc) in
  protocal_ <- h5_attr (attr_acquisition h5) ;;
  let start_ := py_round (inject_Z length * q)%Q in
  Ok {| volume := volume_;
        flatten_channels := flatten_channels_;
        crop := crop_;
        channels := snd lc;
        protocal := protocal_;
        start := start_;
        stop := (length - start_)%Z |}.

(** [VolumeDataset.__len__]. *)
Definition VolumeDataset_len (self : VolumeDataset) : Z :=
  let length := (stop self - start self)%Z in
  if flatten_channels self then (length * Z.of_nat (channels self))%Z else length.

(** The array [data] of [__getitem__]: [image] as stored, or [kspace]
    shifted, inverse-transformed and shifted back. *)
Definition load_data (h5 : h5file) : result (ndarray R) :=
  match h5_image h5 with
  | Some d => Ok d
  | None =>
      match h5_kspace h5 with
      | Some d => Ok (ifftshift2 (ifft2 (fftshift2 d)))
      | None => Raise UnboundLocalError
      end
  end.

(** The slice [i] selected by [__getitem__] (lines 88-94). *)
Definition select_slice (self : VolumeDataset) (data : ndarray R) (index : Z)
    : result (ndarray R) :=
  if flatten_channels self then
    k <- py_floordiv index (Z.of_nat (channels self)) ;;
    i <- getitem_int data (k + start self)%Z ;;
    c <- py_mod index (Z.of_nat (channels self)) ;;
    i <- getitem_int i c ;;
    Ok (expand_dims0 i)
  else
    i <- getitem_int data (index + start self)%Z ;;
    Ok (if ndim i =? 3 then i else expand_dims0 i).

(** [(i - minVal) / (maxVal - minVal)]. The dtype label is kept: the only
    use made of it afterwards is the kind of zero [center_crop] pads with,
    and the final cast sets it to [complex64]. *)
Definition normalize (i : ndarray R) (minVal maxVal : R) : ndarray R :=
  map_array (fun x => scalar_div (scalar_sub x minVal) (rsub maxVal minVal)) i.

(** The rest of [__getitem__] once the slice is selected (lines 95-103). *)
Definition finish_slice (self : VolumeDataset) (h5 : h5file) (i : ndarray R)
    : result (ndarray R) :=
  let minVal := rzero in
  maxVal <- h5_attr (attr_max h5) ;;
  let i := normalize i minVal maxVal in
  i <- match crop self with
       | Some c => center_crop i (c, c)
       | None => Ok i
       end ;;
  let i := if ndim i =? 2 then expand_dims0 i else i in
  Ok (astype_complex64 i).

(** [VolumeDataset.__getitem__]. *)
Definition VolumeDataset_getitem (fs : filesystem) (self : VolumeDataset)
    (index : Z) : result (ndarray R) :=
  h5 <- h5_open fs (volume self) ;;
  data <- load_data h5 ;;
  i <- select_slice self data index ;;
  finish_slice self h5 i.

(** What is assumed of the functions of [utils] where a property needs it:
    they return an array of the shape they are given. *)
Definition shape_preserving (f : ndarray R -> ndarray R) : Prop :=
  forall a, wf a -> wf (f a) /\ shape (f a) = shape a.

Definition kspace_ok : Prop :=
  shape_preserving fftshift2 /\ shape_preserving ifft2 /\
  shape_preserving ifftshift2.


(** ** [DummyVolumeDataset] *)

Record DummyVolumeDataset : Type := mk_DummyVolumeDataset {
  dummy_shape : list nat;
  dummy_dtype : dtype;
  dummy_len : Z
}.

Definition DummyVolumeDataset_getitem (self : DummyVolumeDataset) (index : Z)
    : ndarray R :=
  np_zeros (dummy_shape self) (dummy_dtype self).

(** ** [AlignedVolumesDataset] *)

(** The members of a group: real volumes and the placeholder. *)
Inductive source : Type :=
| SrcVolume (v : VolumeDataset)
| SrcDummy (d : DummyVolumeDataset).

Definition source_len (s : source) : Z :=
  match s with
  | SrcVolume v => VolumeDataset_len v
  | SrcDummy d => dummy_len d
  end.

Definition source_getitem (fs : filesystem) (s : source) (index : Z)
    : result (ndarray R) :=
  match s with
  | SrcVolume v => VolumeDataset_getitem fs v index
  | SrcDummy d => Ok (DummyVolumeDataset_getitem d index)
  end.

(** [DummyVolumeDataset.__init__]: [ref[0]] and [len(ref)] of any member. *)
Definition DummyVolumeDataset_init (fs : filesystem) (ref : source)
    : result DummyVolumeDataset :=
  sample <- source_getitem fs ref 0 ;;
  Ok {| dummy_shape := shape sample;
        dummy_dtype := arr_dtype sample;
        dummy_len := source_len ref |}.

(** The protocol tag a member is stored under. *)
Definition tag_of (s : source) : string :=
  match s with
  | SrcVolume v => protocal v
  | SrcDummy _ => "None"
  end.

(** Every entry of the protocol dict is stored under its own tag. *)
Definition tagged (d : dict source) : Prop :=
  Forall (fun kv => tag_of (snd kv) = fst kv) d.

Record AlignedVolumesDataset : Type := mk_AlignedVolumesDataset {
  group_crop : option nat;
  volumes : list source
}.

(** The state a call runs in: the files on disk, and the random source as
    the sequence of its draws and the number of draws taken so far. *)
Record world : Type := mk_world {
  files : filesystem;
  rng_draws : nat -> Q;
  rng_pos : nat
}.

(** Computations that may raise and may advance the random source. *)
Definition M (A : Type) : Type := world -> result A * world.

Definition mret {A : Type} (a : A) : M A := fun w => (Ok a, w).

Definition mbind {A B : Type} (m : M A) (k : A -> M B) : M B :=
  fun w =>
    match m w with
    | (Ok a, w') => k a w'
    | (Raise e, w') => (Raise e, w')
    end.

(** A call that only reads the files. *)
Definition read_files {A : Type} (f : filesystem -> result A) : M A :=
  fun w => (f (files w), w).

(** [torch.rand(1)]. *)
Definition torch_rand : M Q :=
  fun w => (Ok (rng_draws w (rng_pos w)),
            {| files := files w; rng_draws := rng_draws w; rng_pos := S (rng_pos w) |}).

Definition raise_in_M {A : Type} (r : result A) : M A := fun w => (r, w).

Declare Scope world_scope.
Delimit Scope world_scope with world.
Notation "x <- m ;; k" := (mbind m (fun x => k))
  (at level 61, m at next level, right associativity) : world_scope.

(** [AlignedVolumesDataset.__init__]. The list [protocals] is the caller's
    and is reversed in place: its final content is returned with the group. *)
Definition AlignedVolumesDataset_init (volumes_ : list string)
    (protocals : list string) (crop_ : option nat) (q : Q)
    (flatten_channels_ exchange_Modal : bool)
    : M (AlignedVolumesDataset * list string) :=
  (vols <- read_files (fun fs =>
             mapM (fun x => VolumeDataset_init fs x crop_ q flatten_channels_)
                  volumes_) ;;
   _ <- raise_in_M
          (py_assert (distinct Z.eq_dec (map VolumeDataset_len vols) =? 1)) ;;
   shapes <- read_files (fun fs =>
               mapM (fun x => rbind (VolumeDataset_getitem fs x 0)
                                    (fun i => Ok (shape i)))
                    vols) ;;
   _ <- raise_in_M
          (py_assert (distinct (list_eq_dec Nat.eq_dec) shapes =? 1)) ;;
   let d := fold_left (fun d v => dict_set (protocal v) (SrcVolume v) d)
                      vols [] in
   ref <- raise_in_M (dict_first_value d) ;;
   dummy <- read_files (fun fs => DummyVolumeDataset_init fs ref) ;;
   let d := dict_set "None" (SrcDummy dummy) d in
   protocals <- (if exchange_Modal then
                   p <- torch_rand ;;
                   if negb (Qle_bool p (1 # 2)) then mret (rev protocals)
                   else mret protocals
                 else mret protocals) ;;
   _ <- raise_in_M (py_assert (forallb (fun x => dict_mem x d) protocals)) ;;
   vs <- raise_in_M (mapM (fun x => dict_get x d) protocals) ;;
   mret ({| group_crop := crop_; volumes := vs |}, protocals))%world.

(** [AlignedVolumesDataset.__len__]. *)
Definition AlignedVolumesDataset_len (self : AlignedVolumesDataset) : result Z :=
  match volumes self with
  | [] => Raise IndexError
  | v :: _ => Ok (source_len v)
  end.

(** [AlignedVolumesDataset.__getitem__]. *)
Definition AlignedVolumesDataset_getitem (self : AlignedVolumesDataset)
    (index : Z) : M (list (ndarray R)) :=
  read_files (fun fs => mapM (fun v => source_getitem fs v index) (volumes self)).

(** The accessor [__init__] builds for a volume whose dataset is [data] and
    whose [acquisition] attribute is [proto]. *)
Definition volume_of (path : string) (crop_ : option nat) (q : Q)
    (flatten_channels_ : bool) (data : ndarray R) (proto : string)
    : VolumeDataset :=
  let length := Z.of_nat (nth 0 (shape data) 0) in
  let start_ := py_round (inject_Z length * q)%Q in
  {| volume := path;
     flatten_channels := flatten_channels_;
     crop := crop_;
     channels := if ndim data =? 3 then 1 else nth 1 (shape data) 0;
     protocal := proto;
     start := start_;
     stop := (length - start_)%Z |}.

End Volumes.

Arguments h5file R : clear implicits.
Arguments filesystem R : clear implicits.
Arguments world R : clear implicits.
Arguments M R A : clear implicits.
Arguments KspaceOps R : clear implicits.

(** ** One axis of [center_crop], as the specification words it *)

(** Resize a list of length [source] to length [target] around its centre:
    slice [[from, from + target)] with [from = (source - target) // 2] when
    [target <= source], else pad with [before = (target - source) // 2]
    copies of [z] on the low side and [target - source - before] on the
    high side. *)
Definition resize_list {A : Type} (z : A) (source target : nat) (xs : list A)
    : list A :=
  if target <=? source then
    let from := (source - target) / 2 in
    slice_list from (from + target) xs
  else
    let before := (target - source) / 2 in
    pad_list z before (target - source - before) xs.

(** The same on axis [ax] of an array whose size on that axis is [source]. *)
Definition resize_axis {R : Type} `{FloatOps R} (ax source target : nat)
    (a : ndarray R) : ndarray R :=
  if target <=? source then
    let from := (source - target) / 2 in
    slice_axis ax from (from + target) a
  else
    let before := (target - source) / 2 in
    pad_axis ax before (target - source - before) a.

(** ** IEEE binary64, to check the rational model of [round(length * q)]

    [length * q] is a product of doubles in Python when [q] is a float. The
    two products the examples rest on are recomputed here in binary64
    ([SpecFloat], precision 53, [emax] 1024) and rounded with [py_round]. *)

Module Binary64.

Definition of_int (z : Z) : spec_float := binary_normalize 53 1024 z 0 false.

Definition mul (x y : spec_float) : spec_float := SFmul 53 1024 x y.

(** The exact value of a finite double. *)
Definition to_Q (x : spec_float) : option Q :=
  match x with
  | S754_zero _ => Some 0%Q
  | S754_finite s m e =>
      let n := if s then Zneg m else Zpos m in
      Some match e with
           | Z0 => (n # 1)%Q
           | Zpos p => ((n * Z.pow_pos 2 p) # 1)%Q
           | Zneg p => (n # (Pos.pow 2 p))%Q
           end
  | S754_infinity _ | S754_nan => None
  end.

(** [round(length * q)] for a double [q]. *)
Definition start_of (length : Z) (q : spec_float) : option Z :=
  option_map py_round (to_Q (mul (of_int length) q)).

(** The doubles written [0.05] and [0.4], and the largest double below
    [0.5]. *)
Definition d0_05 : spec_float := S754_finite false 0x1999999999999A (-57).
Definition d0_4 : spec_float := S754_finite false 0x1999999999999A (-54).
Definition below_half : spec_float := S754_finite false 0x1FFFFFFFFFFFFF (-54).

(** [2 * round(length * q) <= length], with [<] for odd [length]. *)
Definition window_ok (length : Z) (q : spec_float) : bool :=
  match start_of length q with
  | Some s => if Z.odd length then (2 * s <? length)%Z else (2 * s <=? length)%Z
  | None => false
  end.

End Binary64.

(** ** Concrete data for the examples

    Floating-point values are taken as exact rationals here, with exact
    arithmetic and [Qred] so that equal values are equal terms. *)

Module Samples.

#[global] Instance Q_float : FloatOps Q := {|
  rzero := 0%Q;
  rsub := fun a b => Qred (a - b)%Q;
  rdiv := fun a b => Qred (a / b)%Q;
  f32 := fun a => a
|}.

Definition row (l : list Z) : nd Q :=
  Arr (map (fun v => Sca (SReal (inject_Z v))) l).

Definition image (l : list (list Z)) : nd Q := Arr (map row l).

(** A [float32] array of shape [[2; 2; 3]]. *)
Definition a223 : ndarray Q :=
  {| arr_dtype := float32;
     shape := [2; 2; 3];
     body := Arr [image [[1; 2; 3]; [4; 5; 6]];
                  image [[7; 8; 9]; [10; 11; 12]]]%Z |}.

(** A 2 x 2 array holding [x] everywhere. *)
Definition all_x {R : Type} (x : R) : ndarray R :=
  {| arr_dtype := float32;
     shape := [2; 2];
     body := Arr [Arr [Sca (SReal x); Sca (SReal x)];
                  Arr [Sca (SReal x); Sca (SReal x)]] |}.

(** A stand-in for the functions of [utils]; the sample files below store
    [image] datasets, on which they are not called. *)
#[global] Instance no_kspace : KspaceOps Q := {|
  fftshift2 := fun a => a;
  ifft2 := fun a => a;
  ifftshift2 := fun a => a
|}.

(** A 1 x 2 image holding [v] and [v + 1]. *)
Definition slice_of (v : Z) : nd Q := image [[v; v + 1]%Z].

(** A rank-3 volume of [L] slices; slice [k] is [slice_of k]. *)
Definition vol3 (L : nat) : ndarray Q :=
  {| arr_dtype := float32;
     shape := [L; 1; 2];
     body := Arr (map (fun k => slice_of (Z.of_nat k)) (seq 0 L)) |}.

(** A rank-4 volume of [L] slices of [C] channels; channel [c] of slice [k]
    is [slice_of (10 * k + c)]. *)
Definition vol4 (L C : nat) : ndarray Q :=
  {| arr_dtype := float32;
     shape := [L; C; 1; 2];
     body := Arr (map (fun k =>
                    Arr (map (fun c => slice_of (Z.of_nat (10 * k + c)))
                             (seq 0 C)))
                  (seq 0 L)) |}.

Definition image_file (d : ndarray Q) (proto : string) (mx : Q) : h5file Q :=
  {| h5_image := Some d;
     h5_kspace := None;
     attr_acquisition := Some proto;
     attr_max := Some mx |}.

(** A disk holding the listed files. *)
Definition disk (l : list (string * h5file Q)) : filesystem Q :=
  fun p =>
    match find (fun kv => String.eqb p (fst kv)) l with
    | Some kv => Some (snd kv)
    | None => None
    end.

(** One volume of 100 slices. *)
Definition disk100 : filesystem Q :=
  disk [("a.h5"%string, image_file (vol3 100) "T1" 2)].


(** One volume of 2 slices with 2 channels each. *)
Definition disk_multi : filesystem Q :=
  disk [("m.h5"%string, image_file (vol4 2 2) "T1" 2)].

(** One volume of 3 slices with a single channel each. *)
Definition disk_single : filesystem Q :=
  disk [("s.h5"%string, image_file (vol4 3 1) "T2" 2)].



(** Two volumes of one subject, 2 slices each. *)
Definition disk_pair : filesystem Q :=
  disk [("a.h5"%string, image_file (vol3 2) "T1" 2);
        ("b.h5"%string, image_file (vol3 2) "T2" 2)].

(** Two volumes of differing length. *)
Definition disk_mismatch : filesystem Q :=
  disk [("a.h5"%string, image_file (vol3 2) "T1" 2);
        ("b.h5"%string, image_file (vol3 3) "T2" 2)].

(** A world on the given disk whose random source always draws [p]. *)
Definition world_on (fs : filesystem Q) (p : Q) : world Q :=
  {| files := fs; rng_draws := fun _ => p; rng_pos := 0 |}.

End Samples.

(** * The rest of the module

    [tiffPaired], [get_paired_volume_datasets] and the pieces of
    [AlignedVolumesDataset.__init__] taken one at a time. *)

(** ** Further exceptions *)

(** The exceptions above, and the two more that [np.split] and
    [os.path.join] raise. *)
Inductive pyexn : Type :=
| Std (e : exn)
| ValueError
| TypeError.

Inductive pyresult (A : Type) : Type :=
| POk (a : A)
| PRaise (e : pyexn).

Arguments POk {A} a.
Arguments PRaise {A} e.

Definition lift_result {A : Type} (r : result A) : pyresult A :=
  match r with
  | Ok a => POk a
  | Raise e => PRaise (Std e)
  end.

Definition pbind {A B : Type} (m : pyresult A) (k : A -> pyresult B)
    : pyresult B :=
  match m with
  | POk a => k a
  | PRaise e => PRaise e
  end.

Fixpoint pmapM {A B : Type} (f : A -> pyresult B) (xs : list A)
    : pyresult (list B) :=
  match xs with
  | [] => POk []
  | x :: xs' => pbind (f x) (fun y => pbind (pmapM f xs') (fun ys => POk (y :: ys)))
  end.

(** [l[k]] for a Python list and a Python integer. *)
Definition py_list_get {A : Type} (l : list A) (k : Z) : result A :=
  let n := Z.of_nat (length l) in
  let k' := if (k <? 0)%Z then (k + n)%Z else k in
  if ((0 <=? k') && (k' <? n))%Z then
    match nth_error l (Z.to_nat k') with
    | Some x => Ok x
    | None => Raise IndexError
    end
  else Raise IndexError.

(** [s.split(',')]. *)
Fixpoint split_comma (s : string) : list string :=
  match s with
  | EmptyString => [EmptyString]
  | String c s' =>
      if Ascii.eqb c ","%char then EmptyString :: split_comma s'
      else
        match split_comma s' with
        | h :: t => String c h :: t
        | [] => [String c EmptyString]
        end
  end.

(** [str.strip()] and [os.path.join] on two strings, left to the platform. *)
Class StrOps : Type := {
  py_strip : string -> string;
  path_join : string -> string -> string
}.

Section FurtherCode.

Context {R : Type} `{FloatOps R} `{KspaceOps R} `{StrOps}.

(** ** [AlignedVolumesDataset.__init__] in three steps *)

(** Lines 125-131: the members by protocol tag, with the placeholder under
    ["None"]. *)
Definition group_dict (fs : filesystem R) (volumes_ : list string)
    (crop_ : option nat) (q : Q) (flatten_channels_ : bool)
    : result (dict source) :=
  (vols <- mapM (fun x => VolumeDataset_init fs x crop_ q flatten_channels_)
                volumes_ ;;
   _ <- py_assert (distinct Z.eq_dec (map VolumeDataset_len vols) =? 1) ;;
   shapes <- mapM (fun x => rbind (VolumeDataset_getitem fs x 0)
                                  (fun i => Ok (shape i))) vols ;;
   _ <- py_assert (distinct (list_eq_dec Nat.eq_dec) shapes =? 1) ;;
   let d := fold_left (fun d v => dict_set (protocal v) (SrcVolume v) d)
                      vols [] in
   ref <- dict_first_value d ;;
   dummy <- DummyVolumeDataset_init fs ref ;;
   Ok (dict_set "None" (SrcDummy dummy) d))%result.

(** Lines 133-136: the order of the request list after the coin flip. *)
Definition flipped (exchange_Modal : bool) (p : Q) (protocals : list string)
    : list string :=
  if exchange_Modal && negb (Qle_bool p (1 # 2)) then rev protocals
  else protocals.

(** Lines 138-142: the members in the order of the request list. *)
Definition resolve_protocals (d : dict source) (crop_ : option nat)
    (protocals : list string) : result AlignedVolumesDataset :=
  (_ <- py_assert (forallb (fun x => dict_mem x d) protocals) ;;
   vs <- mapM (fun x => dict_get x d) protocals ;;
   Ok {| group_crop := crop_; volumes := vs |})%result.

(** The state after the coin flip, if there is one. *)
Definition after_flip (exchange_Modal : bool) (w : world R) : world R :=
  if exchange_Modal then
    {| files := files w; rng_draws := rng_draws w; rng_pos := S (rng_pos w) |}
  else w.

(** ** [get_paired_volume_datasets] *)

(** Computations of the further code: they may raise and may advance the
    random source. *)
Definition MX (A : Type) : Type := world R -> pyresult A * world R.

(** [os.path.join(basepath, filepath)]; [basepath] defaults to [None]. *)
Definition os_path_join (basepath : option string) (filepath : string)
    : pyresult string :=
  match basepath with
  | None => PRaise TypeError
  | Some b => POk (path_join b filepath)
  end.

(** The loop of lines 154-161. The list [protocals] is the same object for
    every group: each construction receives it as the one before left it. *)
Fixpoint paired_loop (lines : list string) (protocals : list string)
    (crop_ : option nat) (q : Q) (flatten_channels_ : bool)
    (basepath : option string) (exchange_Modal : bool)
    (datasets : list AlignedVolumesDataset)
    : MX (list AlignedVolumesDataset * list string) :=
  fun w =>
    match lines with
    | [] => (POk (datasets, protocals), w)
    | line :: rest =>
        match pmapM (os_path_join basepath) (split_comma (py_strip line)) with
        | PRaise e => (PRaise e, w)
        | POk dataset =>
            match AlignedVolumesDataset_init dataset protocals crop_ q
                    flatten_channels_ exchange_Modal w with
            | (Ok (ds, protocals'), w') =>
                paired_loop rest protocals' crop_ q flatten_channels_
                            basepath exchange_Modal (datasets ++ [ds]) w'
            | (Raise e, w') => (PRaise (Std e), w')
            end
        end
    end.

(** [get_paired_volume_datasets], called with a list for [protocals];
    [texts] gives, for the path of a text file, the lines [readlines()]
    returns. The final content of [protocals] is returned with the groups. *)
Definition get_paired_volume_datasets (texts : string -> option (list string))
    (csv_path : string) (protocals : list string) (crop_ : option nat)
    (q : Q) (flatten_channels_ : bool) (basepath : option string)
    (exchange_Modal : bool) : MX (list AlignedVolumesDataset * list string) :=
  fun w =>
    match texts csv_path with
    | None => (PRaise (Std OSError), w)
    | Some lines =>
        paired_loop lines protocals crop_ q flatten_channels_ basepath
                    exchange_Modal [] w
    end.

(** ** [tiffPaired] *)

Record tiffPaired : Type := mk_tiffPaired {
  tiffs : list string;
  tiff_crop : option nat
}.

Definition tiffPaired_len (self : tiffPaired) : Z :=
  Z.of_nat (length (tiffs self)).

(** [imageio.imread(path)]; [images] gives the array stored in each image
    file, with one of the dtypes above (integer images are not covered). *)
Definition imread (images : string -> option (ndarray R)) (path : string)
    : result (ndarray R) :=
  match images path with
  | Some img => Ok img
  | None => Raise OSError
  end.

(** [np.split(ary, 2, axis=-1)]: two halves of the last axis, which must
    have an even size. *)
Definition np_split2 (ary : ndarray R) : pyresult (ndarray R * ndarray R) :=
  pbind (lift_result (shape_from_end ary 1)) (fun N =>
    if N mod 2 =? 0 then
      POk (slice_axis (ndim ary - 1) 0 (N / 2) ary,
           slice_axis (ndim ary - 1) (N / 2) N ary)
    else PRaise ValueError).

(** [np.stack([x, np.zeros_like(x)], axis=0)]. *)
Definition stack_with_zeros (x : ndarray R) : ndarray R :=
  {| arr_dtype := arr_dtype x;
     shape := 2 :: shape x;
     body := Arr [body x; body (np_zeros (shape x) (arr_dtype x))] |}.

(** [tiffPaired.__getitem__]. *)
Definition tiffPaired_getitem (images : string -> option (ndarray R))
    (self : tiffPaired) (ind : Z) : pyresult (ndarray R * ndarray R) :=
  pbind (lift_result (py_list_get (tiffs self) ind)) (fun path =>
  pbind (lift_result (imread images path)) (fun img =>
  pbind (lift_result (py_assert (ndim img =? 2))) (fun _ =>
  pbind (np_split2 img) (fun halves =>
  let t1 := stack_with_zeros (fst halves) in
  let t2 := stack_with_zeros (snd halves) in
  match tiff_crop self with
  | Some c =>
      pbind (lift_result (center_crop t1 (c, c))) (fun t1 =>
      pbind (lift_result (center_crop t2 (c, c))) (fun t2 =>
      POk (t1, t2)))
  | None => POk (t1, t2)
  end)))).

End FurtherCode.

Arguments MX R A : clear implicits.

(** ** More concrete data *)

Module MoreSamples.

(** Two files that carry the same acquisition tag. *)
Definition disk_dup : filesystem Q :=
  Samples.disk [("a.h5"%string, Samples.image_file (Samples.vol3 2) "T1" 2);
                ("b.h5"%string, Samples.image_file (Samples.vol3 2) "T1" 4)].

(** A vector of 3 elements. *)
Definition vec3 : ndarray Q :=
  {| arr_dtype := float32; shape := [3]; body := Samples.row [1; 2; 3]%Z |}.

(** Two image files and a list that names a third, missing one. *)
Definition gallery (c : option nat) : tiffPaired :=
  {| tiffs := ["even.tif"; "odd.tif"; "gone.tif"]%string; tiff_crop := c |}.

(** A 2 x 4 image and a 2 x 3 image. *)
Definition img24 : ndarray Q :=
  {| arr_dtype := float32; shape := [2; 4];
     body := Samples.image [[1; 2; 3; 4]; [5; 6; 7; 8]]%Z |}.

Definition img23 : ndarray Q :=
  {| arr_dtype := float32; shape := [2; 3];
     body := Samples.image [[1; 2; 3]; [4; 5; 6]]%Z |}.

Definition pictures (p : string) : option (ndarray Q) :=
  if String.eqb p "even.tif" then Some img24
  else if String.eqb p "odd.tif" then Some img23
  else None.

(** ASCII white space, as [str.isspace] has it. *)
Definition is_space (c : ascii) : bool :=
  let n := nat_of_ascii c in
  ((9 <=? n) && (n <=? 13)) || ((28 <=? n) && (n <=? 32)).

Fixpoint lstrip (s : string) : string :=
  match s with
  | String c s' => if is_space c then lstrip s' else s
  | EmptyString => EmptyString
  end.

Fixpoint rstrip (s : string) : string :=
  match s with
  | String c s' =>
      match rstrip s' with
      | EmptyString => if is_space c then EmptyString else String c EmptyString
      | t => String c t
      end
  | EmptyString => EmptyString
  end.

(** [posixpath.join] on two components. *)
Definition posix_join (a b : string) : string :=
  match b with
  | String "/"%char _ => b
  | _ =>
      match a with
      | EmptyString => b
      | _ =>
          if String.eqb (substring (String.length a - 1) 1 a) "/"
          then (a ++ b)%string
          else (a ++ "/" ++ b)%string
      end
  end.

#[global] Instance posix : StrOps := {|
  py_strip := fun s => rstrip (lstrip s);
  path_join := posix_join
|}.

(** A manifest of two subjects, in the directory that holds
    [Samples.disk_pair]. *)
Definition manifest (p : string) : option (list string) :=
  if String.eqb p "train.csv" then
    Some ["a.h5,b.h5" ++ String (ascii_of_nat 10) EmptyString;
          " a.h5,b.h5 "]%string
  else if String.eqb p "empty.csv" then Some []
  else None.

End MoreSamples.

(** * Properties *)

Unset Implicit Arguments.

(** ** Lists *)

Lemma Forall_firstn_keep {A : Type} (P : A -> Prop) (n : nat) (l : list A) :
  Forall P l -> Forall P (firstn n l).
Proof.
  intros Hl. revert n.
  induction Hl as [|x l Hx Hl IH]; intros [|n]; simpl; auto.
Qed.

Lemma Forall_skipn_keep {A : Type} (P : A -> Prop) (n : nat) (l : list A) :
  Forall P l -> Forall P (skipn n l).
Proof.
  intros Hl. revert n.
  induction Hl as [|x l Hx Hl IH]; intros [|n]; simpl; auto.
Qed.

Lemma Forall_repeat_same {A : Type} (P : A -> Prop) (z : A) (n : nat) :
  P z -> Forall P (repeat z n).
Proof. intros Hz. induction n; simpl; auto. Qed.

Lemma slice_list_length {A : Type} (from to : nat) (xs : list A) :
  length (slice_list from to xs) = Nat.min (to - from) (length xs - from).
Proof. unfold slice_list. now rewrite length_firstn, length_skipn. Qed.

Lemma pad_list_length {A : Type} (z : A) (b a : nat) (xs : list A) :
  length (pad_list z b a xs) = b + length xs + a.
Proof. unfold pad_list. rewrite !length_app, !repeat_length. lia. Qed.

Lemma slice_list_all {A : Type} (xs : list A) (n : nat) :
  length xs = n -> slice_list 0 n xs = xs.
Proof.
  intros <-. unfold slice_list. simpl. rewrite Nat.sub_0_r. apply firstn_all.
Qed.

Lemma slice_list_pad_list {A : Type} (z : A) (b a n : nat) (xs : list A) :
  length xs = n -> slice_list b (b + n) (pad_list z b a xs) = xs.
Proof.
  intros <-. unfold slice_list, pad_list.
  rewrite skipn_app, repeat_length, Nat.sub_diag, skipn_all2
    by (rewrite repeat_length; lia).
  simpl. replace (b + length xs - b) with (length xs + 0) by lia.
  rewrite firstn_app_2. simpl. apply app_nil_r.
Qed.

Lemma slice_list_map {A B : Type} (g : A -> B) (from to : nat) (xs : list A) :
  slice_list from to (map g xs) = map g (slice_list from to xs).
Proof. unfold slice_list. now rewrite skipn_map, firstn_map. Qed.

Lemma half_le (n : nat) : n / 2 <= n.
Proof. apply Nat.Div0.div_le_upper_bound. lia. Qed.

Lemma resize_list_length {A : Type} (z : A) (s t : nat) (xs : list A) :
  length xs = s -> length (resize_list z s t xs) = t.
Proof.
  intros Hs. unfold resize_list.
  destruct (t <=? s) eqn:Hts.
  - apply Nat.leb_le in Hts. rewrite slice_list_length, Hs.
    pose proof (half_le (s - t)). lia.
  - apply Nat.leb_gt in Hts. rewrite pad_list_length, Hs.
    pose proof (half_le (t - s)). lia.
Qed.

Lemma resize_list_same {A : Type} (z : A) (s : nat) (xs : list A) :
  length xs = s -> resize_list z s s xs = xs.
Proof.
  intros Hs. unfold resize_list. rewrite Nat.leb_refl, Nat.sub_diag.
  simpl. now apply slice_list_all.
Qed.

(** Padding up and then cropping back, on one axis. *)
Lemma resize_list_round_trip {A : Type} (z z' : A) (s t : nat) (xs : list A) :
  length xs = s -> s <= t ->
  resize_list z' t s (resize_list z s t xs) = xs.
Proof.
  intros Hs Hst. unfold resize_list at 1.
  apply Nat.leb_le in Hst as Hst'. rewrite Hst'. simpl.
  unfold resize_list. destruct (t <=? s) eqn:Hts.
  - apply Nat.leb_le in Hts. assert (t = s) by lia. subst t.
    rewrite Nat.sub_diag. simpl. now rewrite !(slice_list_all xs s Hs).
  - now apply slice_list_pad_list.
Qed.

Lemma resize_list_Forall {A : Type} (P : A -> Prop) (z : A) (s t : nat)
    (xs : list A) :
  P z -> Forall P xs -> Forall P (resize_list z s t xs).
Proof.
  intros Hz Hxs. unfold resize_list, slice_list, pad_list.
  destruct (t <=? s).
  - now apply Forall_firstn_keep, Forall_skipn_keep.
  - rewrite !Forall_app. repeat split; auto using Forall_repeat_same.
Qed.

Lemma src_coord_in_range (s t i i' : nat) :
  i < t -> src_coord s t i = Some i' -> i' < s.
Proof.
  unfold src_coord. intros Hi.
  destruct (t <=? s) eqn:Hts.
  - apply Nat.leb_le in Hts. intros Heq.
    assert (i' = i + (s - t) / 2) by congruence.
    assert ((s - t) / 2 <= s - t) by apply half_le. lia.
  - destruct (_ && _) eqn:Hb; [|discriminate].
    apply andb_prop in Hb as [Hb1 Hb2].
    apply Nat.leb_le in Hb1. apply Nat.ltb_lt in Hb2. intros Heq.
    assert (i' = i - (t - s) / 2) by congruence. lia.
Qed.

(** The entry [i] of a resized list: the source entry [src_coord] names, or
    the padding value. *)
Lemma nth_error_resize_list {A : Type} (z : A) (s t i : nat) (xs : list A) :
  length xs = s -> i < t ->
  nth_error (resize_list z s t xs) i =
  match src_coord s t i with
  | Some i' => nth_error xs i'
  | None => Some z
  end.
Proof.
  intros Hs Hi. unfold resize_list, src_coord, slice_list, pad_list.
  destruct (t <=? s) eqn:Hts.
  - rewrite nth_error_firstn.
    replace (i <? (s - t) / 2 + t - (s - t) / 2) with true
      by (symmetry; apply Nat.ltb_lt; lia).
    rewrite nth_error_skipn. f_equal. lia.
  - apply Nat.leb_gt in Hts.
    pose proof (half_le (t - s)) as Hh.
    destruct ((t - s) / 2 <=? i) eqn:Hb1; cbn [andb].
    + apply Nat.leb_le in Hb1.
      rewrite nth_error_app2 by (rewrite repeat_length; lia).
      rewrite repeat_length.
      destruct (i <? (t - s) / 2 + s) eqn:Hb2.
      * apply Nat.ltb_lt in Hb2. now rewrite nth_error_app1 by lia.
      * apply Nat.ltb_ge in Hb2. rewrite nth_error_app2 by lia.
        apply nth_error_repeat. lia.
    + apply Nat.leb_gt in Hb1.
      rewrite nth_error_app1 by (rewrite repeat_length; lia).
      now apply nth_error_repeat.
Qed.

Lemma set_dim_app (lead : list nat) (v s : nat) (rest : list nat) :
  set_dim (length lead) v (lead ++ s :: rest) = lead ++ v :: rest.
Proof. induction lead as [|h lead IH]; simpl; [reflexivity | now rewrite IH]. Qed.

Lemma nth_app_here (lead : list nat) (s : nat) (rest : list nat) :
  nth (length lead) (lead ++ s :: rest) 0 = s.
Proof. induction lead; simpl; auto. Qed.

Lemma skipn_app_here (lead : list nat) (s : nat) (rest : list nat) :
  skipn (S (length lead)) (lead ++ s :: rest) = rest.
Proof. induction lead; simpl; auto. Qed.

(** ** Nested arrays *)

Section ArrayFacts.

Context {R : Type} `{FloatOps R}.

Lemma has_shape_cons (n : nat) (sh : list nat) (a : nd R) :
  has_shape (n :: sh) a = true <->
  exists xs, a = Arr xs /\ length xs = n /\
             Forall (fun x => has_shape sh x = true) xs.
Proof.
  split.
  - destruct a as [x|xs]; simpl; [discriminate|].
    intros Hb. apply andb_prop in Hb as [Hn Hall].
    exists xs. repeat split.
    + now apply Nat.eqb_eq.
    + apply Forall_forall. now apply forallb_forall.
  - intros (xs & -> & Hn & Hall). simpl.
    apply andb_true_intro. split.
    + now apply Nat.eqb_eq.
    + apply forallb_forall. now apply Forall_forall.
Qed.

Lemma full_has_shape (v : scalar R) (sh : list nat) :
  has_shape sh (full v sh) = true.
Proof.
  induction sh as [|n sh IH]; simpl; [reflexivity|].
  rewrite repeat_length, Nat.eqb_refl. simpl.
  apply forallb_forall. intros x Hx. apply repeat_spec in Hx. now subst.
Qed.

Lemma on_axis_compose (d : nat) (f g : list (nd R) -> list (nd R)) (a : nd R) :
  on_axis d f (on_axis d g a) = on_axis d (fun xs => f (g xs)) a.
Proof.
  revert a. induction d as [|d IH]; intros [x|xs]; simpl; try reflexivity.
  f_equal. rewrite map_map. apply map_ext. intros c. apply IH.
Qed.

(** An operation on axis [d + 1] is, seen from axis [d], the same operation
    inside every entry. *)
Lemma on_axis_succ (d : nat) (g : list (nd R) -> list (nd R)) (a : nd R) :
  on_axis (S d) g a = on_axis d (map (on_axis 0 g)) a.
Proof.
  revert a. induction d as [|d IH]; intros [x|xs]; try reflexivity.
  change (Arr (map (on_axis (S d) g) xs) =
          Arr (map (on_axis d (map (on_axis 0 g))) xs)).
  f_equal. apply map_ext. intros c. apply IH.
Qed.

(** Two operations that agree on the lists of the right shape agree on the
    array. *)
Lemma on_axis_ext (lead : list nat) (s : nat) (rest : list nat)
    (f g : list (nd R) -> list (nd R)) (a : nd R) :
  has_shape (lead ++ s :: rest) a = true ->
  (forall xs, length xs = s ->
              Forall (fun x => has_shape rest x = true) xs -> f xs = g xs) ->
  on_axis (length lead) f a = on_axis (length lead) g a.
Proof.
  intros Ha Hfg. revert a Ha.
  induction lead as [|n lead IH]; intros a Ha;
    apply has_shape_cons in Ha as (xs & -> & Hn & Hall); simpl.
  - f_equal. now apply Hfg.
  - f_equal. apply map_ext_in. intros c Hc. apply IH.
    rewrite Forall_forall in Hall. now apply Hall.
Qed.

Lemma on_axis_id (d : nat) (a : nd R) : on_axis d (fun xs => xs) a = a.
Proof.
  revert a. induction d as [|d IH]; intros [x|xs]; simpl; try reflexivity.
  f_equal. rewrite <- (map_id xs) at 2. apply map_ext. intros c. apply IH.
Qed.

Lemma on_axis_has_shape (lead : list nat) (s t : nat) (rest : list nat)
    (f : list (nd R) -> list (nd R)) (a : nd R) :
  has_shape (lead ++ s :: rest) a = true ->
  (forall xs, length xs = s ->
              Forall (fun x => has_shape rest x = true) xs ->
              length (f xs) = t /\
              Forall (fun x => has_shape rest x = true) (f xs)) ->
  has_shape (lead ++ t :: rest) (on_axis (length lead) f a) = true.
Proof.
  intros Ha Hf. revert a Ha.
  induction lead as [|n lead IH]; intros a Ha;
    apply has_shape_cons in Ha as (xs & -> & Hn & Hall);
    apply has_shape_cons.
  - exists (f xs). destruct (Hf xs Hn Hall) as [Hlen Hall']. auto.
  - exists (map (on_axis (length lead) f) xs). repeat split.
    + now rewrite length_map.
    + apply Forall_map. eapply Forall_impl; [|exact Hall].
      intros c Hc. now apply IH.
Qed.

Lemma get_px_full (v : scalar R) (sh idx : list nat) :
  Forall2 lt idx sh -> get_px idx (full v sh) = Some v.
Proof.
  intros Hidx. induction Hidx as [|i n idx sh Hi Hidx IH]; simpl; [reflexivity|].
  now rewrite nth_error_repeat.
Qed.

End ArrayFacts.

(** ** [center_crop] *)

Section CenterCropFacts.

Context {R : Type} `{FloatOps R}.

Lemma resize_axis_normal_form (a : ndarray R) (lead : list nat) (s t : nat)
    (rest : list nat) :
  shape a = lead ++ s :: rest ->
  resize_axis (length lead) s t a =
  {| arr_dtype := arr_dtype a;
     shape := lead ++ t :: rest;
     body := on_axis (length lead)
               (resize_list (full (zero_of (arr_dtype a)) rest) s t) (body a) |}.
Proof.
  intros Hsh. unfold resize_axis, resize_list, slice_axis, pad_axis.
  rewrite Hsh, nth_app_here, skipn_app_here, !set_dim_app.
  destruct (t <=? s) eqn:Hts.
  - apply Nat.leb_le in Hts. pose proof (half_le (s - t)).
    f_equal. f_equal. f_equal. lia.
  - apply Nat.leb_gt in Hts. pose proof (half_le (t - s)).
    f_equal. f_equal. f_equal. lia.
Qed.

Lemma center_crop_unfold (a : ndarray R) (lead : list nat) (s0 s1 t0 t1 : nat) :
  shape a = lead ++ [s0; s1] ->
  center_crop a (t0, t1) =
  Ok (resize_axis (S (length lead)) s1 t1 (resize_axis (length lead) s0 t0 a)).
Proof.
  intros Hsh.
  pose proof (resize_axis_normal_form a lead s0 t0 [s1] Hsh) as Hstep.
  assert (Hlen : ndim a = length lead + 2)
    by (unfold ndim; rewrite Hsh, length_app; reflexivity).
  assert (Hs0 : shape_from_end a 2 = Ok s0).
  { unfold shape_from_end. rewrite Hlen.
    replace (2 <=? length lead + 2) with true by (symmetry; apply Nat.leb_le; lia).
    replace (length lead + 2 - 2) with (length lead) by lia.
    now rewrite Hsh, nth_app_here. }
  set (a1 := resize_axis (length lead) s0 t0 a) in *.
  assert (Hsh1 : shape a1 = (lead ++ [t0]) ++ [s1])
    by (rewrite Hstep, <- app_assoc; reflexivity).
  assert (Hlen1 : ndim a1 = length lead + 2)
    by (unfold ndim; rewrite Hsh1, !length_app; simpl; lia).
  assert (Hs1 : shape_from_end a1 1 = Ok s1).
  { unfold shape_from_end. rewrite Hlen1.
    replace (1 <=? length lead + 2) with true by (symmetry; apply Nat.leb_le; lia).
    replace (length lead + 2 - 1) with (length (lead ++ [t0]))
      by (rewrite length_app; simpl; lia).
    now rewrite Hsh1, nth_app_here. }
  change (center_crop a (t0, t1)) with
    (rbind (shape_from_end a 2) (fun s0' =>
       let data := resize_axis (ndim a - 2) s0' t0 a in
       rbind (shape_from_end data 1) (fun s1' =>
         Ok (resize_axis (ndim data - 1) s1' t1 data)))).
  rewrite Hs0. cbn [rbind]. cbv zeta.
  replace (ndim a - 2) with (length lead) by lia. fold a1.
  rewrite Hs1. cbn [rbind].
  replace (ndim a1 - 1) with (S (length lead)) by lia. reflexivity.
Qed.

(** [center_crop] resizes the last two axes one after the other, each as
    [resize_list] says, and leaves the rest of the shape alone. *)
Lemma center_crop_normal_form (a : ndarray R) (lead : list nat)
    (s0 s1 t0 t1 : nat) :
  shape a = lead ++ [s0; s1] ->
  center_crop a (t0, t1) =
  Ok {| arr_dtype := arr_dtype a;
        shape := lead ++ [t0; t1];
        body := on_axis (S (length lead))
                  (resize_list (Sca (zero_of (arr_dtype a))) s1 t1)
                  (on_axis (length lead)
                     (resize_list (full (zero_of (arr_dtype a)) [s1]) s0 t0)
                     (body a)) |}.
Proof.
  intros Hsh. rewrite (center_crop_unfold a lead s0 s1 t0 t1 Hsh). f_equal.
  pose proof (resize_axis_normal_form a lead s0 t0 [s1] Hsh) as Hstep.
  set (a1 := resize_axis (length lead) s0 t0 a) in *.
  assert (Hsh1 : shape a1 = (lead ++ [t0]) ++ s1 :: [])
    by (rewrite Hstep, <- app_assoc; reflexivity).
  pose proof (resize_axis_normal_form a1 (lead ++ [t0]) s1 t1 [] Hsh1) as Hstep1.
  replace (length (lead ++ [t0])) with (S (length lead)) in Hstep1
    by (rewrite length_app; simpl; lia).
  rewrite Hstep1, Hstep, <- app_assoc. reflexivity.
Qed.

Lemma resize_list_crop_map {A B : Type} (g : A -> B) (z : B) (z' : A)
    (s t : nat) (xs : list A) :
  t <= s -> resize_list z s t (map g xs) = map g (resize_list z' s t xs).
Proof.
  intros Hts. apply Nat.leb_le in Hts. unfold resize_list. rewrite Hts.
  apply slice_list_map.
Qed.

Lemma center_crop_body_wf (lead : list nat) (s0 s1 t0 t1 : nat)
    (z : scalar R) (b : nd R) :
  has_shape (lead ++ [s0; s1]) b = true ->
  has_shape (lead ++ [t0; t1])
    (on_axis (S (length lead)) (resize_list (Sca z) s1 t1)
       (on_axis (length lead) (resize_list (full z [s1]) s0 t0) b)) = true.
Proof.
  intros Hb.
  assert (H1 : has_shape (lead ++ [t0; s1])
                 (on_axis (length lead) (resize_list (full z [s1]) s0 t0) b) = true).
  { apply (on_axis_has_shape lead s0 t0 [s1]); [exact Hb|].
    intros xs Hlen Hall. split.
    - now apply resize_list_length.
    - apply resize_list_Forall; [apply full_has_shape | exact Hall]. }
  change (lead ++ [t0; s1]) with (lead ++ [t0] ++ [s1]) in H1.
  change (lead ++ [t0; t1]) with (lead ++ [t0] ++ [t1]).
  rewrite app_assoc in H1 |- *.
  replace (S (length lead)) with (length (lead ++ [t0]))
    by (rewrite length_app; simpl; lia).
  apply (on_axis_has_shape (lead ++ [t0]) s1 t1 []); [exact H1|].
  intros xs Hlen Hall. split.
  - now apply resize_list_length.
  - apply resize_list_Forall; [reflexivity | exact Hall].
Qed.

Lemma center_crop_body_same (lead : list nat) (s0 s1 : nat)
    (z : scalar R) (b : nd R) :
  has_shape (lead ++ [s0; s1]) b = true ->
  on_axis (S (length lead)) (resize_list (Sca z) s1 s1)
    (on_axis (length lead) (resize_list (full z [s1]) s0 s0) b) = b.
Proof.
  intros Hb.
  assert (H0 : on_axis (length lead) (resize_list (full z [s1]) s0 s0) b = b).
  { rewrite <- (on_axis_id (length lead) b) at 2.
    apply (on_axis_ext lead s0 [s1]); [exact Hb|].
    intros xs Hlen _. now apply resize_list_same. }
  rewrite H0.
  change (lead ++ [s0; s1]) with (lead ++ [s0] ++ [s1]) in Hb.
  rewrite app_assoc in Hb.
  replace (S (length lead)) with (length (lead ++ [s0]))
    by (rewrite length_app; simpl; lia).
  rewrite <- (on_axis_id (length (lead ++ [s0])) b) at 2.
  apply (on_axis_ext (lead ++ [s0]) s1 []); [exact Hb|].
  intros xs Hlen _. now apply resize_list_same.
Qed.

(** Padding both axes up and cropping back, on the nested lists. *)
Lemma center_crop_body_round_trip (lead : list nat) (s0 s1 t0 t1 : nat)
    (z z' : scalar R) (b : nd R) :
  has_shape (lead ++ [s0; s1]) b = true -> s0 <= t0 -> s1 <= t1 ->
  on_axis (S (length lead)) (resize_list (Sca z') t1 s1)
    (on_axis (length lead) (resize_list (full z' [t1]) t0 s0)
       (on_axis (S (length lead)) (resize_list (Sca z) s1 t1)
          (on_axis (length lead) (resize_list (full z [s1]) s0 t0) b))) = b.
Proof.
  intros Hb H0 H1.
  rewrite !on_axis_succ, !on_axis_compose.
  rewrite <- (on_axis_id (length lead) b) at 2.
  apply (on_axis_ext lead s0 [s1]); [exact Hb|].
  intros xs Hlen Hall.
  rewrite (resize_list_crop_map _ _ (full z [s1]) t0 s0) by exact H0.
  rewrite resize_list_round_trip by assumption.
  rewrite map_map. rewrite <- (map_id xs) at 2.
  apply map_ext_in. intros c Hc.
  rewrite Forall_forall in Hall. specialize (Hall c Hc).
  apply has_shape_cons in Hall as (cols & -> & Hcols & _).
  simpl. f_equal. now apply resize_list_round_trip.
Qed.

Lemma nth_error_in_range {A : Type} (xs : list A) (i : nat) :
  i < length xs -> exists x, nth_error xs i = Some x /\ In x xs.
Proof.
  intros Hi. destruct (nth_error xs i) as [x|] eqn:Hx.
  - exists x. split; [reflexivity|]. eapply nth_error_In. exact Hx.
  - apply nth_error_None in Hx. lia.
Qed.

Lemma on_axis_S_Arr (d : nat) (f : list (nd R) -> list (nd R))
    (xs : list (nd R)) :
  on_axis (S d) f (Arr xs) = Arr (map (on_axis d f) xs).
Proof. reflexivity. Qed.

Lemma get_px_cons_Arr (k : nat) (idx : list nat) (xs : list (nd R)) :
  get_px (k :: idx) (Arr xs) =
  match nth_error xs k with
  | Some c => get_px idx c
  | None => None
  end.
Proof. reflexivity. Qed.

(** Every element of the result is the source element [src_coord] names on
    each of the two axes, or the padding value. *)
Lemma center_crop_body_px (lead idx : list nat) (s0 s1 t0 t1 i j : nat)
    (z : scalar R) (b : nd R) :
  has_shape (lead ++ [s0; s1]) b = true ->
  Forall2 lt idx lead -> i < t0 -> j < t1 ->
  get_px (idx ++ [i; j])
    (on_axis (S (length lead)) (resize_list (Sca z) s1 t1)
       (on_axis (length lead) (resize_list (full z [s1]) s0 t0) b)) =
  match src_coord s0 t0 i, src_coord s1 t1 j with
  | Some i', Some j' => get_px (idx ++ [i'; j']) b
  | _, _ => Some z
  end.
Proof.
  intros Hb Hidx Hi Hj. revert b Hb.
  induction Hidx as [|k n idx lead Hk Hidx IH]; intros b Hb.
  - apply has_shape_cons in Hb as (rows & -> & Hrows & Hall).
    cbn [app length on_axis get_px].
    rewrite nth_error_map, nth_error_resize_list by assumption.
    destruct (src_coord s0 t0 i) as [i'|] eqn:Hi'.
    + assert (Hi'r : i' < length rows)
        by (rewrite Hrows; exact (src_coord_in_range s0 t0 i i' Hi Hi')).
      destruct (nth_error_in_range rows i' Hi'r) as (row & Hrow & Hin).
      rewrite Hrow. cbn [option_map].
      rewrite Forall_forall in Hall. specialize (Hall row Hin).
      apply has_shape_cons in Hall as (cols & -> & Hcols & _).
      cbn [on_axis get_px].
      rewrite nth_error_resize_list by assumption.
      destruct (src_coord s1 t1 j) as [j'|]; reflexivity.
    + cbn [option_map full on_axis get_px].
      rewrite nth_error_resize_list by (try apply repeat_length; assumption).
      destruct (src_coord s1 t1 j) as [j'|] eqn:Hj'; [|reflexivity].
      rewrite nth_error_repeat by exact (src_coord_in_range s1 t1 j j' Hj Hj').
      reflexivity.
  - rewrite <- app_comm_cons in Hb.
    apply has_shape_cons in Hb as (xs & -> & Hxs & Hall).
    assert (Hkr : k < length xs) by lia.
    destruct (nth_error_in_range xs k Hkr) as (c & Hc & Hin).
    rewrite Forall_forall in Hall. specialize (Hall c Hin).
    cbn [length]. rewrite !on_axis_S_Arr, <- app_comm_cons, get_px_cons_Arr.
    rewrite !nth_error_map, Hc. cbn [option_map].
    rewrite (IH c Hall).
    destruct (src_coord s0 t0 i), (src_coord s1 t1 j); try reflexivity.
    now rewrite <- app_comm_cons, get_px_cons_Arr, Hc.
Qed.

End CenterCropFacts.

(** ** GeometryResizer: the contract of [center_crop] *)

Section CenterCropClaims.

Context {R : Type} `{FloatOps R}.

(** C2. For an array [a] with at least two axes ([shape a = lead ++ [s0; s1]])
    and any target [(t0, t1)], [center_crop] returns an array [r] whose
    trailing two axes are exactly [t0] and [t1] and whose other axes and dtype
    are those of [a]. Each of the two axes is resized on its own as
    [resize_list] says: the slice [[from, from + target)] with
    [from = (source - target) // 2] when [target <= source], else zero padding
    with [(target - source) // 2] entries on the low side and the rest on the
    high side. Element by element, [r] holds at [idx ++ [i; j]] the element of
    [a] at the source coordinates of [i] and [j], or zero where either
    coordinate falls in the padding. When the target is [(s0, s1)], [r] is [a]. *)
Theorem center_crop_contract (a : ndarray R) (lead : list nat)
    (s0 s1 t0 t1 : nat) :
  wf a -> shape a = lead ++ [s0; s1] ->
  exists r,
    center_crop a (t0, t1) = Ok r /\
    wf r /\
    shape r = lead ++ [t0; t1] /\
    arr_dtype r = arr_dtype a /\
    body r = on_axis (S (length lead))
               (resize_list (Sca (zero_of (arr_dtype a))) s1 t1)
               (on_axis (length lead)
                  (resize_list (full (zero_of (arr_dtype a)) [s1]) s0 t0)
                  (body a)) /\
    (forall idx i j, Forall2 lt idx lead -> i < t0 -> j < t1 ->
       get_px (idx ++ [i; j]) (body r) =
       match src_coord s0 t0 i, src_coord s1 t1 j with
       | Some i', Some j' => get_px (idx ++ [i'; j']) (body a)
       | _, _ => Some (zero_of (arr_dtype a))
       end) /\
    (t0 = s0 -> t1 = s1 -> r = a).
Proof.
  intros Hwf Hsh. unfold wf in Hwf. rewrite Hsh in Hwf.
  eexists. split; [apply (center_crop_normal_form a lead s0 s1 t0 t1 Hsh)|].
  unfold wf. cbn [arr_dtype shape body].
  split; [now apply center_crop_body_wf|].
  do 3 (split; [reflexivity|]).
  split.
  - intros idx i j Hidx Hi Hj. now apply center_crop_body_px.
  - intros -> ->. rewrite center_crop_body_same by exact Hwf.
    destruct a as [dt sh b]. cbn in *. now subst sh.
Qed.

(** C3. Padding an array up to a target that is at least as large on both
    trailing axes and then cropping back to the original sizes returns the
    array itself. The reverse composition does not: for every value [x]
    other than zero, the 2 x 2 array holding [x] everywhere, cropped to
    1 x 1 and padded back to 2 x 2, differs from the array. *)
Theorem pad_then_crop_round_trip (a : ndarray R) (lead : list nat)
    (s0 s1 t0 t1 : nat) :
  wf a -> shape a = lead ++ [s0; s1] -> s0 <= t0 -> s1 <= t1 ->
  rbind (center_crop a (t0, t1)) (fun p => center_crop p (s0, s1)) = Ok a /\
  (forall x : R, x <> rzero ->
     wf (Samples.all_x x) /\
     rbind (center_crop (Samples.all_x x) (1, 1))
           (fun c => center_crop c (2, 2)) <> Ok (Samples.all_x x)).
Proof.
  intros Hwf Hsh H0 H1. split.
  - rewrite (center_crop_normal_form a lead s0 s1 t0 t1 Hsh). cbn [rbind].
    match goal with
    | |- center_crop ?p _ = _ =>
        rewrite (center_crop_normal_form p lead t0 t1 s0 s1 eq_refl)
    end.
    cbn [arr_dtype shape body]. unfold wf in Hwf. rewrite Hsh in Hwf.
    rewrite center_crop_body_round_trip by assumption.
    destruct a as [dt sh b]. cbn in *. now subst sh.
  - intros x Hx. split; [reflexivity|].
    cbv -[rzero]. intros Heq. apply Hx. congruence.
Qed.

End CenterCropClaims.

Lemma center_crop_contract_witness :
  wf Samples.a223 /\ shape Samples.a223 = [2] ++ [2; 3] /\
  exists r,
    center_crop Samples.a223 (3, 2) = Ok r /\
    wf r /\
    shape r = [2] ++ [3; 2] /\
    arr_dtype r = arr_dtype Samples.a223 /\
    body r = on_axis 2
               (resize_list (Sca (zero_of (arr_dtype Samples.a223))) 3 2)
               (on_axis 1
                  (resize_list (full (zero_of (arr_dtype Samples.a223)) [3]) 2 3)
                  (body Samples.a223)) /\
    (forall idx i j, Forall2 lt idx [2] -> i < 3 -> j < 2 ->
       get_px (idx ++ [i; j]) (body r) =
       match src_coord 2 3 i, src_coord 3 2 j with
       | Some i', Some j' => get_px (idx ++ [i'; j']) (body Samples.a223)
       | _, _ => Some (zero_of (arr_dtype Samples.a223))
       end) /\
    (3 = 2 -> 2 = 3 -> r = Samples.a223).
Proof.
  split; [reflexivity|]. split; [reflexivity|].
  apply (center_crop_contract Samples.a223 [2] 2 3 3 2); reflexivity.
Defined.

Lemma pad_then_crop_round_trip_witness :
  rbind (center_crop Samples.a223 (4, 5)) (fun p => center_crop p (2, 3))
    = Ok Samples.a223 /\
  rbind (center_crop (Samples.all_x 1%Q) (1, 1))
        (fun c => center_crop c (2, 2)) <> Ok (Samples.all_x 1%Q).
Proof.
  destruct (pad_then_crop_round_trip Samples.a223 [2] 2 3 4 5
              eq_refl eq_refl ltac:(lia) ltac:(lia)) as [Hround Hasym].
  split; [exact Hround|].
  apply (Hasym 1%Q). discriminate.
Defined.

Lemma center_crop_low_rank {R : Type} `{FloatOps R} (a : ndarray R)
    (t : nat * nat) :
  ndim a < 2 -> center_crop a t = Raise IndexError.
Proof.
  intros Hn. unfold center_crop, shape_from_end.
  replace (2 <=? ndim a) with false by (symmetry; apply Nat.leb_gt; lia).
  reflexivity.
Qed.

(** ** Rounding and the trimmed window *)

Local Open Scope Z_scope.

Lemma py_round_cases (x : Q) :
  let n := Qnum x in
  let d := Zpos (Qden x) in
  exists f r, n = d * f + r /\ 0 <= r < d /\
    (py_round x = f /\ 2 * r <= d \/ py_round x = f + 1 /\ d <= 2 * r).
Proof.
  intros n d. exists (n / d), (n mod d).
  assert (Hd : 0 < d) by reflexivity.
  split; [apply Z.div_mod; lia|].
  split; [apply Z.mod_pos_bound; exact Hd|].
  unfold py_round. fold n d.
  generalize (n / d) (n mod d). intros f r.
  destruct (2 * r ?= d) eqn:Hc.
  - apply Z.compare_eq in Hc. destruct (Z.even f); [left | right]; lia.
  - rewrite Z.compare_lt_iff in Hc. left. lia.
  - rewrite Z.compare_gt_iff in Hc. right. lia.
Qed.

Lemma py_round_nonneg (x : Q) : (0 <= x)%Q -> 0 <= py_round x.
Proof.
  intros Hx. destruct (py_round_cases x) as (f & r & Hn & Hr & Hcase).
  unfold Qle in Hx. simpl in Hx. rewrite Z.mul_1_r in Hx.
  assert (0 <= f) by nia.
  destruct Hcase as [[-> _] | [-> _]]; lia.
Qed.

(** With [q < 1/2] the two trimmed ends never overlap, and an odd number of
    slices always leaves one. *)
Lemma py_round_window (L : Z) (q : Q) :
  0 <= L -> (q < 1 # 2)%Q ->
  2 * py_round (inject_Z L * q) <= L /\
  (Z.odd L = true -> 2 * py_round (inject_Z L * q) < L).
Proof.
  intros HL Hq.
  destruct (py_round_cases (inject_Z L * q)) as (f & r & Hn & Hr & Hcase).
  cbn [Qnum Qden Qmult inject_Z] in Hn, Hr, Hcase.
  change (Z.pos (1 * Qden q)) with (Z.pos (Qden q)) in *.
  unfold Qlt in Hq. cbn [Qnum Qden] in Hq.
  set (a := Qnum q) in *. set (d := Z.pos (Qden q)) in *.
  assert (Hd : 0 < d) by reflexivity.
  assert (Hle : 2 * py_round (inject_Z L * q) <= L).
  { destruct Hcase as [[-> Hc] | [-> Hc]]; nia. }
  split; [exact Hle|].
  intros Hodd. apply Z.odd_spec in Hodd as [m Hm]. lia.
Qed.

(** ** [VolumeDataset] *)

Section VolumeFacts.

Context {R : Type} `{FloatOps R} `{KspaceOps R}.

Lemma assert_q_ok (q : Q) :
  py_assert (negb (Qle_bool (1 # 2) q)) = Ok tt <-> (q < 1 # 2)%Q.
Proof.
  unfold py_assert. destruct (Qle_bool (1 # 2) q) eqn:Hb; simpl.
  - apply Qle_bool_iff in Hb. split; [discriminate|].
    intros Hq. exfalso. apply (Qlt_not_le _ _ Hq Hb).
  - split; [|reflexivity]. intros _. apply Qnot_le_lt.
    intros Hle. apply Qle_bool_iff in Hle. congruence.
Qed.

(** [__init__] succeeds exactly on an existing file with a dataset of rank 3
    or 4 (rank 3 only without flattening) and an [acquisition] attribute,
    for [q < 1/2]; the object is [volume_of]. *)
Lemma VolumeDataset_init_ok (fs : filesystem R) (path : string)
    (crop_ : option nat) (q : Q) (fl : bool) (self : VolumeDataset) :
  VolumeDataset_init fs path crop_ q fl = Ok self <->
  exists h5 data proto,
    fs path = Some h5 /\ raw_dataset h5 = Ok data /\
    attr_acquisition h5 = Some proto /\ (q < 1 # 2)%Q /\
    (ndim data = 3%nat /\ fl = false \/ ndim data = 4%nat) /\
    self = volume_of path crop_ q fl data proto.
Proof.
  unfold VolumeDataset_init, h5_open, h5_attr, volume_of. split.
  - destruct (py_assert _) as [[]|] eqn:Hq; [|discriminate].
    apply assert_q_ok in Hq. cbn [rbind].
    destruct (fs path) as [h5|] eqn:Hfs; [|discriminate]. cbn [rbind].
    destruct (raw_dataset h5) as [data|] eqn:Hraw; [|discriminate].
    cbn [rbind].
    destruct (attr_acquisition h5) as [proto|] eqn:Hp.
    + destruct (ndim data =? 3)%nat eqn:H3.
      * apply Nat.eqb_eq in H3. destruct fl; [discriminate|].
        cbn [py_assert negb rbind fst snd]. intros [= <-].
        exists h5, data, proto. rewrite H3. auto 10.
      * destruct (ndim data =? 4)%nat eqn:H4; [|discriminate].
        apply Nat.eqb_eq in H4. cbn [rbind fst snd]. intros [= <-].
        exists h5, data, proto. rewrite H4. auto 10.
    + destruct (ndim data =? 3)%nat; [destruct fl|];
        try discriminate;
        destruct (ndim data =? 4)%nat; discriminate.
  - intros (h5 & data & proto & Hfs & Hraw & Hp & Hq & Hrank & ->).
    apply assert_q_ok in Hq. rewrite Hq, Hfs. cbn [rbind].
    rewrite Hraw. cbn [rbind]. rewrite Hp.
    destruct Hrank as [[-> ->] | ->]; reflexivity.
Qed.

Lemma VolumeDataset_len_volume_of (path : string) (crop_ : option nat) (q : Q)
    (fl : bool) (data : ndarray R) (proto : string) :
  let length := Z.of_nat (nth 0 (shape data) 0%nat) in
  let start_ := py_round (inject_Z length * q) in
  VolumeDataset_len (volume_of path crop_ q fl data proto) =
  if fl then (length - 2 * start_) *
             Z.of_nat (if (ndim data =? 3)%nat then 1%nat else nth 1 (shape data) 0%nat)
  else length - 2 * start_.
Proof.
  intros length start_. unfold VolumeDataset_len, volume_of.
  cbn [start stop flatten_channels channels]. fold length. fold start_.
  destruct fl; [f_equal|]; lia.
Qed.

End VolumeFacts.

Section WindowClaims.

Context {R : Type} `{FloatOps R} `{KspaceOps R}.





End WindowClaims.




(** ** Selecting and finishing a slice *)

Section SliceFacts.

Context {R : Type} `{FloatOps R} `{KspaceOps R}.

Lemma has_shape_nd_map (f : scalar R -> scalar R) (sh : list nat) (b : nd R) :
  has_shape sh (nd_map f b) = has_shape sh b.
Proof.
  revert b. induction sh as [|n sh IH]; intros [x|xs]; try reflexivity.
  cbn [nd_map has_shape]. rewrite length_map. f_equal.
  induction xs as [|c xs IHxs]; [reflexivity|].
  cbn [map forallb]. now rewrite IH, IHxs.
Qed.


Lemma astype_complex64_wf (a : ndarray R) : wf a -> wf (astype_complex64 a).
Proof. unfold wf, astype_complex64. cbn. now rewrite has_shape_nd_map. Qed.

Lemma normalize_wf (a : ndarray R) (lo hi : R) : wf a -> wf (normalize a lo hi).
Proof. unfold wf, normalize, map_array. cbn. now rewrite has_shape_nd_map. Qed.



(** Indexing the first axis inside its bounds. *)
Lemma getitem_int_ok (a : ndarray R) (n : nat) (sh : list nat) (k : Z) :
  wf a -> shape a = n :: sh -> 0 <= k < Z.of_nat n ->
  exists c,
    getitem_int a k = Ok {| arr_dtype := arr_dtype a; shape := sh; body := c |} /\
    has_shape sh c = true /\
    exists xs, body a = Arr xs /\ nth_error xs (Z.to_nat k) = Some c.
Proof.
  intros Hwf Hsh Hk. unfold wf in Hwf. rewrite Hsh in Hwf.
  apply has_shape_cons in Hwf as (xs & Hbody & Hlen & Hall).
  assert (Hkn : (Z.to_nat k < length xs)%nat) by lia.
  destruct (nth_error_in_range xs (Z.to_nat k) Hkn) as (c & Hc & Hin).
  exists c. unfold getitem_int. rewrite Hsh, Hbody.
  replace (k <? 0) with false by (symmetry; apply Z.ltb_ge; lia).
  cbv beta iota zeta.
  replace (0 <=? k) with true by (symmetry; apply Z.leb_le; lia).
  replace (k <? Z.of_nat n) with true by (symmetry; apply Z.ltb_lt; lia).
  cbn [andb]. rewrite Hc.
  split; [reflexivity|]. split.
  - rewrite Forall_forall in Hall. now apply Hall.
  - now exists xs.
Qed.

Lemma load_data_ok (h5 : h5file R) (d : ndarray R) :
  kspace_ok -> raw_dataset h5 = Ok d -> wf d ->
  exists d', load_data h5 = Ok d' /\ wf d' /\ shape d' = shape d.
Proof.
  intros (Hf & Hi & Hs) Hraw Hwf. unfold raw_dataset in Hraw. unfold load_data.
  destruct (h5_image h5) as [im|].
  - injection Hraw as ->. now exists d.
  - destruct (h5_kspace h5) as [ks|]; [|discriminate].
    injection Hraw as ->.
    destruct (Hf d Hwf) as [Hw1 Hs1].
    destruct (Hi _ Hw1) as [Hw2 Hs2].
    destruct (Hs _ Hw2) as [Hw3 Hs3].
    eexists. split; [reflexivity|]. split; [exact Hw3|]. congruence.
Qed.

(** The tail of [__getitem__] on a well-formed rank-3 slice. *)
Lemma finish_slice_rank3 (self : VolumeDataset) (h5 : h5file R)
    (i : ndarray R) (m : R) (n0 h w : nat) :
  attr_max h5 = Some m -> wf i -> shape i = [n0; h; w] ->
  exists r0,
    finish_slice self h5 i = Ok (astype_complex64 r0) /\
    match crop self with
    | Some c => center_crop (normalize i rzero m) (c, c)
    | None => Ok (normalize i rzero m)
    end = Ok r0 /\
    wf r0 /\
    shape r0 = match crop self with
               | Some c => [n0; c; c]
               | None => [n0; h; w]
               end.
Proof.
  intros Hm Hwf Hsh. unfold finish_slice, h5_attr. rewrite Hm. cbn [rbind].
  pose proof (normalize_wf i rzero m Hwf) as Hwn.
  assert (Hsn : shape (normalize i rzero m) = [n0] ++ [h; w]) by exact Hsh.
  destruct (crop self) as [c|].
  - rewrite (center_crop_normal_form _ [n0] h w c c Hsn).
    eexists. cbn [rbind]. split; [reflexivity|]. split; [reflexivity|].
    split; [|reflexivity].
    unfold wf in *. cbn [shape body arr_dtype] in *. rewrite Hsn in Hwn.
    now apply center_crop_body_wf.
  - exists (normalize i rzero m). cbn [rbind].
    unfold ndim. rewrite Hsn. cbn. auto.
Qed.

Lemma expand_dims0_wf (a : ndarray R) : wf a -> wf (expand_dims0 a).
Proof.
  unfold wf, expand_dims0. cbn [shape body has_shape length forallb].
  intros ->. reflexivity.
Qed.

(** Without flattening, a raw index inside the dataset selects that slice;
    a rank-3 dataset gets the channel axis added. *)
Lemma select_unflattened (self : VolumeDataset) (d : ndarray R) (index : Z)
    (L : nat) (rest : list nat) :
  flatten_channels self = false -> wf d -> shape d = L :: rest ->
  0 <= index + start self < Z.of_nat L ->
  exists c,
    let i := {| arr_dtype := arr_dtype d; shape := rest; body := c |} in
    getitem_int d (index + start self) = Ok i /\ wf i /\
    select_slice self d index =
      Ok (if (length rest =? 3)%nat then i else expand_dims0 i).
Proof.
  intros Hfl Hwf Hsh Hk.
  destruct (getitem_int_ok d L rest _ Hwf Hsh Hk) as (c & Hget & Hc & _).
  exists c. cbv zeta. split; [exact Hget|]. split; [exact Hc|].
  unfold select_slice. rewrite Hfl, Hget. reflexivity.
Qed.

(** With flattening, [index] selects channel [index % C] of slice
    [index // C + start]. *)
Lemma select_flattened (self : VolumeDataset) (d : ndarray R) (index : Z)
    (L C h w : nat) :
  flatten_channels self = true -> channels self = C ->
  wf d -> shape d = [L; C; h; w] ->
  (0 < C)%nat -> 0 <= index / Z.of_nat C + start self < Z.of_nat L ->
  exists c,
    let i := {| arr_dtype := arr_dtype d; shape := [h; w]; body := c |} in
    wf i /\ select_slice self d index = Ok (expand_dims0 i).
Proof.
  intros Hfl HC Hwf Hsh Hpos Hk.
  destruct (getitem_int_ok d L [C; h; w] _ Hwf Hsh Hk) as (c1 & Hget1 & Hc1 & _).
  set (i1 := {| arr_dtype := arr_dtype d; shape := [C; h; w]; body := c1 |}) in *.
  assert (Hmod : 0 <= index mod Z.of_nat C < Z.of_nat C)
    by (apply Z.mod_pos_bound; lia).
  destruct (getitem_int_ok i1 C [h; w] _ Hc1 eq_refl Hmod)
    as (c2 & Hget2 & Hc2 & _).
  exists c2. cbv zeta. split; [exact Hc2|].
  unfold select_slice, py_floordiv, py_mod. rewrite Hfl, HC.
  replace (Z.of_nat C =? 0) with false by (symmetry; apply Z.eqb_neq; lia).
  cbn [rbind]. rewrite Hget1. cbn [rbind]. rewrite Hget2. reflexivity.
Qed.

End SliceFacts.

Section AccessClaims.

Context {R : Type} `{FloatOps R} `{KspaceOps R}.

Lemma getitem_from_slice (fs : filesystem R) (self : VolumeDataset)
    (index : Z) (h5 : h5file R) (d i : ndarray R) (m : R) (n0 h w : nat) :
  fs (volume self) = Some h5 -> load_data h5 = Ok d ->
  select_slice self d index = Ok i -> attr_max h5 = Some m ->
  wf i -> shape i = [n0; h; w] ->
  exists r0,
    VolumeDataset_getitem fs self index = Ok (astype_complex64 r0) /\
    finish_slice self h5 i = Ok (astype_complex64 r0) /\
    wf r0 /\
    shape r0 = match crop self with
               | Some c => [n0; c; c]
               | None => [n0; h; w]
               end.
Proof.
  intros Hfs Hload Hsel Hm Hwf Hsh.
  destruct (finish_slice_rank3 self h5 i m n0 h w Hm Hwf Hsh)
    as (r0 & Hfin & _ & Hw0 & Hs0).
  exists r0. unfold VolumeDataset_getitem, h5_open.
  rewrite Hfs. cbn [rbind]. rewrite Hload. cbn [rbind]. rewrite Hsel.
  cbn [rbind]. auto.
Qed.

Lemma start_bounds (L : nat) (q : Q) :
  (0 <= q)%Q -> (q < 1 # 2)%Q ->
  0 <= py_round (inject_Z (Z.of_nat L) * q) /\
  2 * py_round (inject_Z (Z.of_nat L) * q) <= Z.of_nat L.
Proof.
  intros Hq0 Hq. split.
  - apply py_round_nonneg. apply Qmult_le_0_compat; [|exact Hq0].
    unfold Qle. simpl. lia.
  - apply py_round_window; [lia | exact Hq].
Qed.


(** C10. Without flattening, [get] does not check the index against the
    exposed length: when [start > 0], every index from the exposed length up
    to [length - start] (excluded) succeeds and returns the finished slice
    [index + start] of the loaded array, which lies at or after [stop], past
    the trimmed window. *)
Theorem index_past_window_not_rejected (fs : filesystem R) (path : string)
    (crop_ : option nat) (q : Q) (h5 : h5file R) (data : ndarray R) (m : R)
    (self : VolumeDataset) (index : Z) :
  kspace_ok -> fs path = Some h5 -> raw_dataset h5 = Ok data -> wf data ->
  attr_max h5 = Some m -> (0 <= q)%Q ->
  VolumeDataset_init fs path crop_ q false = Ok self ->
  0 < start self ->
  let length := Z.of_nat (nth 0 (shape data) 0%nat) in
  length - 2 * start self <= index < length - start self ->
  VolumeDataset_len self = length - 2 * start self /\
  stop self <= index + start self < length /\
  exists d i r,
    load_data h5 = Ok d /\
    getitem_int d (index + start self) = Ok i /\
    finish_slice self h5 (if (ndim i =? 3)%nat then i else expand_dims0 i)
      = Ok r /\
    VolumeDataset_getitem fs self index = Ok r.
Proof.
  intros Hks Hfs Hraw Hwf Hm Hq0 Hinit Hstart len_raw Hidx.
  apply VolumeDataset_init_ok in Hinit
    as (h5' & data' & proto & Hfs' & Hraw' & _ & Hq & Hrank & ->).
  assert (h5' = h5) by congruence. subst h5'.
  assert (data' = data) by congruence. subst data'.
  destruct (load_data_ok h5 data Hks Hraw Hwf) as (d & Hload & Hwd & Hsd).
  set (self := volume_of path crop_ q false data proto) in *.
  assert (Hst : start self = py_round (inject_Z len_raw * q)) by reflexivity.
  assert (Hsp : stop self = len_raw - start self) by reflexivity.
  destruct (start_bounds (nth 0 (shape data) 0%nat) q Hq0 Hq) as [Hb0 Hb1].
  fold len_raw in Hb0, Hb1. rewrite <- Hst in Hb0, Hb1.
  split; [exact (VolumeDataset_len_volume_of path crop_ q false data proto)|].
  split; [lia|].
  assert (Hsh : exists L rest, shape data = L :: rest /\
                                (length rest = 2 \/ length rest = 3)%nat).
  { unfold ndim in Hrank.
    destruct (shape data) as [|L rest]; cbn [length] in Hrank.
    - destruct Hrank as [[? _]|?]; discriminate.
    - exists L, rest. split; [reflexivity|]. lia. }
  destruct Hsh as (L & rest & Hsh & Hrest).
  assert (HL : len_raw = Z.of_nat L) by (unfold len_raw; now rewrite Hsh).
  rewrite Hsh in Hsd.
  destruct (select_unflattened self d index L rest eq_refl Hwd Hsd ltac:(lia))
    as (c & Hget & Hwi & Hsel).
  set (i := {| arr_dtype := arr_dtype d; shape := rest; body := c |}) in *.
  change (length rest) with (ndim i) in Hsel.
  assert (Hi3 : exists n0 h w,
             wf (if (ndim i =? 3)%nat then i else expand_dims0 i) /\
             shape (if (ndim i =? 3)%nat then i else expand_dims0 i) = [n0; h; w]).
  { change (ndim i) with (length rest).
    destruct rest as [|a [|b [|e [|? ?]]]]; cbn [length] in Hrest;
      try (exfalso; lia).
    - exists 1%nat, a, b. split; [now apply expand_dims0_wf | reflexivity].
    - exists a, b, e. split; [exact Hwi | reflexivity]. }
  destruct Hi3 as (n0 & h & w & Hwi3 & Hsi3).
  destruct (getitem_from_slice fs self index h5 d _ m n0 h w
              Hfs Hload Hsel Hm Hwi3 Hsi3) as (r0 & Hgetitem & Hfin & _).
  exists d, i, (astype_complex64 r0). auto.
Qed.

Lemma getitem_int_inv (a c : ndarray R) (k : Z) :
  getitem_int a k = Ok c -> wf a ->
  exists n, shape a = n :: shape c /\ arr_dtype c = arr_dtype a /\ wf c.
Proof.
  unfold getitem_int, wf. destruct a as [dt sh b]. cbn [shape body arr_dtype].
  destruct sh as [|n sh]; [discriminate|].
  destruct (_ && _); [|discriminate].
  destruct b as [x|xs]; [discriminate|].
  destruct (nth_error xs _) as [e|] eqn:He; [|discriminate].
  intros [= <-] Hwf. apply has_shape_cons in Hwf as (xs' & [= <-] & _ & Hall).
  exists n. cbn [shape body arr_dtype]. repeat split.
  rewrite Forall_forall in Hall. apply Hall. eapply nth_error_In. exact He.
Qed.

(** With a single channel, taking channel [index % 1] of slice [index // 1]
    and adding the axis back gives the slice itself. *)
Lemma select_slice_single_channel (sf sn : VolumeDataset) (d : ndarray R)
    (index : Z) (L h w : nat) :
  flatten_channels sf = true -> flatten_channels sn = false ->
  channels sf = 1%nat -> start sf = start sn ->
  wf d -> shape d = [L; 1%nat; h; w] ->
  select_slice sf d index = select_slice sn d index.
Proof.
  intros Hf Hn Hc Hs Hwf Hsh. unfold select_slice, py_floordiv, py_mod.
  rewrite Hf, Hn, Hc, Hs. cbn [Z.of_nat Pos.of_succ_nat Z.eqb rbind].
  rewrite Z.div_1_r, Z.mod_1_r.
  destruct (getitem_int d (index + start sn)) as [i|e] eqn:Hget; [|reflexivity].
  cbn [rbind].
  destruct (getitem_int_inv d i _ Hget Hwf) as (n & Hsd & Hdt & Hwi).
  rewrite Hsh in Hsd. injection Hsd as _ Hsi.
  destruct i as [dt sh b]. cbn [shape arr_dtype] in *. subst sh.
  unfold wf in Hwi. cbn [shape body] in Hwi.
  apply has_shape_cons in Hwi as (ys & -> & Hlen & Hall).
  destruct ys as [|y [|? ?]]; try discriminate.
  reflexivity.
Qed.

(** C7. For a rank-4 volume with a single channel, the accessor built with
    flattening and the one built without report the same length and return
    the same result for every index. *)
Theorem flatten_single_channel_equiv (fs : filesystem R) (path : string)
    (crop_ : option nat) (q : Q) (h5 : h5file R) (data : ndarray R)
    (sf sn : VolumeDataset) :
  kspace_ok -> fs path = Some h5 -> raw_dataset h5 = Ok data -> wf data ->
  ndim data = 4%nat -> nth 1 (shape data) 0%nat = 1%nat ->
  VolumeDataset_init fs path crop_ q true = Ok sf ->
  VolumeDataset_init fs path crop_ q false = Ok sn ->
  VolumeDataset_len sf = VolumeDataset_len sn /\
  forall index,
    VolumeDataset_getitem fs sf index = VolumeDataset_getitem fs sn index.
Proof.
  intros Hks Hfs Hraw Hwf Hrank HC Hsf Hsn.
  apply VolumeDataset_init_ok in Hsf
    as (h5' & data' & proto & Hfs' & Hraw' & Hp & _ & _ & ->).
  assert (h5' = h5) by congruence. subst h5'.
  assert (data' = data) by congruence. subst data'.
  apply VolumeDataset_init_ok in Hsn
    as (h5' & data' & proto' & Hfs'' & Hraw'' & Hp' & _ & _ & ->).
  assert (h5' = h5) by congruence. subst h5'.
  assert (data' = data) by congruence. subst data'.
  assert (proto' = proto) by congruence. subst proto'.
  split.
  - rewrite !VolumeDataset_len_volume_of, Hrank, HC. cbn [Nat.eqb]. lia.
  - intros index.
    destruct (load_data_ok h5 data Hks Hraw Hwf) as (d & Hload & Hwd & Hsd).
    unfold VolumeDataset_getitem, h5_open. cbn [volume volume_of].
    rewrite Hfs. cbn [rbind]. rewrite Hload. cbn [rbind].
    assert (Hsh : exists L h w, shape d = [L; 1%nat; h; w]).
    { rewrite Hsd. unfold ndim in Hrank.
      destruct (shape data) as [|L [|c1 [|c2 [|c3 [|? ?]]]]]; try discriminate.
      cbn [nth] in HC. subst c1. now exists L, c2, c3. }
    destruct Hsh as (L & h & w & Hsh).
    rewrite (select_slice_single_channel
               (volume_of path crop_ q true data proto)
               (volume_of path crop_ q false data proto) d index L h w);
      try reflexivity; try assumption.
    cbn [channels volume_of]. now rewrite Hrank, HC.
Qed.


End AccessClaims.

Lemma no_kspace_ok : @kspace_ok Q Samples.no_kspace.
Proof. repeat split; assumption. Qed.





Lemma flatten_single_channel_equiv_witness :
  VolumeDataset_len (volume_of "s.h5" None 0 true (Samples.vol4 3 1) "T2") =
  VolumeDataset_len (volume_of "s.h5" None 0 false (Samples.vol4 3 1) "T2") /\
  forall index,
    VolumeDataset_getitem Samples.disk_single
      (volume_of "s.h5" None 0 true (Samples.vol4 3 1) "T2") index =
    VolumeDataset_getitem Samples.disk_single
      (volume_of "s.h5" None 0 false (Samples.vol4 3 1) "T2") index.
Proof.
  apply (flatten_single_channel_equiv Samples.disk_single "s.h5" None 0
           (Samples.image_file (Samples.vol4 3 1) "T2" 2) (Samples.vol4 3 1)
           _ _ no_kspace_ok eq_refl eq_refl eq_refl eq_refl eq_refl
           eq_refl eq_refl).
Defined.

Lemma index_past_window_not_rejected_witness :
  VolumeDataset_len (volume_of "a.h5" None (1 # 20) false (Samples.vol3 100) "T1")
    = 90 /\
  exists r,
    VolumeDataset_getitem Samples.disk100
      (volume_of "a.h5" None (1 # 20) false (Samples.vol3 100) "T1") 92 = Ok r /\
    get_px [0; 0; 0]%nat (body r) = Some (SCplx (97 # 2)%Q 0%Q).
Proof.
  destruct (index_past_window_not_rejected Samples.disk100 "a.h5" None (1 # 20)
              (Samples.image_file (Samples.vol3 100) "T1" 2)
              (Samples.vol3 100) 2%Q
              (volume_of "a.h5" None (1 # 20) false (Samples.vol3 100) "T1") 92
              no_kspace_ok eq_refl eq_refl eq_refl eq_refl
              ltac:(unfold Qle; simpl; lia) eq_refl eq_refl
              ltac:(vm_compute; split; [discriminate | reflexivity]))
    as (Hlen & _ & d & i & r & _ & _ & _ & Hget).
  split; [exact Hlen|]. exists r. split; [exact Hget|].
  vm_compute in Hget. injection Hget as <-. reflexivity.
Defined.

(** ** [AlignedVolumesDataset] *)

Lemma distinct_one {A : Type} (eq_dec : forall x y : A, {x = y} + {x <> y})
    (l : list A) (x y : A) :
  distinct eq_dec l = 1%nat -> In x l -> In y l -> x = y.
Proof.
  unfold distinct. intros Hone Hx Hy.
  apply (nodup_In eq_dec) in Hx, Hy.
  destruct (nodup eq_dec l) as [|z [|? ?]]; try discriminate.
  destruct Hx as [<-|[]], Hy as [<-|[]]. reflexivity.
Qed.

Lemma mapM_In {A B : Type} (f : A -> result B) (xs : list A) (ys : list B)
    (x : A) (y : B) :
  mapM f xs = Ok ys -> In x xs -> f x = Ok y -> In y ys.
Proof.
  revert ys. induction xs as [|a xs IH]; intros ys Hm Hin Hfx; [destruct Hin|].
  cbn [mapM] in Hm. destruct (f a) as [b|] eqn:Hfa; [|discriminate].
  cbn [rbind] in Hm. destruct (mapM f xs) as [bs|]; [|discriminate].
  cbn [rbind] in Hm. injection Hm as <-.
  destruct Hin as [->|Hin].
  - left. congruence.
  - right. now apply IH.
Qed.

Lemma mapM_Forall2 {A B : Type} (f : A -> result B) (xs : list A) (ys : list B) :
  mapM f xs = Ok ys -> Forall2 (fun x y => f x = Ok y) xs ys.
Proof.
  revert ys. induction xs as [|a xs IH]; intros ys Hm; cbn [mapM] in Hm.
  - injection Hm as <-. constructor.
  - destruct (f a) as [b|] eqn:Hfa; [|discriminate].
    cbn [rbind] in Hm. destruct (mapM f xs) as [bs|]; [|discriminate].
    cbn [rbind] in Hm. injection Hm as <-. constructor; auto.
Qed.

Section GroupFacts.

Context {R : Type} `{FloatOps R} `{KspaceOps R}.

Lemma dict_set_tagged (k : string) (v : source) (d : dict source) :
  tag_of v = k -> tagged d -> tagged (dict_set k v d).
Proof.
  intros Hv Hd. induction Hd as [|[k' v'] d Hkv Hd IH]; cbn [dict_set].
  - constructor; [exact Hv | constructor].
  - destruct (String.eqb k k') eqn:Hk.
    + apply String.eqb_eq in Hk. subst k'. constructor; [exact Hv | exact Hd].
    + constructor; [exact Hkv | exact IH].
Qed.

Lemma fold_dict_tagged (vols : list VolumeDataset) (d : dict source) :
  tagged d ->
  tagged (fold_left (fun d v => dict_set (protocal v) (SrcVolume v) d) vols d).
Proof.
  revert d. induction vols as [|v vols IH]; intros d Hd; cbn [fold_left].
  - exact Hd.
  - apply IH. now apply dict_set_tagged.
Qed.

Lemma dict_get_tagged (d : dict source) (k : string) (s : source) :
  tagged d -> dict_get k d = Ok s -> tag_of s = k.
Proof.
  intros Hd. induction Hd as [|[k' v'] d Hkv Hd IH]; cbn [dict_get].
  - discriminate.
  - destruct (String.eqb k k') eqn:Hk.
    + apply String.eqb_eq in Hk. intros [= <-]. now subst k'.
    + exact IH.
Qed.

Lemma mapM_dict_get_tags (d : dict source) (ps : list string)
    (vs : list source) :
  tagged d -> mapM (fun x => dict_get x d) ps = Ok vs -> map tag_of vs = ps.
Proof.
  intros Hd Hm. apply mapM_Forall2 in Hm.
  induction Hm as [|p v ps vs Hpv Hm IH]; [reflexivity|].
  cbn [map]. f_equal; [|exact IH]. eapply dict_get_tagged; eassumption.
Qed.

(** C4. Once the member accessors are built, a group whose members differ in
    length, or whose first slices differ in shape, is not constructed:
    [__init__] raises, with [AssertionError] in the case of differing
    lengths, and before the random source is read, so no group exists on
    which [get] could be called. *)
Theorem misaligned_group_fails_construction (w : world R)
    (volumes_ protocals : list string) (crop_ : option nat) (q : Q)
    (fl exch : bool) (vols : list VolumeDataset) :
  mapM (fun x => VolumeDataset_init (files w) x crop_ q fl) volumes_ = Ok vols ->
  (exists v1 v2, In v1 vols /\ In v2 vols /\
                 VolumeDataset_len v1 <> VolumeDataset_len v2) \/
  (exists v1 v2 s1 s2, In v1 vols /\ In v2 vols /\
                       VolumeDataset_getitem (files w) v1 0 = Ok s1 /\
                       VolumeDataset_getitem (files w) v2 0 = Ok s2 /\
                       shape s1 <> shape s2) ->
  exists e,
    AlignedVolumesDataset_init volumes_ protocals crop_ q fl exch w
      = (Raise e, w) /\
    ((exists v1 v2, In v1 vols /\ In v2 vols /\
                    VolumeDataset_len v1 <> VolumeDataset_len v2) ->
     e = AssertionError).
Proof.
  intros Hvols Hbad.
  unfold AlignedVolumesDataset_init, mbind, read_files, raise_in_M.
  rewrite Hvols.
  destruct (distinct Z.eq_dec (map VolumeDataset_len vols) =? 1)%nat eqn:Hlen.
  - apply Nat.eqb_eq in Hlen.
    assert (Hsame : forall v1 v2, In v1 vols -> In v2 vols ->
                                  VolumeDataset_len v1 = VolumeDataset_len v2).
    { intros v1 v2 H1 H2.
      apply (distinct_one Z.eq_dec (map VolumeDataset_len vols));
        [exact Hlen | now apply in_map | now apply in_map]. }
    destruct Hbad as [(v1 & v2 & H1 & H2 & Hne) | (v1 & v2 & s1 & s2 & H1 & H2 & G1 & G2 & Hne)];
      [exfalso; apply Hne; now apply Hsame|].
    cbn [py_assert].
    destruct (mapM _ vols) as [shapes|e] eqn:Hshapes.
    + destruct (distinct (list_eq_dec Nat.eq_dec) shapes =? 1)%nat eqn:Hsh.
      * exfalso. apply Nat.eqb_eq in Hsh. apply Hne.
        apply (distinct_one (list_eq_dec Nat.eq_dec) shapes); [exact Hsh| |].
        -- eapply mapM_In; [exact Hshapes | exact H1 |].
           cbv beta. now rewrite G1.
        -- eapply mapM_In; [exact Hshapes | exact H2 |].
           cbv beta. now rewrite G2.
      * exists AssertionError. split; [reflexivity|].
        intros (v1' & v2' & H1' & H2' & Hne'). exfalso. apply Hne'.
        now apply Hsame.
    + exists e. split; [reflexivity|].
      intros (v1' & v2' & H1' & H2' & Hne'). exfalso. apply Hne'.
      now apply Hsame.
  - exists AssertionError. split; reflexivity.
Qed.

Lemma getitem_group_run (self : AlignedVolumesDataset) (index : Z)
    (w : world R) :
  AlignedVolumesDataset_getitem self index w =
  (mapM (fun v => source_getitem (files w) v index) (volumes self), w).
Proof. reflexivity. Qed.

(** C8. When construction succeeds, the random source has been read once if
    [exchange_Modal] is set and not at all otherwise, and that one draw fixes
    the protocol order: the members of the group are stored in the order of
    [protocals], reversed exactly when the draw exceeds 1/2. An access reads
    no draw: it leaves the state of the random source as it is, its result
    depends on the files only, and the slices come in the stored order of the
    members, the same at every call. *)
Theorem reversal_decided_at_construction (w w' : world R)
    (volumes_ protocals protocals' : list string) (crop_ : option nat)
    (q : Q) (fl exch : bool) (self : AlignedVolumesDataset) :
  AlignedVolumesDataset_init volumes_ protocals crop_ q fl exch w
    = (Ok (self, protocals'), w') ->
  (files w' = files w /\ rng_draws w' = rng_draws w /\
   rng_pos w' = (if exch then S (rng_pos w) else rng_pos w)) /\
  protocals' =
    (if exch && negb (Qle_bool (rng_draws w (rng_pos w)) (1 # 2))
     then rev protocals else protocals) /\
  map tag_of (volumes self) = protocals' /\
  forall index w1,
    snd (AlignedVolumesDataset_getitem self index w1) = w1 /\
    (forall w2, files w2 = files w1 ->
       fst (AlignedVolumesDataset_getitem self index w2) =
       fst (AlignedVolumesDataset_getitem self index w1)) /\
    (forall slices,
       fst (AlignedVolumesDataset_getitem self index w1) = Ok slices ->
       Forall2 (fun v s => source_getitem (files w1) v index = Ok s)
               (volumes self) slices).
Proof.
  unfold AlignedVolumesDataset_init, mbind, read_files, raise_in_M, mret.
  destruct (mapM _ volumes_) as [vols|]; [|discriminate].
  destruct (py_assert _) as [[]|]; [|discriminate].
  destruct (mapM _ vols) as [shapes|]; [|discriminate].
  destruct (py_assert _) as [[]|]; [|discriminate].
  cbv zeta.
  set (d0 := fold_left (fun d v => dict_set (protocal v) (SrcVolume v) d)
                       vols []).
  assert (Hd0 : tagged d0) by (apply fold_dict_tagged; constructor).
  destruct (dict_first_value d0) as [ref|]; [|discriminate].
  destruct (DummyVolumeDataset_init (files w) ref) as [dummy|]; [|discriminate].
  set (d := dict_set "None" (SrcDummy dummy) d0).
  assert (Hd : tagged d) by (apply dict_set_tagged; [reflexivity | exact Hd0]).
  intros Hinit.
  assert (Hcore : forall ps w0,
            match py_assert (forallb (fun x => dict_mem x d) ps) with
            | Ok _ =>
                match mapM (fun x => dict_get x d) ps with
                | Ok vs => (Ok ({| group_crop := crop_; volumes := vs |}, ps), w0)
                | Raise e => (Raise e, w0)
                end
            | Raise e => (Raise e, w0)
            end = (Ok (self, protocals'), w') ->
            w' = w0 /\ protocals' = ps /\ map tag_of (volumes self) = ps).
  { intros ps w0. destruct (py_assert _) as [[]|]; [|discriminate].
    destruct (mapM _ ps) as [vs|] eqn:Hvs; [|discriminate].
    intros [= <- <- <-]. repeat split.
    now apply (mapM_dict_get_tags d). }
  assert (Hstate : (files w' = files w /\ rng_draws w' = rng_draws w /\
                    rng_pos w' = (if exch then S (rng_pos w) else rng_pos w)) /\
                   protocals' =
                     (if exch && negb (Qle_bool (rng_draws w (rng_pos w)) (1 # 2))
                      then rev protocals else protocals) /\
                   map tag_of (volumes self) = protocals').
  { destruct exch; cbn [andb].
    - unfold torch_rand in Hinit.
      destruct (negb (Qle_bool (rng_draws w (rng_pos w)) (1 # 2)));
        apply Hcore in Hinit as (-> & -> & Htags); auto.
    - apply Hcore in Hinit as (-> & -> & Htags); auto. }
  destruct Hstate as (Hw & Hps & Htags).
  split; [exact Hw|]. split; [exact Hps|]. split; [exact Htags|].
  intros index w1. rewrite getitem_group_run. cbn [fst snd].
  split; [reflexivity|]. split.
  - intros w2 Hfiles. rewrite getitem_group_run. cbn [fst]. now rewrite Hfiles.
  - intros slices Hs. now apply mapM_Forall2.
Qed.

End GroupFacts.

Lemma misaligned_group_fails_construction_witness :
  AlignedVolumesDataset_init ["a.h5"; "b.h5"]%string ["T1"; "T2"]%string
    None 0 false false (Samples.world_on Samples.disk_mismatch (3 # 4))
  = (Raise AssertionError, Samples.world_on Samples.disk_mismatch (3 # 4)).
Proof.
  destruct (misaligned_group_fails_construction
              (Samples.world_on Samples.disk_mismatch (3 # 4))
              ["a.h5"; "b.h5"]%string ["T1"; "T2"]%string None 0 false false
              [volume_of "a.h5" None 0 false (Samples.vol3 2) "T1";
               volume_of "b.h5" None 0 false (Samples.vol3 3) "T2"]
              eq_refl) as (e & Hrun & He).
  - left. eexists _, _. split; [left; reflexivity|].
    split; [right; left; reflexivity|]. vm_compute. discriminate.
  - rewrite Hrun, He; [reflexivity|].
    eexists _, _. split; [left; reflexivity|].
    split; [right; left; reflexivity|]. vm_compute. discriminate.
Defined.

Lemma reversal_decided_at_construction_witness :
  exists self,
    AlignedVolumesDataset_init ["a.h5"; "b.h5"]%string ["T1"; "T2"]%string
      None 0 false true (Samples.world_on Samples.disk_pair (3 # 4))
    = (Ok (self, ["T2"; "T1"]%string),
       {| files := Samples.disk_pair; rng_draws := fun _ => (3 # 4)%Q;
          rng_pos := 1 |}) /\
    map tag_of (volumes self) = ["T2"; "T1"]%string /\
    forall index w1,
      snd (AlignedVolumesDataset_getitem self index w1) = w1.
Proof.
  eexists.
  assert (Hinit :
    AlignedVolumesDataset_init ["a.h5"; "b.h5"]%string ["T1"; "T2"]%string
      None 0 false true (Samples.world_on Samples.disk_pair (3 # 4))
    = (Ok ({| group_crop := None;
              volumes :=
                [SrcVolume (volume_of "b.h5" None 0 false (Samples.vol3 2) "T2");
                 SrcVolume (volume_of "a.h5" None 0 false (Samples.vol3 2) "T1")] |},
           ["T2"; "T1"]%string),
       {| files := Samples.disk_pair; rng_draws := fun _ => (3 # 4)%Q;
          rng_pos := 1 |})) by reflexivity.
  split; [exact Hinit|].
  destruct (reversal_decided_at_construction _ _ _ _ _ _ _ _ _ _ Hinit)
    as (_ & _ & Htags & Hget).
  split; [exact Htags|].
  intros index w1. apply Hget.
Defined.

(** ** The scenarios in binary64

    With doubles in place of rationals, [round(100 * 0.05)] is still 5 and
    [round(2 * 0.4)] is still 1; and for the double closest to [0.5] from
    below the two trimmed ends do not overlap for any length up to 1000. *)

Lemma binary64_scenarios :
  valid_binary 53 1024 Binary64.d0_05 = true /\
  valid_binary 53 1024 Binary64.d0_4 = true /\
  valid_binary 53 1024 Binary64.below_half = true /\
  Binary64.start_of 100 Binary64.d0_05 = Some 5 /\
  Binary64.start_of 2 Binary64.d0_4 = Some 1 /\
  py_round (inject_Z 100 * (1 # 20)) = 5 /\
  py_round (inject_Z 2 * (2 # 5)) = 1 /\
  forallb (fun L => Binary64.window_ok (Z.of_nat L) Binary64.below_half)
          (seq 0 1001) = true.
Proof. repeat split; vm_compute; reflexivity. Qed.

(** * Further properties of the code *)

(** ** [VolumeDataset.__init__]: which exception, and why *)

Section InitErrors.

Context {R : Type} `{FloatOps R} `{KspaceOps R}.

(** X1. Construction raises nothing but [AssertionError], [OSError],
    [UnboundLocalError] and [KeyError], each for one cause and in this order
    of precedence: [q >= 1/2] (checked before the file is opened); a file
    that cannot be opened; a file with neither [image] nor [kspace]; a
    dataset of rank 3 with flattening requested, or of a rank other than 3
    and 4; a file without the [acquisition] attribute. *)
Theorem VolumeDataset_init_outcomes (fs : filesystem R) (path : string)
    (crop_ : option nat) (q : Q) (fl : bool) :
  match VolumeDataset_init fs path crop_ q fl with
  | Ok self =>
      (q < 1 # 2)%Q /\
      exists h5 data proto,
        fs path = Some h5 /\ raw_dataset h5 = Ok data /\
        attr_acquisition h5 = Some proto /\
        self = volume_of path crop_ q fl data proto
  | Raise AssertionError =>
      (1 # 2 <= q)%Q \/
      (q < 1 # 2)%Q /\
      exists h5 data,
        fs path = Some h5 /\ raw_dataset h5 = Ok data /\
        (ndim data = 3%nat /\ fl = true \/
         ndim data <> 3%nat /\ ndim data <> 4%nat)
  | Raise OSError => (q < 1 # 2)%Q /\ fs path = None
  | Raise UnboundLocalError =>
      (q < 1 # 2)%Q /\
      exists h5, fs path = Some h5 /\ h5_image h5 = None /\ h5_kspace h5 = None
  | Raise KeyError =>
      (q < 1 # 2)%Q /\
      exists h5 data,
        fs path = Some h5 /\ raw_dataset h5 = Ok data /\
        (ndim data = 3%nat /\ fl = false \/ ndim data = 4%nat) /\
        attr_acquisition h5 = None
  | Raise _ => False
  end.
Proof.
  destruct (VolumeDataset_init fs path crop_ q fl) as [self|e] eqn:Hinit.
  - apply VolumeDataset_init_ok in Hinit
      as (h5 & data & proto & Hfs & Hraw & Hp & Hq & _ & ->).
    split; [exact Hq|]. exists h5, data, proto. auto.
  - unfold VolumeDataset_init, h5_open, h5_attr in Hinit.
    destruct (Qle_bool (1 # 2) q) eqn:Hqb; cbn [negb py_assert rbind] in Hinit.
    { injection Hinit as <-. left. now apply Qle_bool_iff. }
    assert (Hq : (q < 1 # 2)%Q).
    { apply Qnot_le_lt. intros Hle. apply Qle_bool_iff in Hle. congruence. }
    destruct (fs path) as [h5|] eqn:Hfs; cbn [rbind] in Hinit;
      [|injection Hinit as <-; auto].
    destruct (raw_dataset h5) as [data|e'] eqn:Hraw; cbn [rbind] in Hinit.
    + destruct (ndim data =? 3)%nat eqn:H3.
      * apply Nat.eqb_eq in H3.
        destruct fl; cbn [negb py_assert rbind fst snd] in Hinit.
        -- injection Hinit as <-. right. split; [exact Hq|].
           exists h5, data. auto.
        -- destruct (attr_acquisition h5) eqn:Hp; [discriminate|].
           injection Hinit as <-. split; [exact Hq|]. exists h5, data. auto 10.
      * apply Nat.eqb_neq in H3.
        destruct (ndim data =? 4)%nat eqn:H4; cbn [rbind fst snd] in Hinit.
        -- apply Nat.eqb_eq in H4.
           destruct (attr_acquisition h5) eqn:Hp; [discriminate|].
           injection Hinit as <-. split; [exact Hq|]. exists h5, data. auto 10.
        -- apply Nat.eqb_neq in H4. injection Hinit as <-.
           right. split; [exact Hq|]. exists h5, data. auto 10.
    + injection Hinit as <-. unfold raw_dataset in Hraw.
      destruct (h5_image h5) eqn:Him; [discriminate|].
      destruct (h5_kspace h5) eqn:Hks; [discriminate|].
      injection Hraw as <-. split; [exact Hq|]. exists h5. auto.
Qed.

End InitErrors.

(** ** [VolumeDataset.__getitem__]: index bounds and the shape returned *)

Section AccessMore.

Context {R : Type} `{FloatOps R} `{KspaceOps R}.

Lemma getitem_int_out_of_range (a : ndarray R) (k : Z) (n : nat)
    (sh : list nat) :
  shape a = n :: sh -> Z.of_nat n <= k \/ k < - Z.of_nat n ->
  getitem_int a k = Raise IndexError.
Proof.
  intros Hsh Hk. unfold getitem_int. rewrite Hsh.
  destruct (k <? 0) eqn:Hneg; cbv beta iota zeta.
  - apply Z.ltb_lt in Hneg.
    replace (0 <=? k + Z.of_nat n) with false
      by (symmetry; apply Z.leb_gt; lia).
    reflexivity.
  - apply Z.ltb_ge in Hneg.
    replace (k <? Z.of_nat n) with false by (symmetry; apply Z.ltb_ge; lia).
    now rewrite andb_false_r.
Qed.


(** X2. An index whose raw position ([index + start], or
    [index // channels + start] with flattening and at least one channel)
    falls outside [[-length, length)] of the loaded array raises
    [IndexError]. *)
Theorem getitem_out_of_range (fs : filesystem R) (self : VolumeDataset)
    (index : Z) (h5 : h5file R) (d : ndarray R) (L : nat) (rest : list nat) :
  fs (volume self) = Some h5 -> load_data h5 = Ok d -> shape d = L :: rest ->
  (flatten_channels self = true -> channels self <> 0%nat) ->
  (let k := if flatten_channels self
            then index / Z.of_nat (channels self) + start self
            else index + start self in
   Z.of_nat L <= k \/ k < - Z.of_nat L) ->
  VolumeDataset_getitem fs self index = Raise IndexError.
Proof.
  intros Hfs Hload Hsh HC Hk.
  unfold VolumeDataset_getitem, h5_open, select_slice, py_floordiv.
  rewrite Hfs. cbn [rbind]. rewrite Hload. cbn [rbind].
  destruct (flatten_channels self).
  - replace (Z.of_nat (channels self) =? 0) with false
      by (symmetry; apply Z.eqb_neq; specialize (HC eq_refl); lia).
    cbn [rbind]. now rewrite (getitem_int_out_of_range d _ L rest Hsh Hk).
  - now rewrite (getitem_int_out_of_range d _ L rest Hsh Hk).
Qed.


End AccessMore.

Lemma getitem_out_of_range_witness :
  VolumeDataset_getitem Samples.disk100
    (volume_of "a.h5" None (1 # 20) false (Samples.vol3 100) "T1") 95
  = Raise IndexError.
Proof.
  apply (getitem_out_of_range Samples.disk100
           (volume_of "a.h5" None (1 # 20) false (Samples.vol3 100) "T1") 95
           (Samples.image_file (Samples.vol3 100) "T1" 2) (Samples.vol3 100)
           100 [1; 2]%nat eq_refl eq_refl eq_refl).
  - discriminate.
  - left. vm_compute. discriminate.
Defined.


Section SliceShape.

Context {R : Type} `{FloatOps R} `{KspaceOps R}.

(** The slice selected for a valid index: rank 3, one channel unless a
    rank-4 dataset is read without flattening, and the last two axes of the
    dataset. *)
Lemma select_slice_valid (path : string) (crop_ : option nat) (q : Q)
    (fl : bool) (data d : ndarray R) (proto : string) (index : Z) :
  wf d -> shape d = shape data ->
  (ndim data = 3%nat /\ fl = false \/ ndim data = 4%nat) ->
  (0 <= q)%Q -> (q < 1 # 2)%Q ->
  0 <= index < VolumeDataset_len (volume_of path crop_ q fl data proto) ->
  exists i n0 h w,
    select_slice (volume_of path crop_ q fl data proto) d index = Ok i /\
    wf i /\ shape i = [n0; h; w] /\
    skipn (ndim data - 2) (shape data) = [h; w] /\
    n0 = if fl || (ndim data =? 3)%nat then 1%nat
         else nth 1 (shape data) 0%nat.
Proof.
  intros Hwd Hsd Hrank Hq0 Hq Hidx.
  rewrite VolumeDataset_len_volume_of in Hidx.
  set (self := volume_of path crop_ q fl data proto) in *.
  unfold ndim in *.
  destruct (shape data) as [|L [|c1 [|c2 [|c3 [|? ?]]]]] eqn:Hsh;
    cbn [length] in Hrank;
    try (exfalso; destruct Hrank as [[? ?]|?]; discriminate).
  - destruct Hrank as [[_ ->]|?]; [|discriminate].
    cbn [nth length Nat.eqb] in Hidx.
    destruct (start_bounds L q Hq0 Hq) as [Hs0 Hs1].
    destruct (select_unflattened self d index L [c1; c2] eq_refl Hwd Hsd)
      as (c & _ & Hwi & Hsel).
    { cbn [start self volume_of nth]. rewrite Hsh. cbn [nth]. lia. }
    eexists _, 1%nat, c1, c2. split; [exact Hsel|].
    split; [now apply expand_dims0_wf|]. repeat split.
  - cbn [nth length Nat.eqb] in Hidx.
    destruct (start_bounds L q Hq0 Hq) as [Hs0 Hs1].
    destruct fl.
    + assert (HC : (0 < c1)%nat) by nia.
      destruct (select_flattened self d index L c1 c2 c3 eq_refl)
        as (c & Hwi & Hsel); try assumption.
      { cbn [channels self volume_of]. unfold ndim. rewrite Hsh. reflexivity. }
      { cbn [start self volume_of nth]. rewrite Hsh. cbn [nth].
        assert (0 <= index / Z.of_nat c1 <
                Z.of_nat L - 2 * py_round (inject_Z (Z.of_nat L) * q)).
        { split; [apply Z.div_pos; lia|].
          apply Z.div_lt_upper_bound; lia. }
        lia. }
      eexists _, 1%nat, c2, c3. split; [exact Hsel|].
      split; [now apply expand_dims0_wf|]. repeat split.
    + destruct (select_unflattened self d index L [c1; c2; c3] eq_refl Hwd Hsd)
        as (c & _ & Hwi & Hsel).
      { cbn [start self volume_of nth]. rewrite Hsh. cbn [nth]. lia. }
      eexists _, c1, c2, c3. split; [exact Hsel|].
      split; [exact Hwi|]. repeat split.
Qed.

(** X4. For a valid index the access succeeds and returns an array of
    shape [[n0; crop; crop]] when a crop size is set, and of shape
    [[n0; H; W]], the last two axes of the dataset, when none is; [n0] is 1
    with flattening or a rank-3 dataset, else the number of channels. *)
Theorem getitem_shape (fs : filesystem R) (path : string)
    (crop_ : option nat) (q : Q) (fl : bool) (h5 : h5file R)
    (data : ndarray R) (m : R) (self : VolumeDataset) (index : Z) :
  kspace_ok -> fs path = Some h5 -> raw_dataset h5 = Ok data -> wf data ->
  attr_max h5 = Some m -> (0 <= q)%Q ->
  VolumeDataset_init fs path crop_ q fl = Ok self ->
  0 <= index < VolumeDataset_len self ->
  exists r,
    VolumeDataset_getitem fs self index = Ok r /\ wf r /\
    shape r =
      (if fl || (ndim data =? 3)%nat then 1%nat else nth 1 (shape data) 0%nat)
      :: match crop_ with
         | Some c => [c; c]
         | None => skipn (ndim data - 2) (shape data)
         end.
Proof.
  intros Hks Hfs Hraw Hwf Hm Hq0 Hinit Hidx.
  apply VolumeDataset_init_ok in Hinit
    as (h5' & data' & proto & Hfs' & Hraw' & _ & Hq & Hrank & ->).
  assert (h5' = h5) by congruence. subst h5'.
  assert (data' = data) by congruence. subst data'.
  destruct (load_data_ok h5 data Hks Hraw Hwf) as (d & Hload & Hwd & Hsd).
  destruct (select_slice_valid path crop_ q fl data d proto index
              Hwd Hsd Hrank Hq0 Hq Hidx)
    as (i & n0 & h & w & Hsel & Hwi & Hsi & Hhw & Hn0).
  destruct (getitem_from_slice fs (volume_of path crop_ q fl data proto)
              index h5 d i m n0 h w Hfs Hload Hsel Hm Hwi Hsi)
    as (r0 & Hget & _ & Hw0 & Hs0).
  exists (astype_complex64 r0).
  split; [exact Hget|]. split; [now apply astype_complex64_wf|].
  cbn [astype_complex64 shape]. rewrite Hs0, Hhw, <- Hn0.
  cbn [crop volume_of]. destruct crop_; reflexivity.
Qed.

End SliceShape.

Lemma getitem_shape_witness :
  exists r,
    VolumeDataset_getitem Samples.disk_multi
      (volume_of "m.h5" (Some 4%nat) 0 false (Samples.vol4 2 2) "T1") 1 = Ok r /\
    shape r = [2; 4; 4]%nat.
Proof.
  destruct (getitem_shape Samples.disk_multi "m.h5" (Some 4%nat) 0 false
              (Samples.image_file (Samples.vol4 2 2) "T1" 2)
              (Samples.vol4 2 2) 2%Q
              (volume_of "m.h5" (Some 4%nat) 0 false (Samples.vol4 2 2) "T1") 1
              no_kspace_ok eq_refl eq_refl eq_refl eq_refl
              ltac:(unfold Qle; simpl; lia) eq_refl
              ltac:(vm_compute; split; [discriminate | reflexivity]))
    as (r & Hget & _ & Hsh).
  exists r. split; [exact Hget | exact Hsh].
Defined.

(** ** Flattening: how an index splits into slice and channel *)

Section FlattenFacts.

Context {R : Type} `{FloatOps R} `{KspaceOps R}.

(** Finishing one channel of a slice gives that channel of the finished
    slice. *)
Lemma finish_slice_channel (s1 s2 : VolumeDataset) (h5 : h5file R) (m : R)
    (dt : dtype) (chans : list (nd R)) (h w c : nat) (ch : nd R) :
  crop s1 = crop s2 -> attr_max h5 = Some m ->
  nth_error chans c = Some ch ->
  exists r1 x,
    finish_slice s1 h5
      {| arr_dtype := dt; shape := [length chans; h; w]; body := Arr chans |}
      = Ok r1 /\
    getitem_int r1 (Z.of_nat c) = Ok x /\
    finish_slice s2 h5
      (expand_dims0 {| arr_dtype := dt; shape := [h; w]; body := ch |})
      = Ok (expand_dims0 x).
Proof.
  intros Hcrop Hm Hch.
  assert (Hc : (c < length chans)%nat)
    by (apply nth_error_Some; rewrite Hch; discriminate).
  assert (Hidx : forall (l : list (nd R)) (y : nd R) (sh : list nat),
            length l = length chans -> nth_error l c = Some y ->
            getitem_int {| arr_dtype := complex64;
                           shape := length chans :: sh;
                           body := Arr l |} (Z.of_nat c)
            = Ok {| arr_dtype := complex64; shape := sh; body := y |}).
  { intros l y sh Hl Hy. unfold getitem_int. cbn [shape body arr_dtype].
    replace (Z.of_nat c <? 0) with false by (symmetry; apply Z.ltb_ge; lia).
    cbv beta iota zeta.
    replace (0 <=? Z.of_nat c) with true by (symmetry; apply Z.leb_le; lia).
    replace (Z.of_nat c <? Z.of_nat (length chans)) with true
      by (symmetry; apply Z.ltb_lt; lia).
    cbn [andb]. now rewrite Nat2Z.id, Hy. }
  set (g := fun x : scalar R => scalar_div (scalar_sub x rzero) (rsub m rzero)).
  unfold finish_slice, h5_attr. rewrite Hm, <- Hcrop. cbn [rbind]. cbv zeta.
  destruct (crop s1) as [t|].
  - rewrite (center_crop_normal_form
               (normalize {| arr_dtype := dt; shape := [length chans; h; w];
                             body := Arr chans |} rzero m)
               [length chans] h w t t eq_refl).
    rewrite (center_crop_normal_form
               (normalize (expand_dims0 {| arr_dtype := dt; shape := [h; w];
                                           body := ch |}) rzero m)
               [1%nat] h w t t eq_refl).
    set (F0 := resize_list (full (zero_of dt) [w]) h t).
    set (F1 := resize_list (Sca (zero_of dt)) w t).
    exists {| arr_dtype := complex64; shape := [length chans; t; t];
              body := Arr (map (nd_map to_complex64)
                             (map (on_axis 1 F1)
                                (map (on_axis 0 F0) (map (nd_map g) chans)))) |}.
    exists {| arr_dtype := complex64; shape := [t; t];
              body := nd_map to_complex64
                        (on_axis 1 F1 (on_axis 0 F0 (nd_map g ch))) |}.
    split; [reflexivity|]. split; [|reflexivity].
    apply Hidx; [now rewrite !length_map|].
    now rewrite !nth_error_map, Hch.
  - exists {| arr_dtype := complex64; shape := [length chans; h; w];
              body := Arr (map (nd_map to_complex64) (map (nd_map g) chans)) |}.
    exists {| arr_dtype := complex64; shape := [h; w];
              body := nd_map to_complex64 (nd_map g ch) |}.
    split; [reflexivity|]. split; [|reflexivity].
    apply Hidx; [now rewrite !length_map|].
    now rewrite !nth_error_map, Hch.
Qed.

(** X5. With flattening and [C] channels, the slice at a valid index is
    channel [index % C] of the slice the accessor without flattening returns
    at [index // C], with the channel axis put back. *)
Theorem flatten_index_decomposition (fs : filesystem R) (path : string)
    (crop_ : option nat) (q : Q) (h5 : h5file R) (data : ndarray R) (m : R)
    (sf sn : VolumeDataset) (index : Z) :
  kspace_ok -> fs path = Some h5 -> raw_dataset h5 = Ok data -> wf data ->
  ndim data = 4%nat -> attr_max h5 = Some m -> (0 <= q)%Q ->
  VolumeDataset_init fs path crop_ q true = Ok sf ->
  VolumeDataset_init fs path crop_ q false = Ok sn ->
  0 <= index < VolumeDataset_len sf ->
  let C := Z.of_nat (nth 1 (shape data) 0%nat) in
  exists rn ch,
    VolumeDataset_getitem fs sn (index / C) = Ok rn /\
    getitem_int rn (index mod C) = Ok ch /\
    VolumeDataset_getitem fs sf index = Ok (expand_dims0 ch).
Proof.
  intros Hks Hfs Hraw Hwf Hrank Hm Hq0 Hsf Hsn Hidx C.
  apply VolumeDataset_init_ok in Hsf
    as (h5' & data' & proto & Hfs' & Hraw' & Hp & Hq & _ & ->).
  assert (h5' = h5) by congruence. subst h5'.
  assert (data' = data) by congruence. subst data'.
  apply VolumeDataset_init_ok in Hsn
    as (h5' & data' & proto' & Hfs'' & Hraw'' & Hp' & _ & _ & ->).
  assert (h5' = h5) by congruence. subst h5'.
  assert (data' = data) by congruence. subst data'.
  assert (proto' = proto) by congruence. subst proto'.
  rewrite VolumeDataset_len_volume_of, Hrank in Hidx. cbn [Nat.eqb] in Hidx.
  destruct (load_data_ok h5 data Hks Hraw Hwf) as (d & Hload & Hwd & Hsd).
  unfold ndim in Hrank.
  destruct (shape data) as [|L [|c1 [|c2 [|c3 [|? ?]]]]] eqn:Hsh;
    try discriminate.
  cbn [nth] in Hidx, C.
  destruct (start_bounds L q Hq0 Hq) as [Hs0 Hs1].
  remember (py_round (inject_Z (Z.of_nat L) * q)) as st eqn:Hst.
  assert (HC : 0 < C).
  { unfold C. destruct c1 as [|c1']; [|lia].
    exfalso. rewrite Z.mul_0_r in Hidx. lia. }
  assert (Hdiv : 0 <= index / C < Z.of_nat L - 2 * st).
  { split; [apply Z.div_pos; lia|]. apply Z.div_lt_upper_bound; lia. }
  assert (Hmod : 0 <= index mod C < C) by (apply Z.mod_pos_bound; exact HC).
  assert (Hk : 0 <= index / C + st < Z.of_nat L) by lia.
  destruct (getitem_int_ok d L [c1; c2; c3] _ Hwd Hsd Hk)
    as (b1 & Hget1 & Hb1 & _).
  apply has_shape_cons in Hb1 as (chans & -> & Hlen & Hall).
  assert (Hcn : (Z.to_nat (index mod C) < length chans)%nat)
    by (unfold C in Hmod |- *; lia).
  destruct (nth_error_in_range chans _ Hcn) as (ch & Hch & _).
  destruct (finish_slice_channel
              (volume_of path crop_ q false data proto)
              (volume_of path crop_ q true data proto)
              h5 m (arr_dtype d) chans c2 c3 _ ch eq_refl Hm Hch)
    as (r1 & x & Hfin1 & Hx & Hfin2).
  rewrite Z2Nat.id in Hx by lia. rewrite Hlen in Hfin1.
  exists r1, x. split; [|split; [exact Hx|]].
  - unfold VolumeDataset_getitem, h5_open, select_slice.
    cbn [volume flatten_channels start volume_of].
    rewrite Hfs. cbn [rbind]. rewrite Hload. cbn [rbind].
    rewrite Hsh. cbn [nth]. rewrite <- Hst, Hget1. cbn [rbind ndim shape length Nat.eqb].
    exact Hfin1.
  - unfold VolumeDataset_getitem, h5_open, select_slice, py_floordiv, py_mod.
    cbn [volume flatten_channels start channels volume_of].
    rewrite Hfs. cbn [rbind]. rewrite Hload. cbn [rbind].
    unfold ndim. rewrite Hsh. cbn [nth length Nat.eqb]. rewrite <- Hst. fold C.
    replace (C =? 0) with false by (symmetry; apply Z.eqb_neq; lia).
    cbn [rbind]. rewrite Hget1. cbn [rbind].
    assert (Hget2 : getitem_int
                      {| arr_dtype := arr_dtype d; shape := [c1; c2; c3];
                         body := Arr chans |} (index mod C)
                    = Ok {| arr_dtype := arr_dtype d; shape := [c2; c3];
                            body := ch |}).
    { unfold getitem_int. cbn [shape body arr_dtype].
      replace (index mod C <? 0) with false by (symmetry; apply Z.ltb_ge; lia).
      cbv beta iota zeta.
      replace (0 <=? index mod C) with true by (symmetry; apply Z.leb_le; lia).
      replace (index mod C <? Z.of_nat c1) with true
        by (symmetry; apply Z.ltb_lt; unfold C in Hmod; lia).
      cbn [andb]. now rewrite Hch. }
    rewrite Hget2. cbn [rbind]. exact Hfin2.
Qed.

End FlattenFacts.

Lemma flatten_index_decomposition_witness :
  exists rn ch,
    VolumeDataset_getitem Samples.disk_multi
      (volume_of "m.h5" None 0 false (Samples.vol4 2 2) "T1") 1 = Ok rn /\
    getitem_int rn 1 = Ok ch /\
    VolumeDataset_getitem Samples.disk_multi
      (volume_of "m.h5" None 0 true (Samples.vol4 2 2) "T1") 3
      = Ok (expand_dims0 ch).
Proof.
  apply (flatten_index_decomposition Samples.disk_multi "m.h5" None 0
           (Samples.image_file (Samples.vol4 2 2) "T1" 2) (Samples.vol4 2 2)
           2%Q _ _ 3 no_kspace_ok eq_refl eq_refl eq_refl eq_refl eq_refl
           ltac:(unfold Qle; simpl; lia) eq_refl eq_refl
           ltac:(vm_compute; split; [discriminate | reflexivity])).
Defined.

(** ** Dicts *)

Lemma dict_get_set {V : Type} (k k' : string) (v : V) (d : dict V) :
  dict_get k (dict_set k' v d) =
  if String.eqb k k' then Ok v else dict_get k d.
Proof.
  induction d as [|[k0 v0] d IH]; cbn [dict_set dict_get].
  - destruct (String.eqb k k'); reflexivity.
  - destruct (String.eqb k' k0) eqn:H0; cbn [dict_get].
    + apply String.eqb_eq in H0. subst k0.
      destruct (String.eqb k k'); reflexivity.
    + destruct (String.eqb k k0) eqn:H1; [|exact IH].
      apply String.eqb_eq in H1. subst k0.
      destruct (String.eqb k k') eqn:H2; [|reflexivity].
      apply String.eqb_eq in H2. subst k'.
      rewrite String.eqb_refl in H0. discriminate.
Qed.

Lemma dict_mem_get {V : Type} (k : string) (d : dict V) :
  dict_mem k d = true <-> exists v, dict_get k d = Ok v.
Proof.
  unfold dict_mem. induction d as [|[k0 v0] d IH]; cbn [existsb dict_get fst].
  - split; [discriminate | intros [v Hv]; discriminate].
  - destruct (String.eqb k k0); cbn [orb]; [|exact IH].
    split; [eauto | reflexivity].
Qed.

Lemma dict_get_keys {V : Type} (k : string) (d : dict V) (v : V) :
  dict_get k d = Ok v -> In k (map fst d).
Proof.
  induction d as [|[k0 v0] d IH]; cbn [dict_get map fst]; [discriminate|].
  destruct (String.eqb k k0) eqn:Hk.
  - apply String.eqb_eq in Hk. now left.
  - intros Hg. right. now apply IH.
Qed.

Lemma dict_set_keys {V : Type} (k k' : string) (v : V) (d : dict V) :
  In k (map fst (dict_set k' v d)) -> k = k' \/ In k (map fst d).
Proof.
  induction d as [|[k0 v0] d IH]; cbn [dict_set map fst In].
  - intros [<-|[]]. now left.
  - destruct (String.eqb k' k0); cbn [map fst In].
    + tauto.
    + intros [<-|Hin]; [tauto|]. destruct (IH Hin); tauto.
Qed.

Section GroupMore.

Context {R : Type} `{FloatOps R} `{KspaceOps R}.

Lemma fold_dict_keys (vols : list VolumeDataset) (d : dict source) (k : string) :
  In k (map fst (fold_left (fun d v => dict_set (protocal v) (SrcVolume v) d)
                           vols d)) ->
  In k (map fst d) \/ In k (map protocal vols).
Proof.
  revert d. induction vols as [|v vols IH]; intros d; cbn [fold_left map In].
  - now left.
  - intros Hin. destruct (IH _ Hin) as [Hd|Hv]; [|tauto].
    apply dict_set_keys in Hd. destruct Hd as [->|Hd]; tauto.
Qed.

Lemma dict_set_values (P : source -> Prop) (k : string) (s : source)
    (d : dict source) :
  P s -> Forall (fun kv => P (snd kv)) d ->
  Forall (fun kv => P (snd kv)) (dict_set k s d).
Proof.
  intros Hs Hd. induction Hd as [|[k0 v0] d Hkv Hd IH]; cbn [dict_set].
  - constructor; [exact Hs | constructor].
  - destruct (String.eqb k k0); constructor; auto.
Qed.

Lemma fold_dict_values (P : source -> Prop) (vols : list VolumeDataset)
    (d : dict source) :
  (forall v, In v vols -> P (SrcVolume v)) ->
  Forall (fun kv => P (snd kv)) d ->
  Forall (fun kv => P (snd kv))
         (fold_left (fun d v => dict_set (protocal v) (SrcVolume v) d) vols d).
Proof.
  revert d. induction vols as [|v vols IH]; intros d Hv Hd; cbn [fold_left].
  - exact Hd.
  - apply IH; [intros u Hu; apply Hv; now right|].
    apply dict_set_values; [apply Hv; now left | exact Hd].
Qed.

Lemma dict_get_value (P : source -> Prop) (k : string) (d : dict source)
    (s : source) :
  Forall (fun kv => P (snd kv)) d -> dict_get k d = Ok s -> P s.
Proof.
  intros Hd. induction Hd as [|[k0 v0] d Hkv Hd IH]; cbn [dict_get].
  - discriminate.
  - destruct (String.eqb k k0); [intros [= <-]; exact Hkv | exact IH].
Qed.

(** The tag of the later of two volumes with the same tag wins. *)
Lemma fold_dict_last (p : string) (v : VolumeDataset) (l2 : list VolumeDataset)
    (d : dict source) :
  dict_get p d = Ok (SrcVolume v) ->
  (forall u, In u l2 -> protocal u <> p) ->
  dict_get p (fold_left (fun d v => dict_set (protocal v) (SrcVolume v) d) l2 d)
  = Ok (SrcVolume v).
Proof.
  revert d. induction l2 as [|u l2 IH]; intros d Hd Hl2; cbn [fold_left].
  - exact Hd.
  - apply IH; [|intros u' Hu'; apply Hl2; now right].
    rewrite dict_get_set.
    destruct (String.eqb p (protocal u)) eqn:Hpu; [|exact Hd].
    apply String.eqb_eq in Hpu. exfalso. apply (Hl2 u); [now left | auto].
Qed.

Lemma getitem_dtype (fs : filesystem R) (v : VolumeDataset) (index : Z)
    (r : ndarray R) :
  VolumeDataset_getitem fs v index = Ok r -> arr_dtype r = complex64.
Proof.
  unfold VolumeDataset_getitem, finish_slice.
  destruct (h5_open fs (volume v)) as [h5|]; [|discriminate]. cbn [rbind].
  destruct (load_data h5) as [d|]; [|discriminate]. cbn [rbind].
  destruct (select_slice v d index) as [i|]; [|discriminate]. cbn [rbind].
  destruct (h5_attr (attr_max h5)) as [m|]; [|discriminate]. cbn [rbind].
  destruct (match crop v with Some c => _ | None => _ end) as [i'|];
    [|discriminate].
  cbn [rbind]. intros [= <-]. reflexivity.
Qed.

(** [__init__] is: build the members, flip, resolve the request list. *)
Lemma init_run (volumes_ protocals : list string) (crop_ : option nat)
    (q : Q) (fl exch : bool) (w : world R) :
  AlignedVolumesDataset_init volumes_ protocals crop_ q fl exch w =
  match group_dict (files w) volumes_ crop_ q fl with
  | Raise e => (Raise e, w)
  | Ok d =>
      let ps := flipped exch (rng_draws w (rng_pos w)) protocals in
      (rbind (resolve_protocals d crop_ ps) (fun g => Ok (g, ps)),
       after_flip exch w)
  end.
Proof.
  unfold AlignedVolumesDataset_init, group_dict, mbind, read_files,
    raise_in_M, mret.
  destruct (mapM _ volumes_) as [vols|]; [|reflexivity]. cbn [rbind].
  destruct (py_assert _) as [[]|]; [|reflexivity]. cbn [rbind].
  destruct (mapM _ vols) as [shapes|]; [|reflexivity]. cbn [rbind].
  destruct (py_assert _) as [[]|]; [|reflexivity]. cbn [rbind]. cbv zeta.
  destruct (dict_first_value _) as [ref|]; [|reflexivity]. cbn [rbind].
  destruct (DummyVolumeDataset_init (files w) ref) as [dummy|]; [|reflexivity].
  cbn [rbind]. unfold resolve_protocals, flipped, after_flip, torch_rand.
  destruct exch; cbn [andb].
  - destruct (negb (Qle_bool (rng_draws w (rng_pos w)) (1 # 2)));
      destruct (py_assert _) as [[]|]; cbn [rbind]; try reflexivity;
      destruct (mapM _ _); reflexivity.
  - destruct (py_assert _) as [[]|]; cbn [rbind]; try reflexivity.
    destruct (mapM _ _); reflexivity.
Qed.

End GroupMore.

Lemma Ok_inj {A : Type} (a b : A) : Ok a = Ok b -> a = b.
Proof. congruence. Qed.

Lemma mapM_In_ok {A B : Type} (f : A -> result B) (xs : list A) (ys : list B)
    (x : A) :
  mapM f xs = Ok ys -> In x xs -> exists y, f x = Ok y /\ In y ys.
Proof.
  revert ys. induction xs as [|a xs IH]; intros ys Hm Hin; [destruct Hin|].
  cbn [mapM] in Hm. destruct (f a) as [b|] eqn:Hfa; [|discriminate].
  cbn [rbind] in Hm. destruct (mapM f xs) as [bs|]; [|discriminate].
  cbn [rbind] in Hm. injection Hm as <-.
  destruct Hin as [->|Hin].
  - exists b. split; [exact Hfa | now left].
  - destruct (IH bs eq_refl Hin) as (y & Hy & Hiny).
    exists y. split; [exact Hy | now right].
Qed.

Lemma mapM_result_In {A B : Type} (f : A -> result B) (xs : list A)
    (ys : list B) (y : B) :
  mapM f xs = Ok ys -> In y ys -> exists x, In x xs /\ f x = Ok y.
Proof.
  intros Hm. apply mapM_Forall2 in Hm.
  induction Hm as [|a b xs ys Hab Hm IH]; intros Hin; [destruct Hin|].
  destruct Hin as [<-|Hin].
  - exists a. split; [now left | exact Hab].
  - destruct (IH Hin) as (x & Hx & Hfx). exists x. split; [now right | exact Hfx].
Qed.

Section GroupInvariants.

Context {R : Type} `{FloatOps R} `{KspaceOps R}.

(** What [group_dict] has checked when it returns. *)
Lemma group_dict_inv (fs : filesystem R) (volumes_ : list string)
    (crop_ : option nat) (q : Q) (fl : bool) (d : dict source) :
  group_dict fs volumes_ crop_ q fl = Ok d ->
  exists vols v0 sample,
    mapM (fun x => VolumeDataset_init fs x crop_ q fl) volumes_ = Ok vols /\
    In v0 vols /\
    (forall v, In v vols -> VolumeDataset_len v = VolumeDataset_len v0) /\
    (forall v, In v vols ->
       exists r, VolumeDataset_getitem fs v 0 = Ok r /\ shape r = shape sample) /\
    VolumeDataset_getitem fs v0 0 = Ok sample /\
    d = dict_set "None"
          (SrcDummy {| dummy_shape := shape sample;
                       dummy_dtype := arr_dtype sample;
                       dummy_len := VolumeDataset_len v0 |})
          (fold_left (fun d v => dict_set (protocal v) (SrcVolume v) d) vols []).
Proof.
  unfold group_dict.
  destruct (mapM _ volumes_) as [vols|]; [|discriminate]. cbn [rbind].
  destruct (distinct Z.eq_dec _ =? 1)%nat eqn:Hlen; [|discriminate].
  cbn [py_assert rbind]. apply Nat.eqb_eq in Hlen.
  destruct (mapM _ vols) as [shapes|] eqn:Hshapes; [|discriminate].
  cbn [rbind].
  destruct (distinct (list_eq_dec Nat.eq_dec) shapes =? 1)%nat eqn:Hsh;
    [|discriminate].
  cbn [py_assert rbind]. cbv zeta. apply Nat.eqb_eq in Hsh.
  set (d0 := fold_left (fun d v => dict_set (protocal v) (SrcVolume v) d)
                       vols []).
  assert (Hd0 : Forall (fun kv => exists v, snd kv = SrcVolume v /\ In v vols) d0).
  { apply (fold_dict_values (fun s => exists v, s = SrcVolume v /\ In v vols));
      [eauto | constructor]. }
  destruct d0 as [|[k0 ref] d0'] eqn:Hd0eq; [discriminate|].
  cbn [dict_first_value rbind].
  apply Forall_inv in Hd0. cbn [snd] in Hd0.
  destruct Hd0 as (v0 & -> & Hv0).
  unfold DummyVolumeDataset_init. cbn [source_getitem source_len].
  destruct (VolumeDataset_getitem fs v0 0) as [sample|] eqn:Hsample;
    [|discriminate].
  cbn [rbind]. intros Heq. apply Ok_inj in Heq. subst d.
  exists vols, v0, sample. split; [reflexivity|]. split; [exact Hv0|].
  split.
  { intros v Hv. apply (distinct_one Z.eq_dec (map VolumeDataset_len vols));
      [exact Hlen | now apply in_map | now apply in_map]. }
  split; [|split; [exact Hsample | now rewrite <- Hd0eq]].
  intros v Hv.
  destruct (mapM_In_ok _ vols shapes v Hshapes Hv) as (sh & Hsh_v & Hin).
  cbv beta in Hsh_v.
  destruct (VolumeDataset_getitem fs v 0) as [r|] eqn:Hr; [|discriminate].
  cbn [rbind] in Hsh_v. injection Hsh_v as <-.
  exists r. split; [reflexivity|].
  apply (distinct_one (list_eq_dec Nat.eq_dec) shapes); [exact Hsh | exact Hin|].
  eapply mapM_In; [exact Hshapes | exact Hv0|]. cbv beta. now rewrite Hsample.
Qed.

(** The members of a constructed group come out of the dict. *)
Lemma init_members (volumes_ protocals protocals' : list string)
    (crop_ : option nat) (q : Q) (fl exch : bool) (w w' : world R)
    (self : AlignedVolumesDataset) :
  AlignedVolumesDataset_init volumes_ protocals crop_ q fl exch w
    = (Ok (self, protocals'), w') ->
  exists d,
    group_dict (files w) volumes_ crop_ q fl = Ok d /\
    protocals' = flipped exch (rng_draws w (rng_pos w)) protocals /\
    w' = after_flip exch w /\
    Forall2 (fun p s => dict_get p d = Ok s) protocals' (volumes self).
Proof.
  rewrite init_run.
  destruct (group_dict (files w) volumes_ crop_ q fl) as [d|]; [|discriminate].
  cbv zeta. unfold resolve_protocals.
  destruct (py_assert _) as [[]|]; [|discriminate]. cbn [rbind].
  destruct (mapM _ _) as [vs|] eqn:Hvs; [|discriminate]. cbn [rbind].
  intros [= <- <- <-]. exists d. repeat split.
  cbn [volumes]. now apply mapM_Forall2.
Qed.

End GroupInvariants.

(** ** [DummyVolumeDataset] and the invariants of a group *)

Section GroupClaims.

Context {R : Type} `{FloatOps R} `{KspaceOps R}.

(** X6. A placeholder built from a member reports that member's length and
    returns, for every index, a well-formed array of the shape and dtype of
    the member's first slice in which every element is zero. *)
Theorem placeholder_matches_reference (fs : filesystem R) (ref : source)
    (dm : DummyVolumeDataset) (sample : ndarray R) :
  DummyVolumeDataset_init fs ref = Ok dm ->
  source_getitem fs ref 0 = Ok sample ->
  dummy_len dm = source_len ref /\
  forall index,
    arr_dtype (DummyVolumeDataset_getitem dm index) = arr_dtype sample /\
    shape (DummyVolumeDataset_getitem dm index) = shape sample /\
    wf (DummyVolumeDataset_getitem dm index) /\
    forall idx, Forall2 lt idx (shape sample) ->
      get_px idx (body (DummyVolumeDataset_getitem dm index))
      = Some (zero_of (arr_dtype sample)).
Proof.
  unfold DummyVolumeDataset_init. intros Hinit Hsample.
  rewrite Hsample in Hinit. cbn [rbind] in Hinit. apply Ok_inj in Hinit.
  subst dm. split; [reflexivity|]. intros index.
  unfold DummyVolumeDataset_getitem, np_zeros, wf.
  cbn [arr_dtype shape body dummy_shape dummy_dtype].
  repeat split.
  - apply full_has_shape.
  - intros idx Hidx. now apply get_px_full.
Qed.

(** X7. In a constructed group every member, placeholder included, reports
    the same length; the group reports it too when the request list is not
    empty, and raises [IndexError] when the list is empty. *)
Theorem group_members_same_length (volumes_ protocals protocals' : list string)
    (crop_ : option nat) (q : Q) (fl exch : bool) (w w' : world R)
    (self : AlignedVolumesDataset) :
  AlignedVolumesDataset_init volumes_ protocals crop_ q fl exch w
    = (Ok (self, protocals'), w') ->
  exists L,
    (forall s, In s (volumes self) -> source_len s = L) /\
    (protocals <> [] -> AlignedVolumesDataset_len self = Ok L) /\
    (protocals = [] -> AlignedVolumesDataset_len self = Raise IndexError).
Proof.
  intros Hinit.
  destruct (init_members _ _ _ _ _ _ _ _ _ _ Hinit) as (d & Hd & Hps & _ & Hmem).
  destruct (group_dict_inv _ _ _ _ _ _ Hd)
    as (vols & v0 & sample & _ & Hv0 & Hlen & _ & _ & ->).
  exists (VolumeDataset_len v0).
  assert (Hall : forall s, In s (volumes self) ->
                           source_len s = VolumeDataset_len v0).
  { intros s Hs.
    assert (Hex : exists p, dict_get p
               (dict_set "None"
                  (SrcDummy {| dummy_shape := shape sample;
                               dummy_dtype := arr_dtype sample;
                               dummy_len := VolumeDataset_len v0 |})
                  (fold_left (fun d v => dict_set (protocal v) (SrcVolume v) d)
                             vols [])) = Ok s).
    { clear -Hmem Hs. induction Hmem as [|p s' ps ss Hp Hmem IH];
        [destruct Hs|]. destruct Hs as [<-|Hs]; eauto. }
    destruct Hex as (p & Hp).
    eapply (dict_get_value (fun s => source_len s = VolumeDataset_len v0));
      [|exact Hp].
    apply (dict_set_values (fun s => source_len s = VolumeDataset_len v0));
      [reflexivity|].
    apply (fold_dict_values (fun s => source_len s = VolumeDataset_len v0));
      [|constructor].
    intros v Hv. cbn [source_len]. now apply Hlen. }
  split; [exact Hall|]. unfold AlignedVolumesDataset_len. split.
  - intros Hne. destruct (volumes self) as [|s ss] eqn:Hvs.
    + exfalso. inversion Hmem as [Hnil|]. apply Hne.
      unfold flipped in Hps. rewrite <- Hnil in Hps.
      destruct (exch && _); [|now symmetry].
      apply (f_equal (@rev string)) in Hps. rewrite rev_involutive in Hps.
      now symmetry.
    + f_equal. apply Hall. now left.
  - intros ->. unfold flipped in Hps. cbn [rev] in Hps.
    assert (Hnil : protocals' = []) by (destruct (exch && _); exact Hps).
    rewrite Hnil in Hmem.
    destruct (volumes self) as [|y ys]; [reflexivity | inversion Hmem].
Qed.

(** X8. In a constructed group every member, placeholder included, returns
    at index 0 a [complex64] array of one common shape. *)
Theorem group_members_same_shape (volumes_ protocals protocals' : list string)
    (crop_ : option nat) (q : Q) (fl exch : bool) (w w' : world R)
    (self : AlignedVolumesDataset) :
  AlignedVolumesDataset_init volumes_ protocals crop_ q fl exch w
    = (Ok (self, protocals'), w') ->
  exists sh,
    forall s, In s (volumes self) ->
      exists r, source_getitem (files w) s 0 = Ok r /\
                shape r = sh /\ arr_dtype r = complex64.
Proof.
  intros Hinit.
  destruct (init_members _ _ _ _ _ _ _ _ _ _ Hinit) as (d & Hd & _ & _ & Hmem).
  destruct (group_dict_inv _ _ _ _ _ _ Hd)
    as (vols & v0 & sample & _ & Hv0 & _ & Hshape & Hsample & ->).
  exists (shape sample). intros s Hs.
  assert (Hex : exists p, dict_get p
             (dict_set "None"
                (SrcDummy {| dummy_shape := shape sample;
                             dummy_dtype := arr_dtype sample;
                             dummy_len := VolumeDataset_len v0 |})
                (fold_left (fun d v => dict_set (protocal v) (SrcVolume v) d)
                           vols [])) = Ok s).
  { clear -Hmem Hs. induction Hmem as [|p s' ps ss Hp Hmem IH];
      [destruct Hs|]. destruct Hs as [<-|Hs]; eauto. }
  destruct Hex as (p & Hp).
  eapply (dict_get_value
            (fun s => exists r, source_getitem (files w) s 0 = Ok r /\
                                shape r = shape sample /\
                                arr_dtype r = complex64));
    [|exact Hp].
  set (P := fun s => exists r, source_getitem (files w) s 0 = Ok r /\
                                shape r = shape sample /\
                                arr_dtype r = complex64).
  apply (dict_set_values P).
  - eexists. split; [reflexivity|]. split; [reflexivity|].
    cbn. exact (getitem_dtype _ _ _ _ Hsample).
  - apply (fold_dict_values P); [|constructor].
    intros v Hv. unfold P. cbn [source_getitem].
    destruct (Hshape v Hv) as (r & Hr & Hsr).
    exists r. split; [exact Hr|]. split; [exact Hsr|].
    exact (getitem_dtype _ _ _ _ Hr).
Qed.

(** X9. In a constructed group the tag ["None"] always stands for the
    placeholder, also when a file carries the acquisition tag ["None"];
    every other requested tag stands for a volume with that acquisition
    tag. *)
Theorem group_none_is_placeholder (volumes_ protocals protocals' : list string)
    (crop_ : option nat) (q : Q) (fl exch : bool) (w w' : world R)
    (self : AlignedVolumesDataset) :
  AlignedVolumesDataset_init volumes_ protocals crop_ q fl exch w
    = (Ok (self, protocals'), w') ->
  Forall2 (fun p s =>
             if String.eqb p "None" then exists dm, s = SrcDummy dm
             else exists v, s = SrcVolume v /\ protocal v = p)
          protocals' (volumes self).
Proof.
  intros Hinit.
  destruct (init_members _ _ _ _ _ _ _ _ _ _ Hinit) as (d & Hd & _ & _ & Hmem).
  destruct (group_dict_inv _ _ _ _ _ _ Hd)
    as (vols & v0 & sample & _ & _ & _ & _ & _ & ->).
  eapply Forall2_impl; [|exact Hmem].
  intros p s Hp. cbv beta in Hp. rewrite dict_get_set in Hp.
  destruct (String.eqb p "None"); [apply Ok_inj in Hp; eauto|].
  assert (Htag : tag_of s = p).
  { apply (dict_get_tagged _ _ _ (fold_dict_tagged vols [] (Forall_nil _)) Hp). }
  assert (Hvol : exists v, s = SrcVolume v /\ In v vols).
  { eapply (dict_get_value (fun s => exists v, s = SrcVolume v /\ In v vols));
      [|exact Hp].
    apply (fold_dict_values (fun s => exists v, s = SrcVolume v /\ In v vols));
      [eauto | constructor]. }
  destruct Hvol as (v & -> & _). exists v. split; [reflexivity | exact Htag].
Qed.

(** X10. When several files carry the same acquisition tag, the last one in
    the argument order is the member resolved for that tag; the earlier ones
    are dropped without an error. *)
Theorem group_last_file_wins (volumes_ protocals protocals' : list string)
    (crop_ : option nat) (q : Q) (fl exch : bool) (w w' : world R)
    (self : AlignedVolumesDataset) (l1 l2 : list VolumeDataset)
    (v : VolumeDataset) :
  AlignedVolumesDataset_init volumes_ protocals crop_ q fl exch w
    = (Ok (self, protocals'), w') ->
  mapM (fun x => VolumeDataset_init (files w) x crop_ q fl) volumes_
    = Ok (l1 ++ v :: l2) ->
  protocal v <> "None"%string ->
  (forall u, In u l2 -> protocal u <> protocal v) ->
  Forall2 (fun p s => p = protocal v -> s = SrcVolume v)
          protocals' (volumes self).
Proof.
  intros Hinit Hvols Hnone Hl2.
  destruct (init_members _ _ _ _ _ _ _ _ _ _ Hinit) as (d & Hd & _ & _ & Hmem).
  destruct (group_dict_inv _ _ _ _ _ _ Hd)
    as (vols & v0 & sample & Hvols' & _ & _ & _ & _ & ->).
  assert (vols = l1 ++ v :: l2) by congruence. subst vols.
  eapply Forall2_impl; [|exact Hmem].
  intros p s Hp ->. cbv beta in Hp. rewrite dict_get_set in Hp.
  destruct (String.eqb (protocal v) "None") eqn:Hn;
    [apply String.eqb_eq in Hn; contradiction|].
  rewrite fold_left_app in Hp. cbn [fold_left] in Hp.
  rewrite (fold_dict_last (protocal v) v l2) in Hp.
  - now apply Ok_inj in Hp.
  - rewrite dict_get_set. now rewrite String.eqb_refl.
  - exact Hl2.
Qed.

(** X11. When the members can be built, a request list that names a tag
    other than ["None"] which no file carries makes construction raise
    [AssertionError]; the coin has been flipped by then, so the random
    source has advanced if [exchange_Modal] is set. *)
Theorem group_unknown_tag_rejected (volumes_ protocals : list string)
    (crop_ : option nat) (q : Q) (fl exch : bool) (w : world R)
    (d : dict source) (vols : list VolumeDataset) (p : string) :
  group_dict (files w) volumes_ crop_ q fl = Ok d ->
  mapM (fun x => VolumeDataset_init (files w) x crop_ q fl) volumes_ = Ok vols ->
  In p protocals -> p <> "None"%string -> ~ In p (map protocal vols) ->
  AlignedVolumesDataset_init volumes_ protocals crop_ q fl exch w
    = (Raise AssertionError, after_flip exch w).
Proof.
  intros Hd Hvols Hp Hnone Hnot. rewrite init_run, Hd. cbv zeta.
  destruct (group_dict_inv _ _ _ _ _ _ Hd)
    as (vols' & v0 & sample & Hvols' & _ & _ & _ & _ & ->).
  assert (vols' = vols) by congruence. subst vols'.
  unfold resolve_protocals.
  match goal with
  | |- context [forallb ?f ?l] =>
      assert (Hfalse : forallb f l = false)
  end.
  { apply not_true_is_false. intros Hall.
    rewrite forallb_forall in Hall.
    assert (Hin : In p (flipped exch (rng_draws w (rng_pos w)) protocals)).
    { unfold flipped. destruct (exch && _); [now apply -> in_rev | exact Hp]. }
    specialize (Hall p Hin). apply dict_mem_get in Hall as (s & Hs).
    apply dict_get_keys in Hs. apply dict_set_keys in Hs.
    destruct Hs as [->|Hs]; [now apply Hnone|].
    apply fold_dict_keys in Hs. destruct Hs as [[]|Hs]. now apply Hnot. }
  rewrite Hfalse. reflexivity.
Qed.

End GroupClaims.

Lemma placeholder_matches_reference_witness :
  exists dm,
    DummyVolumeDataset_init Samples.disk_pair
      (SrcVolume (volume_of "a.h5" None 0 false (Samples.vol3 2) "T1")) = Ok dm /\
    dummy_len dm = 2 /\
    shape (DummyVolumeDataset_getitem dm 7) = [1; 1; 2]%nat /\
    get_px [0; 0; 1]%nat (body (DummyVolumeDataset_getitem dm 7))
      = Some (SCplx 0%Q 0%Q).
Proof.
  destruct (DummyVolumeDataset_init Samples.disk_pair
              (SrcVolume (volume_of "a.h5" None 0 false (Samples.vol3 2) "T1")))
    as [dm|e] eqn:Hinit; [|vm_compute in Hinit; discriminate].
  destruct (source_getitem Samples.disk_pair
              (SrcVolume (volume_of "a.h5" None 0 false (Samples.vol3 2) "T1")) 0)
    as [sample|e] eqn:Hsample; [|vm_compute in Hsample; discriminate].
  destruct (placeholder_matches_reference _ _ dm sample Hinit Hsample)
    as (Hlen & Hget).
  destruct (Hget 7) as (_ & Hsh & _ & Hpx).
  assert (Hs : shape sample = [1; 1; 2]%nat /\ arr_dtype sample = complex64).
  { vm_compute in Hsample. apply Ok_inj in Hsample. subst sample. split; reflexivity. }
  destruct Hs as [Hs Hdt].
  exists dm. split; [reflexivity|]. split; [rewrite Hlen; reflexivity|].
  split; [now rewrite Hsh|].
  rewrite Hpx, Hdt; [reflexivity|]. rewrite Hs.
  repeat constructor.
Defined.

Lemma group_members_same_length_witness :
  exists self ps' w' L,
    AlignedVolumesDataset_init ["a.h5"; "b.h5"]%string
      ["T1"; "None"; "T2"]%string None 0 false true
      (Samples.world_on Samples.disk_pair (3 # 4)) = (Ok (self, ps'), w') /\
    (forall s, In s (volumes self) -> source_len s = L) /\
    AlignedVolumesDataset_len self = Ok L.
Proof.
  destruct (AlignedVolumesDataset_init ["a.h5"; "b.h5"]%string
              ["T1"; "None"; "T2"]%string None 0 false true
              (Samples.world_on Samples.disk_pair (3 # 4)))
    as [[[self ps']|e] w'] eqn:Hinit; [|vm_compute in Hinit; discriminate].
  destruct (group_members_same_length _ _ _ _ _ _ _ _ _ _ Hinit)
    as (L & Hall & Hlen & _).
  exists self, ps', w', L. split; [reflexivity|].
  split; [exact Hall | apply Hlen; discriminate].
Defined.

Lemma group_members_same_shape_witness :
  exists self ps' w' sh,
    AlignedVolumesDataset_init ["a.h5"; "b.h5"]%string
      ["T1"; "None"; "T2"]%string None 0 false true
      (Samples.world_on Samples.disk_pair (3 # 4)) = (Ok (self, ps'), w') /\
    forall s, In s (volumes self) ->
      exists r, source_getitem Samples.disk_pair s 0 = Ok r /\
                shape r = sh /\ arr_dtype r = complex64.
Proof.
  destruct (AlignedVolumesDataset_init ["a.h5"; "b.h5"]%string
              ["T1"; "None"; "T2"]%string None 0 false true
              (Samples.world_on Samples.disk_pair (3 # 4)))
    as [[[self ps']|e] w'] eqn:Hinit; [|vm_compute in Hinit; discriminate].
  destruct (group_members_same_shape _ _ _ _ _ _ _ _ _ _ Hinit) as (sh & Hall).
  exists self, ps', w', sh. split; [reflexivity | exact Hall].
Defined.

Lemma group_none_is_placeholder_witness :
  exists self ps' w',
    AlignedVolumesDataset_init ["a.h5"; "b.h5"]%string
      ["T1"; "None"; "T2"]%string None 0 false true
      (Samples.world_on Samples.disk_pair (3 # 4)) = (Ok (self, ps'), w') /\
    Forall2 (fun p s =>
               if String.eqb p "None" then exists dm, s = SrcDummy dm
               else exists v, s = SrcVolume v /\ protocal v = p)
            ps' (volumes self).
Proof.
  destruct (AlignedVolumesDataset_init ["a.h5"; "b.h5"]%string
              ["T1"; "None"; "T2"]%string None 0 false true
              (Samples.world_on Samples.disk_pair (3 # 4)))
    as [[[self ps']|e] w'] eqn:Hinit; [|vm_compute in Hinit; discriminate].
  exists self, ps', w'. split; [reflexivity|].
  exact (group_none_is_placeholder _ _ _ _ _ _ _ _ _ _ Hinit).
Defined.

Lemma group_last_file_wins_witness :
  exists self ps' w',
    AlignedVolumesDataset_init ["a.h5"; "b.h5"]%string ["T1"]%string
      None 0 false false
      (Samples.world_on MoreSamples.disk_dup (3 # 4)) = (Ok (self, ps'), w') /\
    Forall2 (fun p s =>
               p = "T1"%string ->
               s = SrcVolume (volume_of "b.h5" None 0 false (Samples.vol3 2) "T1"))
            ps' (volumes self).
Proof.
  destruct (AlignedVolumesDataset_init ["a.h5"; "b.h5"]%string ["T1"]%string
              None 0 false false
              (Samples.world_on MoreSamples.disk_dup (3 # 4)))
    as [[[self ps']|e] w'] eqn:Hinit; [|vm_compute in Hinit; discriminate].
  exists self, ps', w'. split; [reflexivity|].
  apply (group_last_file_wins _ _ _ _ _ _ _ _ _ _
           [volume_of "a.h5" None 0 false (Samples.vol3 2) "T1"] []
           (volume_of "b.h5" None 0 false (Samples.vol3 2) "T1") Hinit).
  - reflexivity.
  - discriminate.
  - intros u [].
Defined.

Lemma group_unknown_tag_rejected_witness :
  AlignedVolumesDataset_init ["a.h5"; "b.h5"]%string ["T1"; "FLAIR"]%string
    None 0 false true (Samples.world_on Samples.disk_pair (3 # 4))
  = (Raise AssertionError,
     after_flip true (Samples.world_on Samples.disk_pair (3 # 4))).
Proof.
  destruct (group_dict Samples.disk_pair ["a.h5"; "b.h5"]%string None 0 false)
    as [d|e] eqn:Hd; [|vm_compute in Hd; discriminate].
  apply (group_unknown_tag_rejected ["a.h5"; "b.h5"]%string
           ["T1"; "FLAIR"]%string None 0 false true
           (Samples.world_on Samples.disk_pair (3 # 4)) d
           [volume_of "a.h5" None 0 false (Samples.vol3 2) "T1";
            volume_of "b.h5" None 0 false (Samples.vol3 2) "T2"]
           "FLAIR" Hd eq_refl).
  - right. left. reflexivity.
  - discriminate.
  - cbn. intros [Ha|[Hb|[]]]; discriminate.
Defined.

(** ** [center_crop]: repeated application *)

Local Open Scope nat_scope.

Lemma slice_list_slice_list {A : Type} (f1 f2 t u : nat) (xs : list A) :
  f2 + u <= t ->
  slice_list f2 (f2 + u) (slice_list f1 (f1 + t) xs)
  = slice_list (f1 + f2) (f1 + f2 + u) xs.
Proof.
  intros Hle. unfold slice_list.
  replace (f2 + u - f2) with u by lia.
  replace (f1 + t - f1) with t by lia.
  replace (f1 + f2 + u - (f1 + f2)) with u by lia.
  rewrite skipn_firstn_comm, firstn_firstn, skipn_skipn.
  replace (Nat.min u (t - f2)) with u by lia.
  now replace (f2 + f1) with (f1 + f2) by lia.
Qed.

Lemma half_sum (a b : nat) :
  Nat.even a = true \/ Nat.even b = true -> a / 2 + b / 2 = (a + b) / 2.
Proof.
  intros [Ha|Hb].
  - apply Nat.even_spec in Ha as [k ->].
    rewrite (Nat.mul_comm 2 k), Nat.div_mul by discriminate.
    now rewrite (Nat.add_comm (k * 2) b), Nat.div_add, Nat.add_comm
      by discriminate.
  - apply Nat.even_spec in Hb as [k ->].
    rewrite (Nat.mul_comm 2 k), Nat.div_mul by discriminate.
    now rewrite Nat.div_add by discriminate.
Qed.

(** Cropping a list in two steps is cropping it once, when one of the two
    steps removes an even number of entries. *)
Lemma resize_list_crop_crop {A : Type} (z1 z2 z3 : A) (s t u : nat)
    (xs : list A) :
  u <= t -> t <= s ->
  Nat.even (s - t) = true \/ Nat.even (t - u) = true ->
  resize_list z1 t u (resize_list z2 s t xs) = resize_list z3 s u xs.
Proof.
  intros Hut Hts Hpar. unfold resize_list.
  apply Nat.leb_le in Hut as Hut'. apply Nat.leb_le in Hts as Hts'.
  assert (Hus : (u <=? s) = true) by (apply Nat.leb_le; lia).
  rewrite Hut', Hts', Hus. cbv zeta.
  pose proof (half_le (t - u)) as Hh.
  rewrite slice_list_slice_list by lia.
  rewrite (half_sum (s - t) (t - u) Hpar).
  now replace (s - t + (t - u)) with (s - u) by lia.
Qed.

Section CenterCropMore.

Context {R : Type} `{FloatOps R}.

(** X12. [center_crop] is idempotent: applied again with the same target to
    its own result, it returns that result. *)
Theorem center_crop_idempotent (a r : ndarray R) (lead : list nat)
    (s0 s1 t0 t1 : nat) :
  wf a -> shape a = lead ++ [s0; s1] ->
  center_crop a (t0, t1) = Ok r ->
  center_crop r (t0, t1) = Ok r.
Proof.
  intros Hwf Hsh Hr.
  rewrite (center_crop_normal_form a lead s0 s1 t0 t1 Hsh) in Hr.
  apply Ok_inj in Hr. subst r.
  match goal with
  | |- center_crop ?p _ = _ =>
      rewrite (center_crop_normal_form p lead t0 t1 t0 t1 eq_refl)
  end.
  cbn [arr_dtype shape body]. unfold wf in Hwf. rewrite Hsh in Hwf.
  rewrite center_crop_body_same; [reflexivity|].
  now apply center_crop_body_wf.
Qed.

Lemma center_crop_body_crop_crop (lead : list nat) (s0 s1 t0 t1 u0 u1 : nat)
    (z : scalar R) (b : nd R) :
  has_shape (lead ++ [s0; s1]) b = true ->
  u0 <= t0 -> t0 <= s0 -> u1 <= t1 -> t1 <= s1 ->
  Nat.even (s0 - t0) = true \/ Nat.even (t0 - u0) = true ->
  Nat.even (s1 - t1) = true \/ Nat.even (t1 - u1) = true ->
  on_axis (S (length lead)) (resize_list (Sca z) t1 u1)
    (on_axis (length lead) (resize_list (full z [t1]) t0 u0)
       (on_axis (S (length lead)) (resize_list (Sca z) s1 t1)
          (on_axis (length lead) (resize_list (full z [s1]) s0 t0) b)))
  = on_axis (S (length lead)) (resize_list (Sca z) s1 u1)
      (on_axis (length lead) (resize_list (full z [s1]) s0 u0) b).
Proof.
  intros Hb Hu0 Ht0 Hu1 Ht1 Hp0 Hp1.
  rewrite !on_axis_succ, !on_axis_compose.
  apply (on_axis_ext lead s0 [s1]); [exact Hb|].
  intros xs Hlen Hall.
  rewrite (resize_list_crop_map _ _ (full z [s1]) t0 u0) by exact Hu0.
  rewrite (resize_list_crop_crop _ _ (full z [s1])) by assumption.
  rewrite map_map. apply map_ext_in. intros c Hc.
  assert (Hcs : has_shape [s1] c = true).
  { assert (HF : Forall (fun x => has_shape [s1] x = true)
                        (resize_list (full z [s1]) s0 u0 xs))
      by (apply resize_list_Forall; [apply full_has_shape | exact Hall]).
    rewrite Forall_forall in HF. now apply HF. }
  apply has_shape_cons in Hcs as (cols & -> & Hcols & _).
  cbn [on_axis]. f_equal. now apply resize_list_crop_crop.
Qed.

(** X13. Cropping to [(t0, t1)] and then to a smaller [(u0, u1)] gives the
    crop to [(u0, u1)] in one step, provided that on each axis one of the
    two steps removes an even number of entries. *)
Theorem center_crop_twice (a : ndarray R) (lead : list nat)
    (s0 s1 t0 t1 u0 u1 : nat) :
  wf a -> shape a = lead ++ [s0; s1] ->
  u0 <= t0 -> t0 <= s0 -> u1 <= t1 -> t1 <= s1 ->
  Nat.even (s0 - t0) = true \/ Nat.even (t0 - u0) = true ->
  Nat.even (s1 - t1) = true \/ Nat.even (t1 - u1) = true ->
  rbind (center_crop a (t0, t1)) (fun r => center_crop r (u0, u1))
  = center_crop a (u0, u1).
Proof.
  intros Hwf Hsh Hu0 Ht0 Hu1 Ht1 Hp0 Hp1.
  rewrite (center_crop_normal_form a lead s0 s1 t0 t1 Hsh). cbn [rbind].
  match goal with
  | |- center_crop ?p _ = _ =>
      rewrite (center_crop_normal_form p lead t0 t1 u0 u1 eq_refl)
  end.
  rewrite (center_crop_normal_form a lead s0 s1 u0 u1 Hsh).
  cbn [arr_dtype shape body]. unfold wf in Hwf. rewrite Hsh in Hwf.
  now rewrite center_crop_body_crop_crop.
Qed.

End CenterCropMore.

(** Without the parity condition the two-step crop can differ: a row of
    three cropped to two and then to one keeps the first entry, cropped to
    one directly it keeps the middle one. *)
Lemma center_crop_twice_needs_parity :
  resize_list 0%Z 2 1 (resize_list 0%Z 3 2 [1; 2; 3]%Z) = [1%Z] /\
  resize_list 0%Z 3 1 [1; 2; 3]%Z = [2%Z].
Proof. split; reflexivity. Qed.

Lemma center_crop_idempotent_witness :
  exists r,
    center_crop Samples.a223 (3, 2) = Ok r /\ center_crop r (3, 2) = Ok r.
Proof.
  destruct (center_crop Samples.a223 (3, 2)) as [r|e] eqn:Hr;
    [|vm_compute in Hr; discriminate].
  exists r. split; [reflexivity|].
  exact (center_crop_idempotent Samples.a223 r [2] 2 3 3 2 eq_refl eq_refl Hr).
Defined.

Lemma center_crop_twice_witness :
  rbind (center_crop Samples.a223 (2, 1)) (fun r => center_crop r (1, 1))
  = center_crop Samples.a223 (1, 1).
Proof.
  apply (center_crop_twice Samples.a223 [2] 2 3 2 1 1 1 eq_refl eq_refl);
    try lia.
  - left. reflexivity.
  - left. reflexivity.
Defined.

Example center_crop_vector_fails :
  center_crop MoreSamples.vec3 (2, 2) = Raise IndexError.
Proof.
  apply (center_crop_low_rank MoreSamples.vec3 (2, 2)). cbn. lia.
Qed.

Lemma center_crop_rank2_ok {R : Type} `{FloatOps R} (a : ndarray R)
    (t0 t1 : nat) :
  2 <= ndim a ->
  exists r, center_crop a (t0, t1) = Ok r /\
            shape r = firstn (ndim a - 2) (shape a) ++ [t0; t1] /\
            arr_dtype r = arr_dtype a.
Proof.
  intros Hn. unfold ndim in *.
  pose proof (firstn_skipn (length (shape a) - 2) (shape a)) as Hsplit.
  assert (Hlen : length (skipn (length (shape a) - 2) (shape a)) = 2)
    by (rewrite length_skipn; lia).
  destruct (skipn (length (shape a) - 2) (shape a))
    as [|s0 [|s1 [|s2 rest]]]; try discriminate Hlen.
  symmetry in Hsplit.
  rewrite (center_crop_normal_form a _ s0 s1 t0 t1 Hsplit).
  eexists. split; [reflexivity|]. split; reflexivity.
Qed.

(** X14. [center_crop] returns for every array of two or more axes, keeping
    the leading axes and the dtype and setting the last two axes to the
    target; an array of fewer axes gives [IndexError]. *)
Theorem center_crop_outcomes {R : Type} `{FloatOps R} (a : ndarray R)
    (t0 t1 : nat) :
  if 2 <=? ndim a then
    exists r, center_crop a (t0, t1) = Ok r /\
              shape r = firstn (ndim a - 2) (shape a) ++ [t0; t1] /\
              arr_dtype r = arr_dtype a
  else center_crop a (t0, t1) = Raise IndexError.
Proof.
  destruct (2 <=? ndim a) eqn:Hn.
  - apply Nat.leb_le in Hn. now apply center_crop_rank2_ok.
  - apply Nat.leb_gt in Hn. now apply center_crop_low_rank.
Qed.

(** ** [tiffPaired] *)

Lemma nth_error_slice_list {A : Type} (from to j : nat) (xs : list A) :
  j < to - from ->
  nth_error (slice_list from to xs) j = nth_error xs (from + j).
Proof.
  intros Hj. unfold slice_list. rewrite nth_error_firstn.
  apply Nat.ltb_lt in Hj. rewrite Hj. apply nth_error_skipn.
Qed.

Section TiffPaired.

Context {R : Type} `{FloatOps R}.

Lemma slice_cols_has_shape (h w from to : nat) (b : nd R) :
  has_shape [h; w] b = true ->
  has_shape [h; Nat.min (to - from) (w - from)]
            (on_axis 1 (slice_list from to) b) = true.
Proof.
  intros Hb.
  apply (on_axis_has_shape [h] w (Nat.min (to - from) (w - from)) []);
    [exact Hb|].
  intros xs Hlen Hall. split.
  - now rewrite slice_list_length, Hlen.
  - unfold slice_list. now apply Forall_firstn_keep, Forall_skipn_keep.
Qed.

Lemma get_px_slice_cols (h w from to i j : nat) (b : nd R) :
  has_shape [h; w] b = true -> i < h -> j < to - from ->
  get_px [i; j] (on_axis 1 (slice_list from to) b) = get_px [i; from + j] b.
Proof.
  intros Hb Hi Hj.
  apply has_shape_cons in Hb as (rows & -> & Hrows & Hall).
  rewrite on_axis_S_Arr, !get_px_cons_Arr, nth_error_map.
  assert (Hir : i < length rows) by lia.
  destruct (nth_error_in_range rows i Hir) as (row & Hrow & Hin).
  rewrite Hrow. cbn [option_map].
  rewrite Forall_forall in Hall. specialize (Hall row Hin).
  apply has_shape_cons in Hall as (cols & -> & _ & _).
  cbn [on_axis]. rewrite !get_px_cons_Arr.
  now rewrite nth_error_slice_list.
Qed.

Lemma even_mod2 (w : nat) : Nat.even w = true -> (w mod 2 =? 0) = true.
Proof.
  intros Hw. apply Nat.even_spec in Hw as [k ->].
  rewrite Nat.mul_comm, Nat.Div0.mod_mul. reflexivity.
Qed.

Lemma odd_mod2 (w : nat) : Nat.odd w = true -> (w mod 2 =? 0) = false.
Proof.
  intros Hw. apply Nat.odd_spec in Hw as [k ->].
  rewrite Nat.add_comm, Nat.mul_comm, Nat.Div0.mod_add. reflexivity.
Qed.

Lemma even_half (w : nat) : Nat.even w = true -> w - w / 2 = w / 2.
Proof.
  intros Hw. apply Nat.even_spec in Hw as [k ->].
  rewrite Nat.mul_comm, Nat.div_mul by discriminate. lia.
Qed.

(** [np.split] on an image of even width. *)
Lemma np_split2_even (img : ndarray R) (h w : nat) :
  shape img = [h; w] -> Nat.even w = true ->
  np_split2 img
  = POk (slice_axis 1 0 (w / 2) img, slice_axis 1 (w / 2) w img).
Proof.
  intros Hsh Hw. unfold np_split2, shape_from_end, ndim. rewrite Hsh.
  cbn [length Nat.leb Nat.sub nth lift_result pbind].
  now rewrite (even_mod2 w Hw).
Qed.

(** The two halves and what they hold. *)
Lemma halves_spec (img : ndarray R) (h w : nat) :
  wf img -> shape img = [h; w] -> Nat.even w = true ->
  let l := slice_axis 1 0 (w / 2) img in
  let r := slice_axis 1 (w / 2) w img in
  shape l = [h; w / 2] /\ shape r = [h; w / 2] /\
  has_shape [h; w / 2] (body l) = true /\
  has_shape [h; w / 2] (body r) = true /\
  forall i j, i < h -> j < w / 2 ->
    get_px [i; j] (body l) = get_px [i; j] (body img) /\
    get_px [i; j] (body r) = get_px [i; w / 2 + j] (body img).
Proof.
  intros Hwf Hsh Hw. unfold wf in Hwf. rewrite Hsh in Hwf.
  pose proof (half_le w) as Hh. pose proof (even_half w Hw) as Heh.
  cbv zeta. unfold slice_axis. cbn [shape body]. rewrite Hsh.
  cbn [set_dim nth].
  assert (E1 : Nat.min (w / 2 - 0) (w - 0) = w / 2) by lia.
  assert (E2 : Nat.min (w - w / 2) (w - w / 2) = w / 2) by lia.
  rewrite E1, E2. repeat split.
  - rewrite <- E1 at 1. now apply slice_cols_has_shape.
  - rewrite <- E2 at 1. now apply slice_cols_has_shape.
  - now rewrite (get_px_slice_cols h w 0 (w / 2) i j) by (assumption || lia).
  - now rewrite (get_px_slice_cols h w (w / 2) w i j) by (assumption || lia).
Qed.

Lemma stack_with_zeros_wf (x : ndarray R) :
  wf x -> wf (stack_with_zeros x).
Proof.
  unfold wf, stack_with_zeros, np_zeros. cbn [shape body has_shape length].
  intros Hx. cbn [forallb Nat.eqb]. now rewrite Hx, full_has_shape.
Qed.

(** X15. Without a crop, item [ind] of a [tiffPaired] whose image is a
    well-formed [h x w] array of even width is a pair of well-formed arrays
    of shape [2 x h x w/2] and of the image's dtype: channel 0 of the first
    is the left half of the image, channel 0 of the second the right half,
    and channel 1 of both is zero. *)
Theorem tiffPaired_getitem_halves (images : string -> option (ndarray R))
    (self : tiffPaired) (ind : Z) (path : string) (img : ndarray R)
    (h w : nat) :
  tiff_crop self = None ->
  py_list_get (tiffs self) ind = Ok path ->
  images path = Some img ->
  wf img -> shape img = [h; w] -> Nat.even w = true ->
  exists t1 t2,
    tiffPaired_getitem images self ind = POk (t1, t2) /\
    shape t1 = [2; h; w / 2] /\ shape t2 = [2; h; w / 2] /\
    wf t1 /\ wf t2 /\
    arr_dtype t1 = arr_dtype img /\ arr_dtype t2 = arr_dtype img /\
    forall i j, i < h -> j < w / 2 ->
      get_px [0; i; j] (body t1) = get_px [i; j] (body img) /\
      get_px [0; i; j] (body t2) = get_px [i; w / 2 + j] (body img) /\
      get_px [1; i; j] (body t1) = Some (zero_of (arr_dtype img)) /\
      get_px [1; i; j] (body t2) = Some (zero_of (arr_dtype img)).
Proof.
  intros Hcrop Hpath Himg Hwf Hsh Hw.
  destruct (halves_spec img h w Hwf Hsh Hw) as (Sl & Sr & Wl & Wr & Hpx).
  unfold tiffPaired_getitem, imread.
  rewrite Hpath, Hcrop. cbn [lift_result pbind]. rewrite Himg.
  cbn [lift_result pbind]. unfold ndim. rewrite Hsh.
  cbn [lift_result pbind length Nat.eqb py_assert].
  rewrite (np_split2_even img h w Hsh Hw). cbn [pbind fst snd].
  eexists. eexists. split; [reflexivity|].
  unfold stack_with_zeros at 1 2. cbn [shape]. rewrite Sl, Sr.
  split; [reflexivity|]. split; [reflexivity|].
  split; [apply stack_with_zeros_wf; unfold wf; now rewrite Sl|].
  split; [apply stack_with_zeros_wf; unfold wf; now rewrite Sr|].
  split; [reflexivity|]. split; [reflexivity|].
  intros i j Hi Hj. destruct (Hpx i j Hi Hj) as [Pl Pr].
  unfold stack_with_zeros, np_zeros. cbn [body].
  rewrite !get_px_cons_Arr. cbn [nth_error].
  rewrite Pl, Pr, Sl, Sr.
  split; [reflexivity|]. split; [reflexivity|].
  split; apply get_px_full; repeat constructor; assumption.
Qed.

End TiffPaired.

Section TiffPairedCrop.

Context {R : Type} `{FloatOps R}.

(** The stacked half after the crop. *)
Lemma crop_stacked (x : ndarray R) (h w c : nat) :
  shape x = [h; w] -> has_shape [h; w] (body x) = true ->
  exists t,
    center_crop (stack_with_zeros x) (c, c) = Ok t /\
    shape t = [2; c; c] /\ wf t /\ arr_dtype t = arr_dtype x /\
    forall i j, i < c -> j < c ->
      get_px [0; i; j] (body t)
      = match src_coord h c i, src_coord w c j with
        | Some i', Some j' => get_px [i'; j'] (body x)
        | _, _ => Some (zero_of (arr_dtype x))
        end /\
      get_px [1; i; j] (body t) = Some (zero_of (arr_dtype x)).
Proof.
  intros Hsh Hb.
  assert (Hst : shape (stack_with_zeros x) = [2] ++ [h; w])
    by (unfold stack_with_zeros; cbn [shape]; now rewrite Hsh).
  assert (Hwf : has_shape ([2] ++ [h; w]) (body (stack_with_zeros x)) = true).
  { rewrite <- Hst. apply stack_with_zeros_wf. unfold wf. now rewrite Hsh. }
  rewrite (center_crop_normal_form (stack_with_zeros x) [2] h w c c Hst).
  eexists. split; [reflexivity|]. cbn [shape body arr_dtype].
  split; [reflexivity|].
  split; [unfold wf; cbn [shape body]; now apply center_crop_body_wf|].
  split; [reflexivity|].
  intros i j Hi Hj.
  change (arr_dtype (stack_with_zeros x)) with (arr_dtype x).
  split.
  - rewrite (center_crop_body_px [2] [0] h w c c i j _ _ Hwf)
      by (assumption || (repeat constructor; lia)).
    destruct (src_coord h c i) as [i'|]; [|reflexivity].
    destruct (src_coord w c j) as [j'|]; reflexivity.
  - rewrite (center_crop_body_px [2] [1] h w c c i j _ _ Hwf)
      by (assumption || (repeat constructor; lia)).
    destruct (src_coord h c i) as [i'|] eqn:Hi'; [|reflexivity].
    destruct (src_coord w c j) as [j'|] eqn:Hj'; [|reflexivity].
    unfold stack_with_zeros, np_zeros. cbn [app body].
    rewrite get_px_cons_Arr. cbn [nth_error]. rewrite Hsh.
    apply get_px_full. repeat constructor.
    + exact (src_coord_in_range h c i i' Hi Hi').
    + exact (src_coord_in_range w c j j' Hj Hj').
Qed.

(** X16. With a crop [c], item [ind] of a [tiffPaired] whose image is a
    well-formed [h x w] array of even width is a pair of well-formed arrays
    of shape [2 x c x c]: channel 0 holds the centre crop (or zero padding)
    of the left and of the right half of the image, channel 1 is zero. *)
Theorem tiffPaired_getitem_cropped (images : string -> option (ndarray R))
    (self : tiffPaired) (ind : Z) (path : string) (img : ndarray R)
    (h w c : nat) :
  tiff_crop self = Some c ->
  py_list_get (tiffs self) ind = Ok path ->
  images path = Some img ->
  wf img -> shape img = [h; w] -> Nat.even w = true ->
  exists t1 t2,
    tiffPaired_getitem images self ind = POk (t1, t2) /\
    shape t1 = [2; c; c] /\ shape t2 = [2; c; c] /\ wf t1 /\ wf t2 /\
    forall i j, i < c -> j < c ->
      get_px [0; i; j] (body t1)
      = match src_coord h c i, src_coord (w / 2) c j with
        | Some i', Some j' => get_px [i'; j'] (body img)
        | _, _ => Some (zero_of (arr_dtype img))
        end /\
      get_px [0; i; j] (body t2)
      = match src_coord h c i, src_coord (w / 2) c j with
        | Some i', Some j' => get_px [i'; w / 2 + j'] (body img)
        | _, _ => Some (zero_of (arr_dtype img))
        end /\
      get_px [1; i; j] (body t1) = Some (zero_of (arr_dtype img)) /\
      get_px [1; i; j] (body t2) = Some (zero_of (arr_dtype img)).
Proof.
  intros Hcrop Hpath Himg Hwf Hsh Hw.
  destruct (halves_spec img h w Hwf Hsh Hw) as (Sl & Sr & Wl & Wr & Hpx).
  destruct (crop_stacked _ h (w / 2) c Sl Wl) as (t1 & E1 & S1 & W1 & _ & P1).
  destruct (crop_stacked _ h (w / 2) c Sr Wr) as (t2 & E2 & S2 & W2 & _ & P2).
  unfold tiffPaired_getitem, imread.
  rewrite Hpath, Hcrop. cbn [lift_result pbind]. rewrite Himg.
  cbn [lift_result pbind]. unfold ndim. rewrite Hsh.
  cbn [lift_result pbind length Nat.eqb py_assert].
  rewrite (np_split2_even img h w Hsh Hw). cbn [pbind fst snd].
  rewrite E1. cbn [lift_result pbind]. rewrite E2. cbn [lift_result pbind].
  exists t1, t2. split; [reflexivity|]. repeat (split; [assumption|]).
  intros i j Hi Hj.
  destruct (P1 i j Hi Hj) as [P10 P11]. destruct (P2 i j Hi Hj) as [P20 P21].
  change (arr_dtype (slice_axis 1 0 (w / 2) img)) with (arr_dtype img) in *.
  change (arr_dtype (slice_axis 1 (w / 2) w img)) with (arr_dtype img) in *.
  rewrite P10, P20.
  repeat split; try assumption.
  - destruct (src_coord h c i) as [i'|] eqn:Hi'; [|reflexivity].
    destruct (src_coord (w / 2) c j) as [j'|] eqn:Hj'; [|reflexivity].
    apply Hpx; [exact (src_coord_in_range h c i i' Hi Hi')
               | exact (src_coord_in_range (w / 2) c j j' Hj Hj')].
  - destruct (src_coord h c i) as [i'|] eqn:Hi'; [|reflexivity].
    destruct (src_coord (w / 2) c j) as [j'|] eqn:Hj'; [|reflexivity].
    apply Hpx; [exact (src_coord_in_range h c i i' Hi Hi')
               | exact (src_coord_in_range (w / 2) c j j' Hj Hj')].
Qed.

Lemma py_list_get_error {A : Type} (l : list A) (k : Z) (e : exn) :
  py_list_get l k = Raise e ->
  e = IndexError /\
  ~ (- Z.of_nat (length l) <= k < Z.of_nat (length l))%Z.
Proof.
  unfold py_list_get. cbv zeta.
  destruct (k <? 0)%Z eqn:Hneg;
    [apply Z.ltb_lt in Hneg | apply Z.ltb_ge in Hneg].
  - destruct ((0 <=? k + Z.of_nat (length l))
              && (k + Z.of_nat (length l) <? Z.of_nat (length l)))%Z eqn:Hr.
    + apply andb_prop in Hr as [Hlo Hhi].
      apply Z.leb_le in Hlo. apply Z.ltb_lt in Hhi.
      destruct (nth_error l (Z.to_nat (k + Z.of_nat (length l)))) eqn:Hn;
        [discriminate|].
      apply nth_error_None in Hn. lia.
    + intros [= <-]. split; [reflexivity|]. intros [Hlo Hhi].
      apply andb_false_iff in Hr as [Hr|Hr];
        [apply Z.leb_gt in Hr | apply Z.ltb_ge in Hr]; lia.
  - destruct ((0 <=? k) && (k <? Z.of_nat (length l)))%Z eqn:Hr.
    + apply andb_prop in Hr as [Hlo Hhi].
      apply Z.leb_le in Hlo. apply Z.ltb_lt in Hhi.
      destruct (nth_error l (Z.to_nat k)) eqn:Hn; [discriminate|].
      apply nth_error_None in Hn. lia.
    + intros [= <-]. split; [reflexivity|]. intros [Hlo Hhi].
      apply andb_false_iff in Hr as [Hr|Hr];
        [apply Z.leb_gt in Hr | apply Z.ltb_ge in Hr]; lia.
Qed.

(** X17. When [tiffPaired.__getitem__] raises, it is for one of four
    reasons: [IndexError] for an index outside [-len, len), [OSError] for
    a file that cannot be read, [AssertionError] for an image that does not
    have two axes, [ValueError] for an image of odd width. The crop never
    fails. *)
Theorem tiffPaired_getitem_failures (images : string -> option (ndarray R))
    (self : tiffPaired) (ind : Z) (e : pyexn) :
  tiffPaired_getitem images self ind = PRaise e ->
  (e = Std IndexError /\
   ~ (- tiffPaired_len self <= ind < tiffPaired_len self)%Z) \/
  exists path, py_list_get (tiffs self) ind = Ok path /\
    ((e = Std OSError /\ images path = None) \/
     exists img, images path = Some img /\
       ((e = Std AssertionError /\ ndim img <> 2) \/
        (e = ValueError /\
         exists h w, shape img = [h; w] /\ Nat.odd w = true))).
Proof.
  unfold tiffPaired_getitem, tiffPaired_len, imread.
  destruct (py_list_get (tiffs self) ind) as [path|e0] eqn:Hpath;
    cbn [lift_result pbind].
  2:{ intros [= <-]. left.
      destruct (py_list_get_error _ _ _ Hpath) as [-> Hout]. now split. }
  intros Hres. right. exists path. split; [reflexivity|].
  destruct (images path) as [img|]; cbn [lift_result pbind] in Hres.
  2:{ injection Hres as <-. left. now split. }
  right. exists img. split; [reflexivity|].
  destruct (ndim img =? 2) eqn:Hnd; cbn [py_assert lift_result pbind] in Hres.
  2:{ injection Hres as <-. left. split; [reflexivity|].
      now apply Nat.eqb_neq in Hnd. }
  apply Nat.eqb_eq in Hnd. unfold ndim in Hnd.
  destruct (shape img) as [|h [|w [|x rest]]] eqn:Hsh; try discriminate Hnd.
  destruct (Nat.even w) eqn:Hw.
  - exfalso.
    unfold np_split2, shape_from_end, ndim in Hres. rewrite Hsh in Hres.
    cbn [length Nat.leb Nat.sub nth lift_result pbind] in Hres.
    rewrite (even_mod2 w Hw) in Hres. cbn [pbind fst snd] in Hres.
    destruct (tiff_crop self) as [c|]; [|discriminate Hres].
    assert (Hrank : forall from to,
              2 <= ndim (stack_with_zeros (slice_axis 1 from to img))).
    { intros from to. unfold ndim, stack_with_zeros, slice_axis.
      cbn [shape]. rewrite Hsh. cbn [set_dim length]. lia. }
    destruct (center_crop_rank2_ok _ c c (Hrank 0 (w / 2))) as (r1 & E1 & _).
    destruct (center_crop_rank2_ok _ c c (Hrank (w / 2) w)) as (r2 & E2 & _).
    rewrite E1 in Hres. cbn [lift_result pbind] in Hres.
    rewrite E2 in Hres. discriminate Hres.
  - right.
    assert (Hodd : Nat.odd w = true) by (now rewrite <- Nat.negb_even, Hw).
    unfold np_split2, shape_from_end, ndim in Hres. rewrite Hsh in Hres.
    cbn [length Nat.leb Nat.sub nth lift_result pbind] in Hres.
    rewrite (odd_mod2 w Hodd) in Hres. injection Hres as <-.
    split; [reflexivity|]. exists h, w. now split.
Qed.

End TiffPairedCrop.

Lemma tiffPaired_getitem_halves_witness :
  exists t1 t2,
    tiffPaired_getitem MoreSamples.pictures (MoreSamples.gallery None) 0
      = POk (t1, t2) /\
    shape t1 = [2; 2; 2] /\ shape t2 = [2; 2; 2] /\
    get_px [0; 1; 0] (body t1) = Some (SReal (5 # 1)%Q) /\
    get_px [0; 1; 0] (body t2) = Some (SReal (7 # 1)%Q) /\
    get_px [1; 1; 0] (body t2) = Some (SReal 0%Q).
Proof.
  destruct (tiffPaired_getitem_halves MoreSamples.pictures
              (MoreSamples.gallery None) 0 "even.tif" MoreSamples.img24 2 4
              eq_refl eq_refl eq_refl eq_refl eq_refl eq_refl)
    as (t1 & t2 & Hget & S1 & S2 & _ & _ & _ & _ & Hpx).
  exists t1, t2. split; [exact Hget|].
  split; [exact S1|]. split; [exact S2|].
  destruct (Hpx 1 0 ltac:(lia) ltac:(cbn; lia)) as (P1 & P2 & _ & P4).
  split; [exact P1|]. split; [exact P2 | exact P4].
Defined.

Lemma tiffPaired_getitem_cropped_witness :
  exists t1 t2,
    tiffPaired_getitem MoreSamples.pictures (MoreSamples.gallery (Some 3)) (-3)
      = POk (t1, t2) /\
    shape t1 = [2; 3; 3] /\ shape t2 = [2; 3; 3] /\
    get_px [0; 2; 2] (body t1) = Some (SReal 0%Q) /\
    get_px [0; 1; 1] (body t2) = Some (SReal (8 # 1)%Q).
Proof.
  destruct (tiffPaired_getitem_cropped MoreSamples.pictures
              (MoreSamples.gallery (Some 3)) (-3) "even.tif" MoreSamples.img24
              2 4 3 eq_refl eq_refl eq_refl eq_refl eq_refl eq_refl)
    as (t1 & t2 & Hget & S1 & S2 & _ & _ & Hpx).
  exists t1, t2. split; [exact Hget|].
  split; [exact S1|]. split; [exact S2|].
  destruct (Hpx 2 2 ltac:(lia) ltac:(lia)) as (P1 & _).
  destruct (Hpx 1 1 ltac:(lia) ltac:(lia)) as (_ & P2 & _).
  split; [exact P1 | exact P2].
Defined.

Lemma tiffPaired_getitem_failures_witness :
  tiffPaired_getitem MoreSamples.pictures (MoreSamples.gallery (Some 3)) 1
    = PRaise ValueError /\
  exists h w, shape MoreSamples.img23 = [h; w] /\ Nat.odd w = true.
Proof.
  split; [reflexivity|].
  destruct (tiffPaired_getitem_failures MoreSamples.pictures
              (MoreSamples.gallery (Some 3)) 1 ValueError eq_refl)
    as [[Hcontra _] | (path & Hpath & [[Hcontra _] | (img & Himg & Hcase)])];
    try discriminate Hcontra.
  apply Ok_inj in Hpath. subst path.
  injection Himg as <-.
  destruct Hcase as [[Hcontra _] | [_ Hodd]];
    [discriminate Hcontra | exact Hodd].
Defined.

(** ** [get_paired_volume_datasets] *)

Lemma split_comma_nonempty (s : string) : split_comma s <> [].
Proof.
  induction s as [|c s IH]; cbn [split_comma]; [discriminate|].
  destruct (Ascii.eqb c ","%char); [discriminate|].
  destruct (split_comma s); discriminate.
Qed.

(** One pass of the flip over the draws at the positions [xs]: the list is
    reversed once for every draw above 1/2. *)
Lemma fold_flipped_true (draws : nat -> Q) (xs : list nat) (l : list string) :
  fold_left (fun l i => flipped true (draws i) l) xs l
  = if Nat.odd (length (filter (fun i => negb (Qle_bool (draws i) (1 # 2))) xs))
    then rev l else l.
Proof.
  revert l. induction xs as [|x xs IH]; intros l; [reflexivity|].
  cbn [fold_left filter]. rewrite IH. unfold flipped. cbn [andb].
  destruct (negb (Qle_bool (draws x) (1 # 2))); [|reflexivity].
  cbn [length]. rewrite Nat.odd_succ, <- Nat.negb_odd.
  destruct (Nat.odd _); cbn [negb]; [apply rev_involutive | reflexivity].
Qed.

Lemma fold_flipped_false (draws : nat -> Q) (xs : list nat) (l : list string) :
  fold_left (fun l i => flipped false (draws i) l) xs l = l.
Proof. revert l. induction xs as [|x xs IH]; intros l; [reflexivity | apply IH]. Qed.

Section PairedLists.

Context {R : Type} `{FloatOps R} `{KspaceOps R} `{StrOps}.

Lemma group_dict_tagged (fs : filesystem R) (volumes_ : list string)
    (crop_ : option nat) (q : Q) (fl : bool) (d : dict source) :
  group_dict fs volumes_ crop_ q fl = Ok d -> tagged d.
Proof.
  intros Hd.
  destruct (group_dict_inv _ _ _ _ _ _ Hd) as (vols & v0 & sample & _ & _ & _ & _ & _ & ->).
  apply dict_set_tagged; [reflexivity|].
  apply fold_dict_tagged. constructor.
Qed.

(** What one successful construction leaves behind. *)
Lemma init_success (volumes_ protocals protocals' : list string)
    (crop_ : option nat) (q : Q) (fl exch : bool) (w w' : world R)
    (self : AlignedVolumesDataset) :
  AlignedVolumesDataset_init volumes_ protocals crop_ q fl exch w
    = (Ok (self, protocals'), w') ->
  protocals' = flipped exch (rng_draws w (rng_pos w)) protocals /\
  w' = after_flip exch w /\
  group_crop self = crop_ /\
  map tag_of (volumes self) = protocals'.
Proof.
  rewrite init_run.
  destruct (group_dict (files w) volumes_ crop_ q fl) as [d|] eqn:Hd;
    [|discriminate].
  cbv zeta. unfold resolve_protocals.
  destruct (py_assert _) as [[]|]; [|discriminate]. cbn [rbind].
  destruct (mapM _ _) as [vs|] eqn:Hvs; [|discriminate]. cbn [rbind].
  intros Heq. injection Heq as <- <- <-. repeat split.
  cbn [volumes]. eapply mapM_dict_get_tags; [|exact Hvs].
  eapply group_dict_tagged. exact Hd.
Qed.

(** The loop: one group per line, the request list and the random source
    handed from each construction to the next. *)
Lemma paired_loop_inv (crop_ : option nat) (q : Q) (fl : bool)
    (basepath : option string) (exch : bool) (lines : list string) :
  forall (ps0 : list string) (acc : list AlignedVolumesDataset)
         (w w' : world R) (ds : list AlignedVolumesDataset)
         (ps : list string),
  paired_loop lines ps0 crop_ q fl basepath exch acc w = (POk (ds, ps), w') ->
  exists new,
    ds = acc ++ new /\ length new = length lines /\
    files w' = files w /\ rng_draws w' = rng_draws w /\
    rng_pos w' = rng_pos w + (if exch then length lines else 0) /\
    ps = fold_left (fun l i => flipped exch (rng_draws w i) l)
                   (seq (rng_pos w) (length lines)) ps0 /\
    forall k g, nth_error new k = Some g ->
      group_crop g = crop_ /\
      map tag_of (volumes g)
      = fold_left (fun l i => flipped exch (rng_draws w i) l)
                  (seq (rng_pos w) (S k)) ps0.
Proof.
  induction lines as [|line rest IH]; intros ps0 acc w w' ds ps Hrun;
    cbn [paired_loop] in Hrun.
  - injection Hrun as <- <- <-. exists []. rewrite app_nil_r.
    repeat split; try reflexivity.
    + destruct exch; cbn [length]; lia.
    + destruct k; discriminate.
    + destruct k; discriminate.
  - destruct (pmapM (os_path_join basepath) (split_comma (py_strip line)))
      as [dataset|]; [|discriminate].
    destruct (AlignedVolumesDataset_init dataset ps0 crop_ q fl exch w)
      as [[[g ps1]|e] w1] eqn:Hinit; [|discriminate].
    destruct (init_success _ _ _ _ _ _ _ _ _ _ Hinit)
      as (Hps1 & Hw1 & Hcrop & Htags).
    destruct (IH _ _ _ _ _ _ Hrun)
      as (new & Hds & Hlen & Hfiles & Hdraws & Hpos & Hps & Hall).
    assert (Hw1f : files w1 = files w /\ rng_draws w1 = rng_draws w)
      by (rewrite Hw1; destruct exch; split; reflexivity).
    destruct Hw1f as [Hw1f Hw1d].
    rewrite Hw1d in Hps, Hall.
    exists (g :: new). rewrite <- app_assoc in Hds. cbn [app] in Hds.
    split; [exact Hds|]. split; [cbn [length]; now rewrite Hlen|].
    split; [now rewrite Hfiles|]. split; [now rewrite Hdraws|].
    destruct exch.
    + assert (Hp1 : rng_pos w1 = S (rng_pos w)) by (now rewrite Hw1).
      rewrite Hp1 in Hpos, Hps, Hall.
      split; [cbn [length]; lia|].
      split; [cbn [length seq fold_left]; now rewrite <- Hps1|].
      intros [|k] g' Hg'.
      * injection Hg' as <-. split; [exact Hcrop|].
        cbn [seq fold_left]. now rewrite Htags.
      * destruct (Hall k g' Hg') as [Hc Ht]. split; [exact Hc|].
        rewrite Ht. cbn [seq fold_left]. now rewrite <- Hps1.
    + assert (Hp1 : rng_pos w1 = rng_pos w) by (now rewrite Hw1).
      split; [lia|]. rewrite fold_flipped_false in Hps.
      split; [rewrite fold_flipped_false; now rewrite Hps, Hps1|].
      intros [|k] g' Hg'.
      * injection Hg' as <-. split; [exact Hcrop|].
        now rewrite fold_flipped_false, Htags, Hps1.
      * destruct (Hall k g' Hg') as [Hc Ht]. split; [exact Hc|].
        rewrite Ht, !fold_flipped_false. now rewrite Hps1.
Qed.

(** X18. With [basepath] left at its default [None],
    [get_paired_volume_datasets] raises [TypeError] at the first line of the
    manifest, before any volume is opened or any random number drawn; only
    an empty manifest gives a result, the empty list. *)
Theorem paired_default_basepath (texts : string -> option (list string))
    (csv_path : string) (protocals : list string) (crop_ : option nat)
    (q : Q) (fl exch : bool) (w : world R) (lines : list string) :
  texts csv_path = Some lines ->
  get_paired_volume_datasets texts csv_path protocals crop_ q fl None exch w
  = (match lines with
     | [] => POk ([], protocals)
     | _ :: _ => PRaise TypeError
     end, w).
Proof.
  intros Htext. unfold get_paired_volume_datasets. rewrite Htext.
  destruct lines as [|line rest]; [reflexivity|]. cbn [paired_loop].
  destruct (split_comma (py_strip line)) as [|x xs] eqn:Hsplit;
    [now apply split_comma_nonempty in Hsplit|].
  reflexivity.
Qed.

(** X19. When [get_paired_volume_datasets] returns, it returns one group
    per line of the manifest, each with the requested crop and one member
    per requested protocol; no file has changed, and the random source has
    advanced by one draw per line if [exchange_Modal] is set and not at all
    otherwise. *)
Theorem paired_one_group_per_line (texts : string -> option (list string))
    (csv_path : string) (protocals : list string) (crop_ : option nat)
    (q : Q) (fl : bool) (basepath : option string) (exch : bool)
    (w w' : world R) (lines : list string)
    (ds : list AlignedVolumesDataset) (ps : list string) :
  texts csv_path = Some lines ->
  get_paired_volume_datasets texts csv_path protocals crop_ q fl basepath
    exch w = (POk (ds, ps), w') ->
  length ds = length lines /\
  Forall (fun g => group_crop g = crop_ /\
                   length (volumes g) = length protocals) ds /\
  files w' = files w /\ rng_draws w' = rng_draws w /\
  rng_pos w' = rng_pos w + (if exch then length lines else 0).
Proof.
  intros Htext. unfold get_paired_volume_datasets. rewrite Htext.
  intros Hrun.
  destruct (paired_loop_inv _ _ _ _ _ _ _ _ _ _ _ _ Hrun)
    as (new & Hds & Hlen & Hfiles & Hdraws & Hpos & _ & Hall).
  cbn [app] in Hds. subst new.
  split; [exact Hlen|]. split; [|now repeat split].
  apply Forall_forall. intros g Hg.
  apply In_nth_error in Hg as [k Hk].
  destruct (Hall k g Hk) as [Hc Ht]. split; [exact Hc|].
  rewrite <- (length_map tag_of), Ht.
  destruct exch.
  - rewrite fold_flipped_true. destruct (Nat.odd _); [apply length_rev | reflexivity].
  - now rewrite fold_flipped_false.
Qed.

(** X20. The request list is one object shared by all the groups of a call:
    group [k] lists its members in the requested order if the number of
    draws above 1/2 among the first [k + 1] is even, and in the reverse
    order if it is odd; without [exchange_Modal] every group has the
    requested order. The list the caller passed is left in the state the
    last group saw. *)
Theorem paired_order_accumulates (texts : string -> option (list string))
    (csv_path : string) (protocals : list string) (crop_ : option nat)
    (q : Q) (fl : bool) (basepath : option string) (exch : bool)
    (w w' : world R) (ds : list AlignedVolumesDataset) (ps : list string) :
  get_paired_volume_datasets texts csv_path protocals crop_ q fl basepath
    exch w = (POk (ds, ps), w') ->
  let reversals n :=
    length (filter (fun i => negb (Qle_bool (rng_draws w i) (1 # 2)))
                   (seq (rng_pos w) n)) in
  (forall k g, nth_error ds k = Some g ->
     map tag_of (volumes g)
     = if exch && Nat.odd (reversals (S k)) then rev protocals
       else protocals) /\
  ps = if exch && Nat.odd (reversals (length ds)) then rev protocals
       else protocals.
Proof.
  unfold get_paired_volume_datasets.
  destruct (texts csv_path) as [lines|]; [|discriminate].
  cbv zeta. intros Hrun.
  destruct (paired_loop_inv _ _ _ _ _ _ _ _ _ _ _ _ Hrun)
    as (new & Hds & Hlen & _ & _ & _ & Hps & Hall).
  cbn [app] in Hds. subst new. split.
  - intros k g Hk. destruct (Hall k g Hk) as [_ Ht]. rewrite Ht.
    destruct exch; cbn [andb].
    + apply fold_flipped_true.
    + apply fold_flipped_false.
  - rewrite Hps, Hlen. destruct exch; cbn [andb].
    + apply fold_flipped_true.
    + apply fold_flipped_false.
Qed.

End PairedLists.

Lemma paired_default_basepath_witness :
  get_paired_volume_datasets MoreSamples.manifest "train.csv"
    ["T1"; "T2"]%string None 0 false None true
    (Samples.world_on Samples.disk_pair (3 # 4))
  = (PRaise TypeError, Samples.world_on Samples.disk_pair (3 # 4)).
Proof.
  exact (paired_default_basepath MoreSamples.manifest "train.csv"
           ["T1"; "T2"]%string None 0 false true
           (Samples.world_on Samples.disk_pair (3 # 4)) _ eq_refl).
Defined.

Lemma paired_one_group_per_line_witness :
  exists ds ps w',
    get_paired_volume_datasets MoreSamples.manifest "train.csv"
      ["T1"; "T2"]%string None 0 false (Some EmptyString) true
      (Samples.world_on Samples.disk_pair (3 # 4)) = (POk (ds, ps), w') /\
    length ds = 2 /\ rng_pos w' = 2.
Proof.
  destruct (get_paired_volume_datasets MoreSamples.manifest "train.csv"
              ["T1"; "T2"]%string None 0 false (Some EmptyString) true
              (Samples.world_on Samples.disk_pair (3 # 4)))
    as [[[ds ps]|e] w'] eqn:Hrun; [|vm_compute in Hrun; discriminate].
  exists ds, ps, w'. split; [reflexivity|].
  destruct (paired_one_group_per_line MoreSamples.manifest "train.csv"
              ["T1"; "T2"]%string None 0 false (Some EmptyString) true
              (Samples.world_on Samples.disk_pair (3 # 4)) w' _ ds ps
              eq_refl Hrun) as (Hlen & _ & _ & _ & Hpos).
  split; [exact Hlen | exact Hpos].
Defined.

Lemma paired_order_accumulates_witness :
  exists ds ps w',
    get_paired_volume_datasets MoreSamples.manifest "train.csv"
      ["T1"; "T2"]%string None 0 false (Some EmptyString) true
      (Samples.world_on Samples.disk_pair (3 # 4)) = (POk (ds, ps), w') /\
    (forall g, nth_error ds 0 = Some g ->
       map tag_of (volumes g) = ["T2"; "T1"]%string) /\
    (forall g, nth_error ds 1 = Some g ->
       map tag_of (volumes g) = ["T1"; "T2"]%string).
Proof.
  destruct (get_paired_volume_datasets MoreSamples.manifest "train.csv"
              ["T1"; "T2"]%string None 0 false (Some EmptyString) true
              (Samples.world_on Samples.disk_pair (3 # 4)))
    as [[[ds ps]|e] w'] eqn:Hrun; [|vm_compute in Hrun; discriminate].
  exists ds, ps, w'. split; [reflexivity|].
  destruct (paired_order_accumulates MoreSamples.manifest "train.csv"
              ["T1"; "T2"]%string None 0 false (Some EmptyString) true
              (Samples.world_on Samples.disk_pair (3 # 4)) w' ds ps Hrun)
    as [Hall _].
  split; intros g Hg; exact (Hall _ g Hg).
Defined.
